(** * Wellbeing Copilot: a shallow embedding of the backend's scoring,
      CRUD and notification code, and the properties stated about it.

    Conventions of the embedding.
    - Python [float] values are binary64 numbers ([float], with the rounding
      to nearest written out over the rationals) in the BMI, TDEE and ideal
      weight code of HealthCalculator, where the rounding and the range of
      binary64 decide what the code returns and whether it raises.
      Elsewhere they are modelled by exact rationals ([Q]).  Python [int]
      values are integers ([Z]); where the source mixes both, the integer is
      injected into [Q] as Python does.
    - [Optional[T]] is [option T]; Python truthiness is written out.
    - A raised exception is the [Raise] branch of [result].
    - A database table is the list of its rows, in row order; a [datetime]
      is a point on the integer time line (microseconds). *)

From Stdlib Require Import ZArith QArith Qround Qabs Qpower List String Bool Lia Lqa.
From Stdlib Require Import DecimalString Sorted Permutation.
Import ListNotations.
Open Scope Z_scope.

(** ** Python prelude *)

Inductive py_error : Type :=
| ZeroDivisionError
| OverflowError
| TypeError
| AttributeError (class_name attribute : string)
| HTTPException (status_code : Z) (detail : string).

Inductive result (A : Type) : Type :=
| Ok (value : A)
| Raise (error : py_error).
Arguments Ok {A} value.
Arguments Raise {A} error.

Definition bind {A B : Type} (r : result A) (k : A -> result B) : result B :=
  match r with
  | Ok a => k a
  | Raise e => Raise e
  end.

Notation "x <- r ;; k" := (bind r (fun x => k))
  (at level 61, r at next level, right associativity).

Definition Qltb (a b : Q) : bool := negb (Qle_bool b a).

(** [a / b] on floats: raises on a zero divisor. *)
Definition py_div (a b : Q) : result Q :=
  if Qeq_bool b 0 then Raise ZeroDivisionError else Ok (a / b)%Q.

(** [a / b] where [a] is read from a nullable column: [None / b] is a
    TypeError, whatever [b] is. *)
Definition py_div_nullable (a : option Q) (b : Q) : result Q :=
  match a with
  | Some x => py_div x b
  | None => Raise TypeError
  end.

(** [min(a, b)] and [max(a, b)]: the first argument wins ties. *)
Definition py_min (a b : Q) : Q := if Qltb b a then b else a.
Definition py_max (a b : Q) : Q := if Qltb a b then b else a.

(** Round half to even, the tie rule of Python's [round]. *)
Definition round_half_even (x : Q) : Z :=
  let f := Qfloor x in
  let r := (x - inject_Z f)%Q in
  if Qltb r (1 # 2) then f
  else if Qltb (1 # 2) r then f + 1
  else if Z.even f then f else f + 1.

(** [round(x, ndigits)] for [ndigits >= 0]. *)
Definition py_round (x : Q) (ndigits : nat) : Q :=
  let scale := Z.to_pos (10 ^ Z.of_nat ndigits) in
  Qmake (round_half_even (x * inject_Z (Zpos scale))) scale.

(** Truthiness of [Optional[float]] and [Optional[int]]. *)
Definition truthy_float (x : option Q) : bool :=
  match x with
  | Some q => negb (Qeq_bool q 0)
  | None => false
  end.

Definition truthy_int (x : option Z) : bool :=
  match x with
  | Some z => negb (z =? 0)
  | None => false
  end.

(** [sum(l)]: a left fold from [0]. *)
Definition py_sum (l : list Q) : Q := fold_left Qplus l 0%Q.

(** ** Binary64

    A Python [float] where the rounding of binary64 decides the outcome: a
    finite number (the rational it stands for; zero is [+0.0]), [-0.0], an
    infinity or NaN. *)

Inductive float : Type :=
| Finite (q : Q)
| NegZero
| Infinity (negative : bool)
| NaN.

(** The integer part of the binary logarithm of a positive rational. *)
Definition Qlog2 (q : Q) : Z :=
  let k := Z.log2 (Qnum q) - Z.log2 (Zpos (Qden q)) in
  if Qle_bool (2 ^ k) q then k else k - 1.

(** The exponent of the unit in the last place of the binary64 numbers at a
    positive [a]: 53 significant bits, and never below the subnormal step
    2^-1074. *)
Definition ulp_exponent (a : Q) : Z := Z.max (Qlog2 a - 52) (-1074).

(** A positive rational rounded to the nearest multiple of its unit in the
    last place, ties to the even multiple. *)
Definition round_magnitude (a : Q) : Q :=
  let e := ulp_exponent a in
  (inject_Z (round_half_even (a / 2 ^ e)) * 2 ^ e)%Q.

Definition signed_zero (negative : bool) : float :=
  if negative then NegZero else Finite 0.

(** Round to the nearest binary64 value, ties to even; from 2^1024 on the
    result is infinite. *)
Definition round64 (q : Q) : float :=
  if Qeq_bool q 0 then Finite 0
  else
    let negative := Qltb q 0 in
    let r := round_magnitude (Qabs q) in
    if Qle_bool (2 ^ 1024) r then Infinity negative
    else if Qeq_bool r 0 then signed_zero negative
    else Finite (Qred (if negative then - r else r)).

Definition is_zero (x : float) : bool :=
  match x with
  | Finite q => Qeq_bool q 0
  | NegZero => true
  | _ => false
  end.

Definition sign_bit (x : float) : bool :=
  match x with
  | Finite q => Qltb q 0
  | NegZero => true
  | Infinity negative => negative
  | NaN => false
  end.

(** The number a finite float stands for. *)
Definition value (x : float) : Q :=
  match x with
  | Finite q => q
  | _ => 0
  end.

(** [x * y] *)
Definition fmul (x y : float) : float :=
  match x, y with
  | NaN, _ | _, NaN => NaN
  | Infinity s, _ => if is_zero y then NaN else Infinity (xorb s (sign_bit y))
  | _, Infinity s => if is_zero x then NaN else Infinity (xorb (sign_bit x) s)
  | _, _ =>
      if is_zero x || is_zero y then signed_zero (xorb (sign_bit x) (sign_bit y))
      else round64 (value x * value y)
  end.

(** [x / y] as the hardware divides; a zero divisor never reaches it. *)
Definition fdiv (x y : float) : float :=
  match x, y with
  | NaN, _ | _, NaN => NaN
  | Infinity _, Infinity _ => NaN
  | Infinity s, _ => Infinity (xorb s (sign_bit y))
  | _, Infinity s => signed_zero (xorb (sign_bit x) s)
  | _, _ =>
      if is_zero y
      then (if is_zero x then NaN else Infinity (xorb (sign_bit x) (sign_bit y)))
      else if is_zero x then signed_zero (xorb (sign_bit x) (sign_bit y))
      else round64 (value x / value y)
  end.

(** [x / y]: Python raises on a zero divisor, whatever the dividend. *)
Definition py_truediv (x y : float) : result float :=
  if is_zero y then Raise ZeroDivisionError else Ok (fdiv x y).

(** [x <= y]: false when either side is NaN. *)
Definition fle (x y : float) : bool :=
  match x, y with
  | NaN, _ | _, NaN => false
  | Infinity true, _ => true
  | _, Infinity false => true
  | Infinity false, _ => false
  | _, Infinity true => false
  | _, _ => Qle_bool (value x) (value y)
  end.

(** [round(x, ndigits)] with [ndigits >= 0]: the decimal expansion of [x]
    is rounded half to even, exactly, and the decimal read back as a float;
    zeros, infinities and NaN round to themselves. *)
Definition py_round_float (x : float) (ndigits : nat) : float :=
  match x with
  | Finite q =>
      if Qeq_bool q 0 then x
      else
        let r := py_round q ndigits in
        if Qeq_bool r 0 then signed_zero (Qltb q 0) else round64 r
  | _ => x
  end.

(** A float literal of the source, and an [int] operand of float arithmetic
    that is small enough to convert. *)
Definition literal (q : Q) : float := round64 q.

(** [x ** 2] ends in the C library's [pow], which is not bound to round
    correctly.  The functions that square take the library's answer as a
    parameter: [libm_pow2 x] is the number CPython obtains for a finite
    non-zero [x] and the exponent 2.0, which is [pow(|x|, 2.0)] (and 1.0,
    without a call, when [|x|] is 1).

    CPython answers for NaN, the infinities and the zeros itself, and turns
    an infinite result of the library into OverflowError; a result that
    underflows, to a subnormal number or to zero, is returned. *)
Definition py_square (libm_pow2 : Q -> float) (x : float) : result float :=
  match x with
  | NaN => Ok NaN
  | Infinity _ => Ok (Infinity false)
  | NegZero => Ok (Finite 0)
  | Finite q =>
      if Qeq_bool q 0 then Ok (Finite 0)
      else
        match libm_pow2 q with
        | Infinity _ => Raise OverflowError
        | r => Ok r
        end
  end.

(** What the C library promises of [pow]: the result is the rounding of a
    non-negative number within a sixteenth of a unit in the last place of
    the exact square (glibc documents an error below 0.54 units for its
    [pow], the rounding included). *)
Definition accurate_pow2 (libm_pow2 : Q -> float) : Prop :=
  forall x, ~ (x == 0)%Q ->
    exists y, (0 <= y)%Q
              /\ (Qabs (y - x * x) <= (1 # 16) * 2 ^ ulp_exponent (x * x))%Q
              /\ libm_pow2 x = round64 y.

(** A [pow] that rounds correctly. *)
Definition rounded_pow2 (x : Q) : float := round64 (x * x).

(** [a] is [b] up to the relative error [eps]. *)
Definition within (eps a b : Q) : Prop := ((1 - eps) * b <= a <= (1 + eps) * b)%Q.

(** ** services/health_calculations.py: HealthCalculator *)

Definition calculate_bmi (libm_pow2 : Q -> float) (weight_kg height_cm : float)
    : result float :=
  height_m <- py_truediv height_cm (literal 100) ;;
  squared <- py_square libm_pow2 height_m ;;
  bmi <- py_truediv weight_kg squared ;;
  Ok (py_round_float bmi 2).

(** The formula of the specification, [round(weight / height^2, 2)] with the
    height in metres, evaluated in binary64 without Python's exceptions. *)
Definition bmi_spec (libm_pow2 : Q -> float) (weight_kg height_cm : float) : float :=
  let height := fdiv height_cm (literal 100) in
  let squared :=
    match height with
    | Finite q => if Qeq_bool q 0 then Finite 0 else libm_pow2 q
    | NegZero => Finite 0
    | Infinity _ => Infinity false
    | NaN => NaN
    end in
  py_round_float (fdiv weight_kg squared) 2.

(** The same formula in exact arithmetic. *)
Definition bmi_exact (weight_kg height_cm : Q) : Q :=
  let height := (height_cm / 100)%Q in
  py_round (weight_kg / (height * height)) 2.

Record component_score : Type := {
  score : Q;
  max : Z
}.

Record health_score : Type := {
  overall_score : Q;
  max_score : Z;
  percentage : Q;
  grade : string;
  breakdown : list (string * component_score)
}.

Definition bmi_points (bmi : option Q) : Z :=
  match bmi with
  | Some b =>
      if truthy_float bmi then
        if Qle_bool 18.5 b && Qltb b 25 then 20
        else if (Qle_bool 17 b && Qltb b 18.5) || (Qle_bool 25 b && Qltb b 27) then 15
        else if (Qle_bool 16 b && Qltb b 17) || (Qle_bool 27 b && Qltb b 30) then 10
        else 5
      else 0
  | None => 0
  end.

Definition sleep_points (sleep_avg : option Q) : Z :=
  match sleep_avg with
  | Some s =>
      if truthy_float sleep_avg then
        if Qle_bool 7 s && Qle_bool s 9 then 20
        else if (Qle_bool 6 s && Qltb s 7) || (Qltb 9 s && Qle_bool s 10) then 15
        else if (Qle_bool 5 s && Qltb s 6) || (Qltb 10 s && Qle_bool s 11) then 10
        else 5
      else 0
  | None => 0
  end.

Definition exercise_points (exercise_days : option Z) : Z :=
  match exercise_days with
  | Some d =>
      if d >=? 5 then 25
      else if d >=? 3 then 20
      else if d >=? 1 then 15
      else 5
  | None => 0
  end.

Definition nutrition_points (nutrition_score : option Q) : Q :=
  match nutrition_score with
  | Some n => (n / 100) * 20
  | None => 0
  end.

Definition blood_pressure_points (blood_pressure_systolic : option Z) : Q :=
  match blood_pressure_systolic with
  | Some bp =>
      if truthy_int blood_pressure_systolic then
        if (90 <=? bp) && (bp <=? 120) then 7.5
        else if (121 <=? bp) && (bp <=? 129) then 5
        else 2.5
      else 0
  | None => 0
  end.

Definition heart_rate_points (heart_rate : option Z) : Q :=
  match heart_rate with
  | Some hr =>
      if truthy_int heart_rate then
        if (60 <=? hr) && (hr <=? 80) then 7.5
        else if ((50 <=? hr) && (hr <? 60)) || ((80 <? hr) && (hr <=? 100)) then 5
        else 2.5
      else 0
  | None => 0
  end.

Definition grade_of (percentage : Q) : string :=
  if Qle_bool 90 percentage then "A+"
  else if Qle_bool 80 percentage then "A"
  else if Qle_bool 70 percentage then "B"
  else if Qle_bool 60 percentage then "C"
  else if Qle_bool 50 percentage then "D"
  else "F".

Definition calculate_health_score
    (bmi sleep_avg : option Q) (exercise_days : option Z)
    (nutrition_score : option Q)
    (blood_pressure_systolic heart_rate : option Z) : health_score :=
  let scores :=
    [ ("bmi", {| score := inject_Z (bmi_points bmi); max := 20 |});
      ("sleep", {| score := inject_Z (sleep_points sleep_avg); max := 20 |});
      ("exercise", {| score := inject_Z (exercise_points exercise_days); max := 25 |});
      ("nutrition", {| score := py_round (nutrition_points nutrition_score) 2; max := 20 |});
      ("vitals",
       {| score := py_round (0 + blood_pressure_points blood_pressure_systolic
                               + heart_rate_points heart_rate) 2;
          max := 15 |}) ]%string in
  let total_score := py_sum (map (fun s => score (snd s)) scores) in
  let max_score := fold_right Z.add 0 (map (fun s => max (snd s)) scores) in
  let percentage :=
    if max_score >? 0 then (total_score / inject_Z max_score * 100)%Q else 0%Q in
  {| overall_score := py_round total_score 2;
     max_score := max_score;
     percentage := py_round percentage 2;
     grade := grade_of percentage;
     breakdown := scores |}.

(** ** datetime

    A naive [datetime] is its number of microseconds since 1970-01-01T00:00;
    the civil calendar is the proleptic Gregorian one of Python's
    [datetime] module. *)

Definition datetime : Type := Z.

Definition day_us : Z := 86400 * 1000000.

Definition days_from_civil (y m d : Z) : Z :=
  let y' := if m <=? 2 then y - 1 else y in
  let era := y' / 400 in
  let yoe := y' - era * 400 in
  let mp := (m + 9) mod 12 in
  let doy := (153 * mp + 2) / 5 + d - 1 in
  let doe := yoe * 365 + yoe / 4 - yoe / 100 + doy in
  era * 146097 + doe - 719468.

Definition civil_from_days (z : Z) : Z * Z * Z :=
  let z := z + 719468 in
  let era := z / 146097 in
  let doe := z - era * 146097 in
  let yoe := (doe - doe / 1460 + doe / 36524 - doe / 146096) / 365 in
  let doy := doe - (365 * yoe + yoe / 4 - yoe / 100) in
  let mp := (5 * doy + 2) / 153 in
  let d := doy - (153 * mp + 2) / 5 + 1 in
  let m := if mp <? 10 then mp + 3 else mp - 9 in
  (if m <=? 2 then yoe + era * 400 + 1 else yoe + era * 400, m, d).

(** [datetime(t.year, t.month, 1)]. *)
Definition month_start (t : datetime) : datetime :=
  let '(y, m, _) := civil_from_days (t / day_us) in
  days_from_civil y m 1 * day_us.

(** [t.replace(day=1)]: the time of day is kept. *)
Definition replace_day_1 (t : datetime) : datetime :=
  month_start t + t mod day_us.

Definition datetime_min : datetime := days_from_civil 1 1 1 * day_us.
Definition datetime_max : datetime := days_from_civil 9999 12 31 * day_us + (day_us - 1).

(** [timedelta(days=days)], in microseconds. *)
Definition timedelta_days (days : Z) : result Z :=
  if Z.abs days <=? 999999999 then Ok (days * day_us) else Raise OverflowError.

(** [t - delta] on a datetime and a timedelta. *)
Definition datetime_sub (t : datetime) (delta : Z) : result datetime :=
  let r := t - delta in
  if (datetime_min <=? r) && (r <=? datetime_max) then Ok r else Raise OverflowError.

(** ** ORM models (models/*.py)

    Each record carries the columns the embedded code reads or writes; the
    [*_attributes] lists carry every attribute name the mapped class
    declares.  Reading an attribute a class does not declare raises
    [AttributeError]; [undeclared_attribute] asks for the evidence that the
    name is indeed absent from the class. *)

Inductive TransactionType : Type := INCOME | EXPENSE | TRANSFER.

Inductive TransactionCategory : Type :=
| SALARY | FREELANCE | INVESTMENT_INCOME | OTHER_INCOME
| HOUSING | TRANSPORTATION | FOOD | UTILITIES | HEALTHCARE | ENTERTAINMENT
| SHOPPING | EDUCATION | DEBT_PAYMENT | SAVINGS | OTHER_EXPENSE.

Record Transaction : Type := {
  tx_id : Z;
  tx_user_id : Z;
  tx_transaction_type : TransactionType;
  tx_category : TransactionCategory;
  tx_amount : Q;
  tx_description : option string;
  tx_transaction_date : datetime;
  tx_merchant : option string;
  tx_tags : option string;
  tx_created_at : datetime;
  tx_updated_at : option datetime
}.

Definition Transaction_attributes : list string :=
  [ "id"; "user_id"; "transaction_type"; "category"; "amount"; "description";
    "transaction_date"; "merchant"; "tags"; "created_at"; "updated_at";
    "user" ]%string.

Record Investment : Type := {
  inv_id : Z;
  inv_user_id : Z;
  inv_quantity : Q;
  inv_purchase_price : Q;
  inv_current_price : option Q
}.

Record Debt : Type := {
  Debt_id : Z;
  Debt_user_id : Z;
  Debt_name : string;
  Debt_current_balance : Q;
  Debt_interest_rate : Q;
  Debt_minimum_payment : Q;
  Debt_is_active : option Z
}.

Record WorkSession : Type := {
  ws_id : Z;
  ws_user_id : Z;
  ws_start_time : datetime;
  ws_end_time : datetime;
  ws_duration_hours : Q
}.

Definition WorkSession_attributes : list string :=
  [ "id"; "user_id"; "start_time"; "end_time"; "duration_hours"; "work_type";
    "project"; "is_overtime"; "location"; "breaks_taken";
    "productivity_rating"; "stress_level"; "notes"; "created_at";
    "updated_at"; "user" ]%string.

Record BoundaryViolation : Type := {
  bv_id : Z;
  bv_boundary_id : Z;
  bv_violation_date : datetime;
  bv_impact : Z;
  bv_created_at : datetime
}.

Definition BoundaryViolation_attributes : list string :=
  [ "id"; "boundary_id"; "violation_date"; "circumstances"; "impact";
    "was_necessary"; "lesson_learned"; "created_at"; "boundary" ]%string.

(** models/wellbeing.py *)
Record SleepEntry : Type := {
  se_id : Z;
  se_user_id : Z;
  se_sleep_hours : Q;
  se_sleep_quality : Z;
  se_created_at : datetime
}.

Record MoodEntry : Type := {
  me_id : Z;
  me_user_id : Z;
  me_mood_score : Z;
  me_energy_level : Z;
  me_stress_level : Z;
  me_created_at : datetime
}.

(** models/health.py, imported by the engine as [HealthExercise] *)
Record Exercise : Type := {
  ex_id : Z;
  ex_user_id : Z;
  ex_duration_minutes : Z;
  ex_exercise_date : datetime
}.

Definition Exercise_attributes : list string :=
  [ "id"; "user_id"; "exercise_type"; "name"; "duration_minutes";
    "calories_burned"; "intensity"; "distance"; "heart_rate_avg";
    "heart_rate_max"; "notes"; "exercise_date"; "created_at"; "updated_at";
    "user" ]%string.

Record DeepWorkSession : Type := {
  dw_id : Z;
  dw_user_id : Z;
  dw_start_time : datetime;
  dw_duration_minutes : Z;
  dw_focus_score : Z
}.

Definition declares (attributes : list string) (name : string) : bool :=
  existsb (String.eqb name) attributes.

Definition undeclared_attribute {A : Type} (class_name : string)
    (attributes : list string) (name : string)
    (absent : declares attributes name = false) : result A :=
  Raise (AttributeError class_name name).

(** models/user.py and models/preferences.py *)
Record User : Type := {
  User_id : Z;
  User_email : string
}.

Record UserPreferences : Type := {
  up_id : Z;
  up_user_id : Z;
  enable_email_notifications : option bool;
  enable_push_notifications : option bool;
  daily_briefing_enabled : option bool;
  alert_critical_enabled : option bool;
  alert_high_enabled : option bool
}.

Definition json : Type := string.

Record NotificationLog : Type := {
  nl_id : Z;
  nl_user_id : Z;
  nl_notification_type : string;
  nl_category : string;
  nl_title : string;
  nl_message : string;
  nl_status : string;
  nl_delivery_method : option string;
  nl_sent_at : datetime;
  nl_delivered_at : option datetime;
  nl_read_at : option datetime;
  nl_extra_data : option json
}.

(** The session's view of the database: one list of rows per table. *)
Record database : Type := {
  users : list User;
  transactions : list Transaction;
  investments : list Investment;
  debts : list Debt;
  work_sessions : list WorkSession;
  boundary_violations : list BoundaryViolation;
  sleep_entries : list SleepEntry;
  mood_entries : list MoodEntry;
  exercises : list Exercise;
  deep_work_sessions : list DeepWorkSession;
  user_preferences : list UserPreferences;
  notification_logs : list NotificationLog
}.

(** ** Query helpers *)

(** Stable insertion sort; [before x y] says that [x] may stand in front of
    an element [y] that came after it. *)
Fixpoint insert_by {A : Type} (before : A -> A -> bool) (x : A) (l : list A) : list A :=
  match l with
  | [] => [x]
  | y :: l' => if before x y then x :: y :: l' else y :: insert_by before x l'
  end.

Definition sort_by {A : Type} (before : A -> A -> bool) (l : list A) : list A :=
  fold_right (insert_by before) [] l.

(** [.first()] *)
Definition first {A : Type} (l : list A) : option A := hd_error l.

(** [.count()] *)
Definition count {A : Type} (l : list A) : Z := Z.of_nat (List.length l).

Fixpoint fold_result {A S : Type} (f : S -> A -> result S) (l : list A) (s : S) : result S :=
  match l with
  | [] => Ok s
  | x :: l' => s' <- f s x ;; fold_result f l' s'
  end.

(** [d[k] = d.get(k, 0) + v] on an insertion-ordered dict. *)
Fixpoint dict_add {K : Type} (eqb : K -> K -> bool) (d : list (K * Q)) (k : K) (v : Q)
    : list (K * Q) :=
  match d with
  | [] => [(k, 0 + v)%Q]
  | (k', v') :: d' =>
      if eqb k' k then (k', v' + v)%Q :: d' else (k', v') :: dict_add eqb d' k v
  end.

(** [x or 0] on a nullable integer. *)
Definition or_zero (x : option Z) : Z :=
  match x with
  | Some z => if z =? 0 then 0 else z
  | None => 0
  end.

(** [np.mean] of a non-empty list of integers. *)
Definition np_mean (l : list Z) : Q :=
  (py_sum (map inject_Z l) / inject_Z (count l))%Q.

(** ** services/intelligence_engine.py: IntelligenceEngine *)

Record correlation : Type := {
  pillar_1 : string;
  metric_1 : string;
  pillar_2 : string;
  metric_2 : string;
  correlation_coefficient : Q;
  p_value : Q;
  sample_size : Z;
  strength : string;
  direction : string;
  is_significant : bool
}.

Record health_timeseries : Type := {
  sleep_hours : list Q;
  sleep_quality : list Z;
  exercise_minutes : list Z
}.

Record productivity_timeseries : Type := {
  focus_scores : list Z;
  deep_work_minutes : list Z
}.

Record wellbeing_timeseries : Type := {
  mood_scores : list Z;
  stress_levels : list Z;
  energy_levels : list Z
}.

Definition _get_financial_timeseries (db : database) (user_id : Z) (cutoff_date : datetime)
    : result (list Q) :=
  Transaction_date <-
    undeclared_attribute "Transaction" Transaction_attributes "date" eq_refl ;;
  let transactions :=
    sort_by (fun a b => Transaction_date a <=? Transaction_date b)
      (filter (fun t => (tx_user_id t =? user_id) && (cutoff_date <=? Transaction_date t))
         (transactions db)) in
  let daily_spending :=
    fold_left
      (fun d t =>
         match tx_transaction_type t with
         | EXPENSE => dict_add Z.eqb d (Transaction_date t / day_us) (tx_amount t)
         | _ => d
         end)
      transactions [] in
  Ok (map snd daily_spending).

Definition _get_health_timeseries (db : database) (user_id : Z) (cutoff_date : datetime)
    : result health_timeseries :=
  let sleep_data :=
    sort_by (fun a b => se_created_at a <=? se_created_at b)
      (filter (fun s => (se_user_id s =? user_id) && (cutoff_date <=? se_created_at s))
         (sleep_entries db)) in
  HealthExercise_performed_at <-
    undeclared_attribute "Exercise" Exercise_attributes "performed_at" eq_refl ;;
  let exercise_data :=
    sort_by (fun a b => HealthExercise_performed_at a <=? HealthExercise_performed_at b)
      (filter (fun e => (ex_user_id e =? user_id)
                        && (cutoff_date <=? HealthExercise_performed_at e))
         (exercises db)) in
  Ok {| sleep_hours := map se_sleep_hours sleep_data;
        sleep_quality := map se_sleep_quality sleep_data;
        exercise_minutes := map ex_duration_minutes exercise_data |}.

Definition _get_worklife_timeseries (db : database) (user_id : Z) (cutoff_date : datetime)
    : result (list Q) :=
  let work_sessions :=
    sort_by (fun a b => ws_start_time a <=? ws_start_time b)
      (filter (fun s => (ws_user_id s =? user_id) && (cutoff_date <=? ws_start_time s))
         (work_sessions db)) in
  daily_work_hours <-
    fold_result
      (fun d s =>
         duration_minutes <-
           undeclared_attribute (A := WorkSession -> option Z)
             "WorkSession" WorkSession_attributes "duration_minutes" eq_refl ;;
         Ok (dict_add Z.eqb d (ws_start_time s / day_us)
               (inject_Z (or_zero (duration_minutes s)) / 60)))
      work_sessions [] ;;
  Ok (map snd daily_work_hours).

Definition _get_productivity_timeseries (db : database) (user_id : Z) (cutoff_date : datetime)
    : result productivity_timeseries :=
  let deep_work :=
    sort_by (fun a b => dw_start_time a <=? dw_start_time b)
      (filter (fun s => (dw_user_id s =? user_id) && (cutoff_date <=? dw_start_time s))
         (deep_work_sessions db)) in
  Ok {| focus_scores := map dw_focus_score deep_work;
        deep_work_minutes := map dw_duration_minutes deep_work |}.

Definition _get_wellbeing_timeseries (db : database) (user_id : Z) (cutoff_date : datetime)
    : result wellbeing_timeseries :=
  let mood_data :=
    sort_by (fun a b => me_created_at a <=? me_created_at b)
      (filter (fun m => (me_user_id m =? user_id) && (cutoff_date <=? me_created_at m))
         (mood_entries db)) in
  Ok {| mood_scores := map me_mood_score mood_data;
        stress_levels := map me_stress_level mood_data;
        energy_levels := map me_energy_level mood_data |}.

(** The five placeholders. *)
Definition _correlate_spending_vs_stress
    (financial_data : list Q) (wellbeing_data : wellbeing_timeseries) : list correlation := [].

Definition _correlate_work_hours_vs_health
    (worklife_data : list Q) (health_data : health_timeseries) : list correlation := [].

Definition _correlate_sleep_vs_productivity
    (health_data : health_timeseries) (productivity_data : productivity_timeseries)
    : list correlation := [].

Definition _correlate_exercise_vs_mood
    (health_data : health_timeseries) (wellbeing_data : wellbeing_timeseries)
    : list correlation := [].

Definition _correlate_meetings_vs_focus
    (worklife_data : list Q) (productivity_data : productivity_timeseries)
    : list correlation := [].

Definition analyze_correlations (db : database) (user_id : Z) (utcnow : datetime) (days : Z)
    : result (list correlation) :=
  delta <- timedelta_days days ;;
  cutoff_date <- datetime_sub utcnow delta ;;
  let correlations := [] in
  financial_data <- _get_financial_timeseries db user_id cutoff_date ;;
  health_data <- _get_health_timeseries db user_id cutoff_date ;;
  worklife_data <- _get_worklife_timeseries db user_id cutoff_date ;;
  productivity_data <- _get_productivity_timeseries db user_id cutoff_date ;;
  wellbeing_data <- _get_wellbeing_timeseries db user_id cutoff_date ;;
  let correlations := correlations ++ _correlate_spending_vs_stress financial_data wellbeing_data in
  let correlations := correlations ++ _correlate_work_hours_vs_health worklife_data health_data in
  let correlations := correlations ++ _correlate_sleep_vs_productivity health_data productivity_data in
  let correlations := correlations ++ _correlate_exercise_vs_mood health_data wellbeing_data in
  let correlations := correlations ++ _correlate_meetings_vs_focus worklife_data productivity_data in
  Ok correlations.

Record burnout_factors : Type := {
  work_hours : Q;
  boundary_violations_ : Z;
  sleep_quality_ : Q
}.

Record burnout_prediction : Type := {
  prediction_type : string;
  pillar : string;
  target_metric : string;
  current_value : Q;
  predicted_value : Q;
  confidence_level : Q;
  factors : burnout_factors;
  trend_direction : string;
  likelihood : string;
  recommendations : list string
}.

Definition _burnout_prevention_recommendations (risk_score : Q) : list string :=
  let recs := [] in
  let recs :=
    if Qltb 50 risk_score
    then recs ++ [ "Schedule immediate time off or vacation";
                   "Reduce work hours to 40 hours per week maximum" ]%string
    else recs in
  let recs :=
    if Qltb 30 risk_score
    then recs ++ [ "Set strict boundaries for after-hours work";
                   "Improve sleep quality through better sleep hygiene" ]%string
    else recs in
  recs ++ [ "Practice daily stress management techniques";
            "Increase physical activity and exercise" ]%string.

(** The three [risk_score += ...] lines of [predict_burnout_risk]. *)
Definition burnout_risk_score (avg_daily_hours : Q) (violations : Z) (avg_sleep_quality : Q)
    : Q :=
  let risk_score := 0%Q in
  let risk_score :=
    (risk_score
     + if Qltb 8 avg_daily_hours then py_min 40 ((avg_daily_hours - 8) * 5) else 0)%Q in
  let risk_score := (risk_score + py_min 30 (inject_Z violations * 2.5))%Q in
  let risk_score := (risk_score + py_max 0 ((7 - avg_sleep_quality) * 4))%Q in
  risk_score.

Definition predict_burnout_risk (db : database) (user_id : Z) (utcnow : datetime)
    : result burnout_prediction :=
  let cutoff_date := utcnow - 30 * day_us in
  let work_sessions :=
    filter (fun s => (ws_user_id s =? user_id) && (cutoff_date <=? ws_start_time s))
      (work_sessions db) in
  total_work_minutes <-
    fold_result
      (fun total s =>
         duration_minutes <-
           undeclared_attribute (A := WorkSession -> option Z)
             "WorkSession" WorkSession_attributes "duration_minutes" eq_refl ;;
         Ok (total + or_zero (duration_minutes s)))
      work_sessions 0 ;;
  let avg_daily_hours := (inject_Z total_work_minutes / 60 / 30)%Q in
  BoundaryViolation_user_id <-
    undeclared_attribute (A := BoundaryViolation -> Z)
      "BoundaryViolation" BoundaryViolation_attributes "user_id" eq_refl ;;
  BoundaryViolation_occurred_at <-
    undeclared_attribute (A := BoundaryViolation -> datetime)
      "BoundaryViolation" BoundaryViolation_attributes "occurred_at" eq_refl ;;
  let violations :=
    count (filter (fun v => (BoundaryViolation_user_id v =? user_id)
                            && (cutoff_date <=? BoundaryViolation_occurred_at v))
             (boundary_violations db)) in
  let sleep_entries :=
    filter (fun s => (se_user_id s =? user_id) && (cutoff_date <=? se_created_at s))
      (sleep_entries db) in
  let avg_sleep_quality :=
    match sleep_entries with
    | [] => 5%Q
    | _ => np_mean (map se_sleep_quality sleep_entries)
    end in
  let risk_score := burnout_risk_score avg_daily_hours violations avg_sleep_quality in
  Ok {| prediction_type := "burnout";
        pillar := "worklife";
        target_metric := "burnout_risk";
        current_value := risk_score;
        predicted_value := py_min 100 (risk_score * 1.1);
        confidence_level := 75;
        factors := {| work_hours := avg_daily_hours;
                      boundary_violations_ := violations;
                      sleep_quality_ := avg_sleep_quality |};
        trend_direction := if Qltb risk_score 50 then "stable" else "declining";
        likelihood :=
          if Qltb risk_score 20 then "very_low"
          else if Qltb risk_score 40 then "low"
          else if Qltb risk_score 60 then "medium"
          else if Qltb risk_score 80 then "high"
          else "very_high";
        recommendations := _burnout_prevention_recommendations risk_score |}.

(** ** api/endpoints/financial.py

    A handler takes the session's database and the authenticated user and
    gives back the database after the request and either the response or
    the raised [HTTPException]. *)

Record response (A : Type) : Type := {
  status_code : Z;
  body : A
}.
Arguments status_code {A} r.
Arguments body {A} r.

(** schemas/financial.py: TransactionCreate *)
Record TransactionCreate : Type := {
  tc_transaction_type : TransactionType;
  tc_category : TransactionCategory;
  tc_amount : Q;
  tc_description : option string;
  tc_transaction_date : datetime;
  tc_merchant : option string;
  tc_tags : option string
}.

(** [amount: float = Field(..., gt=0)] *)
Definition valid_TransactionCreate (p : TransactionCreate) : bool := Qltb 0 (tc_amount p).

(** The integer primary key the database gives a new row. *)
Definition fresh_id (ids : list Z) : Z := fold_right Z.max 0 ids + 1.

Definition set_transactions (db : database) (rows : list Transaction) : database :=
  {| users := users db; transactions := rows; investments := investments db;
     debts := debts db; work_sessions := work_sessions db;
     boundary_violations := boundary_violations db; sleep_entries := sleep_entries db;
     mood_entries := mood_entries db; exercises := exercises db;
     deep_work_sessions := deep_work_sessions db;
     user_preferences := user_preferences db;
     notification_logs := notification_logs db |}.

Definition create_transaction (transaction_data : TransactionCreate) (now : datetime)
    (db : database) (current_user : User)
    : database * result (response Transaction) :=
  if valid_TransactionCreate transaction_data then
    let transaction :=
      {| tx_id := fresh_id (map tx_id (transactions db));
         tx_user_id := User_id current_user;
         tx_transaction_type := tc_transaction_type transaction_data;
         tx_category := tc_category transaction_data;
         tx_amount := tc_amount transaction_data;
         tx_description := tc_description transaction_data;
         tx_transaction_date := tc_transaction_date transaction_data;
         tx_merchant := tc_merchant transaction_data;
         tx_tags := tc_tags transaction_data;
         tx_created_at := now;
         tx_updated_at := None |} in
    (set_transactions db (transactions db ++ [transaction]),
     Ok {| status_code := 201; body := transaction |})
  else (db, Raise (HTTPException 422 "Unprocessable Entity")).

Definition TransactionType_eqb (a b : TransactionType) : bool :=
  match a, b with
  | INCOME, INCOME | EXPENSE, EXPENSE | TRANSFER, TRANSFER => true
  | _, _ => false
  end.

(** [category.value] *)
Definition category_value (c : TransactionCategory) : string :=
  match c with
  | SALARY => "salary" | FREELANCE => "freelance"
  | INVESTMENT_INCOME => "investment_income" | OTHER_INCOME => "other_income"
  | HOUSING => "housing" | TRANSPORTATION => "transportation" | FOOD => "food"
  | UTILITIES => "utilities" | HEALTHCARE => "healthcare"
  | ENTERTAINMENT => "entertainment" | SHOPPING => "shopping"
  | EDUCATION => "education" | DEBT_PAYMENT => "debt_payment"
  | SAVINGS => "savings" | OTHER_EXPENSE => "other_expense"
  end.

Definition TransactionCategory_eqb (a b : TransactionCategory) : bool :=
  String.eqb (category_value a) (category_value b).

(** An optional filter of [get_transactions]: applied when the argument is given. *)
Definition filter_opt {A B : Type} (arg : option B) (p : B -> A -> bool) (l : list A) : list A :=
  match arg with
  | Some v => filter (p v) l
  | None => l
  end.

(** [.offset(skip).limit(limit)] as SQLite runs them: a negative offset is no
    offset, a negative limit is no limit. *)
Definition offset {A : Type} (skip : Z) (l : list A) : list A := skipn (Z.to_nat skip) l.
Definition limit_ {A : Type} (limit : Z) (l : list A) : list A :=
  if limit <? 0 then l else firstn (Z.to_nat limit) l.

Definition get_transactions (skip limit : Z)
    (transaction_type : option TransactionType) (category : option TransactionCategory)
    (start_date end_date : option datetime) (min_amount max_amount : option Q)
    (db : database) (current_user : User)
    : database * result (response (list Transaction)) :=
  let query := filter (fun t => tx_user_id t =? User_id current_user) (transactions db) in
  let query :=
    filter_opt transaction_type
      (fun v t => TransactionType_eqb (tx_transaction_type t) v) query in
  let query :=
    filter_opt category (fun v t => TransactionCategory_eqb (tx_category t) v) query in
  let query := filter_opt start_date (fun v t => v <=? tx_transaction_date t) query in
  let query := filter_opt end_date (fun v t => tx_transaction_date t <=? v) query in
  let query := filter_opt min_amount (fun v t => Qle_bool v (tx_amount t)) query in
  let query := filter_opt max_amount (fun v t => Qle_bool (tx_amount t) v) query in
  let transactions :=
    limit_ limit
      (offset skip
         (sort_by (fun a b => tx_transaction_date b <=? tx_transaction_date a) query)) in
  (db, Ok {| status_code := 200; body := transactions |}).

(** The query [get_transaction] and [delete_transaction] both start with:
    [filter(Transaction.id == transaction_id,
            Transaction.user_id == current_user.id).first()]. *)
Definition find_transaction (transaction_id : Z) (db : database) (current_user : User)
    : option Transaction :=
  first (filter (fun t => (tx_id t =? transaction_id)
                          && (tx_user_id t =? User_id current_user))
           (transactions db)).

Definition get_transaction (transaction_id : Z) (db : database) (current_user : User)
    : database * result (response Transaction) :=
  match find_transaction transaction_id db current_user with
  | None => (db, Raise (HTTPException 404 "Transaction not found"))
  | Some transaction => (db, Ok {| status_code := 200; body := transaction |})
  end.

Definition delete_transaction (transaction_id : Z) (db : database) (current_user : User)
    : database * result (response unit) :=
  match find_transaction transaction_id db current_user with
  | None => (db, Raise (HTTPException 404 "Transaction not found"))
  | Some transaction =>
      (set_transactions db
         (filter (fun t => negb (tx_id t =? tx_id transaction)) (transactions db)),
       Ok {| status_code := 204; body := tt |})
  end.

Record dashboard : Type := {
  current_balance : Q;
  net_worth : Q;
  current_month_income : Q;
  current_month_expenses : Q;
  current_month_net : Q;
  current_month_savings_rate : Q;
  last_month_income : Q;
  last_month_expenses : Q;
  last_month_net : Q;
  income_change_percent : Q;
  expense_change_percent : Q;
  spending_by_category : list (string * Q);
  investments_total_value : Q;
  investments_count : Z;
  debts_total_balance : Q;
  debts_count : Z;
  financial_health_score : Q
}.

(** [sum(t.amount for t in rows if t.transaction_type == ty)] *)
Definition sum_amounts (ty : TransactionType) (rows : list Transaction) : Q :=
  py_sum (map tx_amount
            (filter (fun t => TransactionType_eqb (tx_transaction_type t) ty) rows)).

(** [inv.current_price or inv.purchase_price] *)
Definition price_of (inv : Investment) : Q :=
  if truthy_float (inv_current_price inv)
  then match inv_current_price inv with Some p => p | None => inv_purchase_price inv end
  else inv_purchase_price inv.

Definition is_active_1 (flag : option Z) : bool :=
  match flag with
  | Some f => f =? 1
  | None => false
  end.

(** Lines 729-733: the clamped weighted sum. *)
Definition dashboard_health_score (savings_rate investment_value total_debt : Q) : Q :=
  py_min 100 (py_max 0
    ((savings_rate * 0.4)
     + (py_min 100 ((investment_value / 10000) * 10) * 0.3)
     + (py_max 0 (100 - (total_debt / 1000)) * 0.3))).

Definition get_financial_dashboard (now : datetime) (db : database) (current_user : User)
    : database * result (response dashboard) :=
  let current_month_start := month_start now in
  let last_month_start := replace_day_1 (current_month_start - 1 * day_us) in
  let current_month_transactions :=
    filter (fun t => (tx_user_id t =? User_id current_user)
                     && (current_month_start <=? tx_transaction_date t))
      (transactions db) in
  let last_month_transactions :=
    filter (fun t => (tx_user_id t =? User_id current_user)
                     && (last_month_start <=? tx_transaction_date t)
                     && (tx_transaction_date t <? current_month_start))
      (transactions db) in
  let current_income := sum_amounts INCOME current_month_transactions in
  let current_expenses := sum_amounts EXPENSE current_month_transactions in
  let last_income := sum_amounts INCOME last_month_transactions in
  let last_expenses := sum_amounts EXPENSE last_month_transactions in
  let category_spending :=
    fold_left
      (fun d transaction =>
         match tx_transaction_type transaction with
         | EXPENSE =>
             dict_add String.eqb d (category_value (tx_category transaction))
               (tx_amount transaction)
         | _ => d
         end)
      current_month_transactions [] in
  let all_transactions :=
    filter (fun t => tx_user_id t =? User_id current_user) (transactions db) in
  let total_income_all_time := sum_amounts INCOME all_transactions in
  let total_expenses_all_time := sum_amounts EXPENSE all_transactions in
  let investments :=
    filter (fun inv => inv_user_id inv =? User_id current_user) (investments db) in
  let investment_value :=
    py_sum (map (fun inv => inv_quantity inv * price_of inv)%Q investments) in
  let debts :=
    filter (fun d => (Debt_user_id d =? User_id current_user)
                     && is_active_1 (Debt_is_active d))
      (debts db) in
  let total_debt := py_sum (map Debt_current_balance debts) in
  let net_worth :=
    ((total_income_all_time - total_expenses_all_time) + investment_value - total_debt)%Q in
  let income_change :=
    if Qltb 0 last_income then ((current_income - last_income) / last_income * 100)%Q
    else 0%Q in
  let expense_change :=
    if Qltb 0 last_expenses then ((current_expenses - last_expenses) / last_expenses * 100)%Q
    else 0%Q in
  let savings_rate :=
    if Qltb 0 current_income
    then ((current_income - current_expenses) / current_income * 100)%Q
    else 0%Q in
  let health_score := dashboard_health_score savings_rate investment_value total_debt in
  (db,
   Ok {| status_code := 200;
         body :=
           {| current_balance := current_income - current_expenses;
              net_worth := py_round net_worth 2;
              current_month_income := py_round current_income 2;
              current_month_expenses := py_round current_expenses 2;
              current_month_net := py_round (current_income - current_expenses) 2;
              current_month_savings_rate := py_round savings_rate 2;
              last_month_income := py_round last_income 2;
              last_month_expenses := py_round last_expenses 2;
              last_month_net := py_round (last_income - last_expenses) 2;
              income_change_percent := py_round income_change 2;
              expense_change_percent := py_round expense_change 2;
              spending_by_category :=
                map (fun kv => (fst kv, py_round (snd kv) 2))
                  (sort_by (fun a b => Qle_bool (snd b) (snd a)) category_spending);
              investments_total_value := py_round investment_value 2;
              investments_count := count investments;
              debts_total_balance := py_round total_debt 2;
              debts_count := count debts;
              financial_health_score := py_round health_score 2 |} |}).

(** *** calculate_debt_payoff_strategy *)

(** The dict built for each debt in [debt_data]. *)
Record debt_entry : Type := {
  id : Z;
  name : string;
  balance : Q;
  interest_rate : Q;
  minimum_payment : Q
}.

Definition set_balance (debt : debt_entry) (b : Q) : debt_entry :=
  {| id := id debt; name := name debt; balance := b;
     interest_rate := interest_rate debt; minimum_payment := minimum_payment debt |}.

Record timeline_event : Type := {
  month : Z;
  debt_name : string
}.

(** The variables the [while] loop reads and writes. *)
Record payoff_state : Type := {
  remaining_debts : list debt_entry;
  current_month : Z;
  total_interest_paid : Q;
  timeline : list timeline_event
}.

(** A [while] loop: [None] when the fuel runs out before the guard fails. *)
Fixpoint while {S : Type} (fuel : nat) (guard : S -> bool) (body : S -> S) (s : S)
    : option S :=
  match fuel with
  | O => if guard s then None else Some s
  | Datatypes.S fuel' => if guard s then while fuel' guard body (body s) else Some s
  end.

(** One pass of [for debt in remaining_debts]: the debts already visited,
    the interest paid so far and the payment still available. *)
Definition pay_minimum (acc : list debt_entry * Q * Q) (debt : debt_entry)
    : list debt_entry * Q * Q :=
  let '(visited, total_interest_paid, available_payment) := acc in
  let payment := py_min (minimum_payment debt) (balance debt) in
  let monthly_interest := ((balance debt * (interest_rate debt / 100)) / 12)%Q in
  let principal_payment := (payment - monthly_interest)%Q in
  (visited ++ [set_balance debt (balance debt - principal_payment)],
   (total_interest_paid + monthly_interest)%Q,
   (available_payment - payment)%Q).

Definition payoff_guard (s : payoff_state) : bool :=
  match remaining_debts s with
  | [] => false
  | _ :: _ => current_month s <? 360
  end.

Definition payoff_month (monthly_payment : Q) (s : payoff_state) : payoff_state :=
  let current_month := current_month s + 1 in
  let available_payment := monthly_payment in
  let '(remaining_debts, total_interest_paid, available_payment) :=
    fold_left pay_minimum (remaining_debts s)
      ([], total_interest_paid s, available_payment) in
  let remaining_debts :=
    match remaining_debts with
    | first_debt :: rest =>
        if Qltb 0 available_payment then
          let extra_payment := py_min available_payment (balance first_debt) in
          set_balance first_debt (balance first_debt - extra_payment) :: rest
        else remaining_debts
    | [] => remaining_debts
    end in
  let newly_paid := filter (fun d => Qle_bool (balance d) 0) remaining_debts in
  let remaining_debts := filter (fun d => Qltb 0 (balance d)) remaining_debts in
  {| remaining_debts := remaining_debts;
     current_month := current_month;
     total_interest_paid := total_interest_paid;
     timeline :=
       timeline s
       ++ map (fun d => {| month := current_month; debt_name := name d |}) newly_paid |}.

Inductive payoff_response : Type :=
| NoActiveDebts (message : string)
| PayoffPlan (strategy : string) (monthly_payment : Q) (total_months : option Z)
    (total_interest_paid : Q) (timeline : list timeline_event)
    (payment_order : list string).

(** [db.query(Debt).filter(Debt.user_id == current_user.id, Debt.is_active == 1).all()] *)
Definition active_debts (db : database) (current_user : User) : list Debt :=
  filter (fun d => (Debt_user_id d =? User_id current_user)
                   && is_active_1 (Debt_is_active d))
    (debts db).

(** [debt_data], built from the rows and sorted for the strategy. *)
Definition prepare_debt_data (strategy : string) (debts : list Debt) : list debt_entry :=
  let debt_data :=
    map (fun debt => {| id := Debt_id debt; name := Debt_name debt;
                        balance := Debt_current_balance debt;
                        interest_rate := Debt_interest_rate debt;
                        minimum_payment := Debt_minimum_payment debt |})
      debts in
  if String.eqb strategy "avalanche"
  then sort_by (fun a b => Qle_bool (interest_rate b) (interest_rate a)) debt_data
  else sort_by (fun a b => Qle_bool (balance a) (balance b)) debt_data.

(** The variables as the loop finds them. *)
Definition payoff_start (debt_data : list debt_entry) : payoff_state :=
  {| remaining_debts := debt_data; current_month := 0;
     total_interest_paid := 0; timeline := [] |}.

(** The rendered dates ([payoff_date], a [strftime] of [now] plus a number of
    months) are left out of the response.  The dicts of [debt_data] are
    shared with [remaining_debts] and their balances change during the
    loop, but only their names are read afterwards. *)
Definition calculate_debt_payoff_strategy (fuel : nat) (monthly_payment : Q)
    (strategy : string) (db : database) (current_user : User)
    : option payoff_response :=
  let debts := active_debts db current_user in
  match debts with
  | [] => Some (NoActiveDebts "No active debts found")
  | _ :: _ =>
      let debt_data := prepare_debt_data strategy debts in
      match while fuel payoff_guard (payoff_month monthly_payment)
              (payoff_start debt_data) with
      | None => None
      | Some s =>
          let total_months :=
            match remaining_debts s with
            | [] => Some (current_month s)
            | _ :: _ => None
            end in
          Some (PayoffPlan strategy monthly_payment total_months
                  (py_round (total_interest_paid s) 2) (timeline s)
                  (map name debt_data))
      end
  end.

(** ** services/notification_service.py: NotificationService

    The service touches the database and the console; a [world] is both.
    The [async] methods await one another in sequence and are embedded as
    plain functions. *)

Record world : Type := {
  db : database;
  console : list string
}.

Definition print (line : string) (w : world) : world :=
  {| db := db w; console := console w ++ [line] |}.

Definition set_notification_logs (d : database) (rows : list NotificationLog) : database :=
  {| users := users d; transactions := transactions d; investments := investments d;
     debts := debts d; work_sessions := work_sessions d;
     boundary_violations := boundary_violations d; sleep_entries := sleep_entries d;
     mood_entries := mood_entries d; exercises := exercises d;
     deep_work_sessions := deep_work_sessions d;
     user_preferences := user_preferences d;
     notification_logs := rows |}.

(** Truthiness of a nullable Boolean column and of an optional string. *)
Definition truthy_bool (b : option bool) : bool :=
  match b with
  | Some true => true
  | _ => false
  end.

Definition truthy_str (s : option string) : bool :=
  match s with
  | Some EmptyString => false
  | Some _ => true
  | None => false
  end.

(** [a or b] *)
Definition py_or (a b : option bool) : option bool := if truthy_bool a then a else b.

Definition str_of_int (z : Z) : string := NilZero.string_of_int (Z.to_int z).

Definition _is_notification_enabled (preferences : option UserPreferences)
    (notification_type category : string) : option bool :=
  match preferences with
  | None => Some true
  | Some preferences =>
      if String.eqb notification_type "email"
         && negb (truthy_bool (enable_email_notifications preferences))
      then Some false
      else if String.eqb notification_type "push"
              && negb (truthy_bool (enable_push_notifications preferences))
      then Some false
      else if String.eqb category "briefing"
              && negb (truthy_bool (daily_briefing_enabled preferences))
      then Some false
      else if String.eqb category "alert"
      then py_or (alert_critical_enabled preferences) (alert_high_enabled preferences)
      else Some true
  end.

Definition _send_email_notification (user_id : Z) (title message : string)
    (email_address : option string) (w : world) : world :=
  let email_address :=
    if truthy_str email_address then email_address
    else
      match first (filter (fun u => User_id u =? user_id) (users (db w))) with
      | Some user => Some (User_email user)
      | None => None
      end in
  match email_address with
  | Some address =>
      if truthy_str email_address
      then print ("[EMAIL] To: " ++ address ++ ", Subject: " ++ title
                  ++ ", Body: " ++ message) w
      else w
  | None => w
  end.

Definition _send_push_notification (user_id : Z) (title message : string)
    (device_token : option string) (w : world) : world :=
  print ("[PUSH] To User " ++ str_of_int user_id ++ ", Title: " ++ title
         ++ ", Message: " ++ message) w.

Definition _create_notification_log (now : datetime) (user_id : Z)
    (notification_type category title message status : string)
    (delivery_method : option string) (extra_data : option json) (w : world)
    : world * NotificationLog :=
  let log :=
    {| nl_id := fresh_id (map nl_id (notification_logs (db w)));
       nl_user_id := user_id;
       nl_notification_type := notification_type;
       nl_category := category;
       nl_title := title;
       nl_message := message;
       nl_status := status;
       nl_delivery_method := delivery_method;
       nl_sent_at := now;
       nl_delivered_at := None;
       nl_read_at := None;
       nl_extra_data := extra_data |} in
  ({| db := set_notification_logs (db w) (notification_logs (db w) ++ [log]);
      console := console w |},
   log).

Definition send_notification (now : datetime) (user_id : Z)
    (notification_type category title message : string)
    (delivery_method : option string) (extra_data : option json) (w : world)
    : world * NotificationLog :=
  let preferences :=
    first (filter (fun p => up_user_id p =? user_id) (user_preferences (db w))) in
  if negb (truthy_bool (_is_notification_enabled preferences notification_type category))
  then
    _create_notification_log now user_id notification_type category title message
      "skipped" delivery_method extra_data w
  else
    let w :=
      if String.eqb notification_type "email"
      then _send_email_notification user_id title message delivery_method w
      else if String.eqb notification_type "push"
      then _send_push_notification user_id title message delivery_method w
      else w in
    _create_notification_log now user_id notification_type category title message
      "sent" delivery_method extra_data w.

Definition read_notification (utcnow : datetime) (n : NotificationLog) : NotificationLog :=
  {| nl_id := nl_id n;
     nl_user_id := nl_user_id n;
     nl_notification_type := nl_notification_type n;
     nl_category := nl_category n;
     nl_title := nl_title n;
     nl_message := nl_message n;
     nl_status := "read";
     nl_delivery_method := nl_delivery_method n;
     nl_sent_at := nl_sent_at n;
     nl_delivered_at := nl_delivered_at n;
     nl_read_at := Some utcnow;
     nl_extra_data := nl_extra_data n |}.

(** The commit writes the two changed attributes back to the row with the
    notification's primary key. *)
Definition mark_notification_read (utcnow : datetime) (notification_id user_id : Z)
    (d : database) : database * option NotificationLog :=
  let notification :=
    first (filter (fun n => (nl_id n =? notification_id) && (nl_user_id n =? user_id))
             (notification_logs d)) in
  match notification with
  | Some n =>
      (set_notification_logs d
         (map (fun row => if nl_id row =? nl_id n then read_notification utcnow row else row)
            (notification_logs d)),
       Some (read_notification utcnow n))
  | None => (d, None)
  end.

(** ** Vocabulary of the statements and sample data *)

(** "Assume nutrition_score is 0-100" *)
Definition in_documented_range (nutrition_score : option Q) : Prop :=
  match nutrition_score with
  | Some n => (0 <= n <= 100)%Q
  | None => True
  end.

Definition empty_database : database :=
  {| users := []; transactions := []; investments := []; debts := [];
     work_sessions := []; boundary_violations := []; sleep_entries := [];
     mood_entries := []; exercises := []; deep_work_sessions := [];
     user_preferences := []; notification_logs := [] |}.

Definition sample_user : User := {| User_id := 7; User_email := "ada@example.org" |}.

Definition sample_payload : TransactionCreate :=
  {| tc_transaction_type := EXPENSE; tc_category := FOOD; tc_amount := 12.5;
     tc_description := Some "lunch"%string;
     tc_transaction_date := days_from_civil 2024 3 15 * day_us;
     tc_merchant := None; tc_tags := None |}.

(** The table holds a transaction with this id that belongs to the user. *)
Definition owns_transaction (d : database) (current_user : User) (transaction_id : Z) : Prop :=
  exists t, In t (transactions d)
            /\ tx_id t = transaction_id /\ tx_user_id t = User_id current_user.

Definition not_found : py_error := HTTPException 404 "Transaction not found".

Definition sample_database : database :=
  fst (create_transaction sample_payload 0 empty_database sample_user).

(** The rows of a table that belong to a user. *)
Definition rows_of {A : Type} (user_id_of : A -> Z) (uid : Z) (rows : list A) : list A :=
  filter (fun r => user_id_of r =? uid) rows.

(** Two databases agree for a user when every table that has a [user_id]
    column holds the same rows of that user, in the same order. *)
Definition agree_on_user (uid : Z) (d1 d2 : database) : Prop :=
  rows_of tx_user_id uid (transactions d1) = rows_of tx_user_id uid (transactions d2)
  /\ rows_of inv_user_id uid (investments d1) = rows_of inv_user_id uid (investments d2)
  /\ rows_of Debt_user_id uid (debts d1) = rows_of Debt_user_id uid (debts d2)
  /\ rows_of ws_user_id uid (work_sessions d1) = rows_of ws_user_id uid (work_sessions d2)
  /\ rows_of se_user_id uid (sleep_entries d1) = rows_of se_user_id uid (sleep_entries d2)
  /\ rows_of me_user_id uid (mood_entries d1) = rows_of me_user_id uid (mood_entries d2)
  /\ rows_of ex_user_id uid (exercises d1) = rows_of ex_user_id uid (exercises d2)
  /\ rows_of dw_user_id uid (deep_work_sessions d1)
     = rows_of dw_user_id uid (deep_work_sessions d2)
  /\ rows_of up_user_id uid (user_preferences d1)
     = rows_of up_user_id uid (user_preferences d2)
  /\ rows_of nl_user_id uid (notification_logs d1)
     = rows_of nl_user_id uid (notification_logs d2).

Definition other_users_rows : database :=
  {| users := [];
     transactions :=
       transactions sample_database
       ++ [ {| tx_id := 2; tx_user_id := 8; tx_transaction_type := INCOME;
               tx_category := SALARY; tx_amount := 5000; tx_description := None;
               tx_transaction_date := days_from_civil 2024 3 1 * day_us;
               tx_merchant := None; tx_tags := None; tx_created_at := 0;
               tx_updated_at := None |} ];
     investments :=
       [ {| inv_id := 1; inv_user_id := 8; inv_quantity := 10;
            inv_purchase_price := 100; inv_current_price := None |} ];
     debts :=
       [ {| Debt_id := 1; Debt_user_id := 8; Debt_name := "car";
            Debt_current_balance := 9000; Debt_interest_rate := 5;
            Debt_minimum_payment := 200; Debt_is_active := Some 1 |} ];
     work_sessions := []; boundary_violations := []; sleep_entries := [];
     mood_entries := []; exercises := []; deep_work_sessions := [];
     user_preferences := []; notification_logs := [] |}.

Definition debts_database : database :=
  {| users := []; transactions := []; investments := [];
     debts :=
       [ {| Debt_id := 1; Debt_user_id := 7; Debt_name := "card";
            Debt_current_balance := 300; Debt_interest_rate := 24;
            Debt_minimum_payment := 50; Debt_is_active := Some 1 |};
         {| Debt_id := 2; Debt_user_id := 7; Debt_name := "loan";
            Debt_current_balance := 100; Debt_interest_rate := 6;
            Debt_minimum_payment := 20; Debt_is_active := Some 1 |};
         {| Debt_id := 3; Debt_user_id := 8; Debt_name := "car";
            Debt_current_balance := 9000; Debt_interest_rate := 5;
            Debt_minimum_payment := 200; Debt_is_active := Some 1 |} ];
     work_sessions := []; boundary_violations := []; sleep_entries := [];
     mood_entries := []; exercises := []; deep_work_sessions := [];
     user_preferences := []; notification_logs := [] |}.

(** A debt whose minimum payment only covers the interest is never paid:
    the balance stays at 1000 month after month. *)
Definition interest_only (d : debt_entry) : Prop :=
  (balance d == 1000)%Q /\ interest_rate d = 12%Q /\ minimum_payment d = 10%Q.

Definition interest_only_database : database :=
  {| users := []; transactions := []; investments := [];
     debts :=
       [ {| Debt_id := 1; Debt_user_id := 7; Debt_name := "mortgage";
            Debt_current_balance := 1000; Debt_interest_rate := 12;
            Debt_minimum_payment := 10; Debt_is_active := Some 1 |} ];
     work_sessions := []; boundary_violations := []; sleep_entries := [];
     mood_entries := []; exercises := []; deep_work_sessions := [];
     user_preferences := []; notification_logs := [] |}.

(** What it means for stored preferences to disable a notification, in the
    words of the specification: there is a preferences row, and it switches
    off the notification's type or its category. *)
Definition notification_disabled (preferences : option UserPreferences)
    (notification_type category : string) : Prop :=
  exists p,
    preferences = Some p
    /\ ((notification_type = "email"%string
         /\ truthy_bool (enable_email_notifications p) = false)
        \/ (notification_type = "push"%string
            /\ truthy_bool (enable_push_notifications p) = false)
        \/ (category = "briefing"%string
            /\ truthy_bool (daily_briefing_enabled p) = false)
        \/ (category = "alert"%string
            /\ truthy_bool (alert_critical_enabled p) = false
            /\ truthy_bool (alert_high_enabled p) = false)).

Definition notification_world : world :=
  {| db :=
       {| users := [ sample_user ];
          transactions := []; investments := []; debts := [];
          work_sessions := []; boundary_violations := []; sleep_entries := [];
          mood_entries := []; exercises := []; deep_work_sessions := [];
          user_preferences :=
            [ {| up_id := 1; up_user_id := 7;
                 enable_email_notifications := Some false;
                 enable_push_notifications := Some true;
                 daily_briefing_enabled := Some true;
                 alert_critical_enabled := Some true;
                 alert_high_enabled := None |} ];
          notification_logs := [] |};
     console := [] |}.

(** The filter of [mark_notification_read]: the row has the given id and
    belongs to the given user. *)
Definition is_target (notification_id user_id : Z) (row : NotificationLog) : bool :=
  (nl_id row =? notification_id) && (nl_user_id row =? user_id).

Definition two_logs : database :=
  set_notification_logs empty_database
    [ {| nl_id := 1; nl_user_id := 7; nl_notification_type := "push";
         nl_category := "reminder"; nl_title := "Stretch"; nl_message := "Time to move";
         nl_status := "sent"; nl_delivery_method := None; nl_sent_at := 10;
         nl_delivered_at := None; nl_read_at := None; nl_extra_data := None |};
      {| nl_id := 2; nl_user_id := 8; nl_notification_type := "email";
         nl_category := "alert"; nl_title := "Budget"; nl_message := "Over budget";
         nl_status := "sent"; nl_delivery_method := None; nl_sent_at := 20;
         nl_delivered_at := None; nl_read_at := None; nl_extra_data := None |} ].

(** ** More of HealthCalculator (services/health_calculations.py) *)

(** [str.lower()], on ASCII text: bytes outside A-Z are left alone. *)
Definition lower_ascii (c : Ascii.ascii) : Ascii.ascii :=
  let n := Ascii.nat_of_ascii c in
  if ((65 <=? n) && (n <=? 90))%nat then Ascii.ascii_of_nat (n + 32) else c.

Fixpoint py_lower (s : string) : string :=
  match s with
  | EmptyString => EmptyString
  | String c s' => String (lower_ascii c) (py_lower s')
  end.

(** [d.get(key, default)] on a dict with string keys. *)
Fixpoint dict_get {V : Type} (d : list (string * V)) (key : string) (default : V) : V :=
  match d with
  | [] => default
  | (k, v) :: d' => if String.eqb k key then v else dict_get d' key default
  end.

Definition get_bmi_category (bmi : Q) : string :=
  if Qltb bmi 18.5 then "Underweight"
  else if Qle_bool 18.5 bmi && Qltb bmi 25 then "Normal weight"
  else if Qle_bool 25 bmi && Qltb bmi 30 then "Overweight"
  else "Obese".

Definition activity_multipliers : list (string * float) :=
  [ ("sedentary", literal 1.2); ("lightly_active", literal 1.375);
    ("moderately_active", literal 1.55); ("very_active", literal 1.725);
    ("extra_active", literal 1.9) ]%string.

Definition calculate_tdee (bmr : float) (activity_level : string) : float :=
  let multiplier := dict_get activity_multipliers (py_lower activity_level) (literal 1.2) in
  let tdee := fmul bmr multiplier in
  py_round_float tdee 2.

Definition calculate_ideal_weight_range (libm_pow2 : Q -> float) (height_cm : float)
    (gender : string) : result (float * float) :=
  height_m <- py_truediv height_cm (literal 100) ;;
  squared <- py_square libm_pow2 height_m ;;
  let min_weight := fmul (literal 18.5) squared in
  squared <- py_square libm_pow2 height_m ;;
  let max_weight := fmul (literal 24.9) squared in
  Ok (py_round_float min_weight 1, py_round_float max_weight 1).

Definition calculate_sleep_efficiency (total_hours : Q)
    (deep_sleep_hours rem_sleep_hours awake_time_hours : option Q) : result Q :=
  efficiency <-
    match awake_time_hours with
    | Some awake =>
        if truthy_float awake_time_hours then
          let actual_sleep := (total_hours - awake)%Q in
          ratio <- py_div actual_sleep total_hours ;;
          Ok (ratio * 100)%Q
        else Ok 85%Q
    | None => Ok 85%Q
    end ;;
  Ok (py_round (py_min 100 (py_max 0 efficiency)) 2).

Definition calculate_nutrition_score (calories : Z) (protein carbs fat : Q)
    (fiber : option Q) (target_calories : Z) (target_protein target_carbs target_fat : Q)
    : result Q :=
  let scores : list Z := [] in
  cal_diff <- py_div (Qabs (inject_Z (calories - target_calories))) (inject_Z target_calories) ;;
  let scores :=
    scores ++ [ if Qle_bool cal_diff 0.1 then 100
                else if Qle_bool cal_diff 0.2 then 80
                else if Qle_bool cal_diff 0.3 then 60
                else 40 ] in
  protein_diff <- py_div (Qabs (protein - target_protein)) target_protein ;;
  let scores :=
    scores ++ [ if Qle_bool protein_diff 0.15 then 100
                else if Qle_bool protein_diff 0.3 then 75
                else 50 ] in
  carbs_diff <- py_div (Qabs (carbs - target_carbs)) target_carbs ;;
  let scores :=
    scores ++ [ if Qle_bool carbs_diff 0.2 then 100
                else if Qle_bool carbs_diff 0.4 then 75
                else 50 ] in
  fat_diff <- py_div (Qabs (fat - target_fat)) target_fat ;;
  let scores :=
    scores ++ [ if Qle_bool fat_diff 0.2 then 100
                else if Qle_bool fat_diff 0.4 then 75
                else 50 ] in
  let scores :=
    match fiber with
    | Some f =>
        if truthy_float fiber && Qle_bool 25 f then scores ++ [100]
        else if truthy_float fiber && Qle_bool 20 f then scores ++ [80]
        else scores
    | None => scores
    end in
  Ok (py_round (inject_Z (fold_left Z.add scores 0) / inject_Z (count scores)) 2).

Definition get_blood_pressure_category (systolic diastolic : Z) : string :=
  if (systolic <? 120) && (diastolic <? 80) then "Normal"
  else if (systolic <? 130) && (diastolic <? 80) then "Elevated"
  else if (systolic <? 140) || (diastolic <? 90) then "High Blood Pressure (Stage 1)"
  else if (systolic <? 180) || (diastolic <? 120) then "High Blood Pressure (Stage 2)"
  else "Hypertensive Crisis".

(** ** Vocabulary of the statements about the payoff plan *)

(** The debts of the user, in the order the strategy pays them. *)
Definition payment_order_of (strategy : string) (debts : list Debt) : list Debt :=
  if String.eqb strategy "avalanche"
  then sort_by (fun a b => Qle_bool (Debt_interest_rate b) (Debt_interest_rate a)) debts
  else sort_by (fun a b => Qle_bool (Debt_current_balance a) (Debt_current_balance b)) debts.


(** ** More of NotificationService: get_notifications *)

(** [if notification_type: query = query.filter(column == notification_type)]:
    an absent or empty argument adds no filter. *)
Definition filter_truthy (arg : option string) (column : NotificationLog -> string)
    (query : list NotificationLog) : list NotificationLog :=
  match arg with
  | Some v => if truthy_str arg then filter (fun n => String.eqb (column n) v) query else query
  | None => query
  end.

Definition get_notifications (user_id : Z) (notification_type category : option string)
    (limit : Z) (d : database) : list NotificationLog :=
  let query := filter (fun n => nl_user_id n =? user_id) (notification_logs d) in
  let query := filter_truthy notification_type nl_notification_type query in
  let query := filter_truthy category nl_category query in
  limit_ limit (sort_by (fun a b => nl_sent_at b <=? nl_sent_at a) query).

(** ** api/endpoints/preferences.py: the notification endpoints

    The handlers carry the names of the service methods they call; they live
    in a module of the file's name. *)
Module preferences.

(** [limit: int = Query(default=50, le=100)] *)
Definition valid_limit (limit : Z) : bool := limit <=? 100.

Definition get_notifications (notification_type category : option string) (limit : Z)
    (db : database) (current_user : User)
    : database * result (response (list NotificationLog)) :=
  if valid_limit limit then
    let notifications :=
      get_notifications (User_id current_user) notification_type category limit db in
    (db, Ok {| status_code := 200; body := notifications |})
  else (db, Raise (HTTPException 422 "Unprocessable Entity")).

Definition mark_notification_read (utcnow : datetime) (notification_id : Z)
    (db : database) (current_user : User)
    : database * result (response NotificationLog) :=
  let '(db, notification) :=
    mark_notification_read utcnow notification_id (User_id current_user) db in
  match notification with
  | None => (db, Raise (HTTPException 404 "Notification not found"))
  | Some notification => (db, Ok {| status_code := 200; body := notification |})
  end.

Record test_notification_response : Type := {
  tn_message : string;
  tn_notification_id : Z;
  tn_status : string
}.

(** [extra_data={"test": True}] as the JSON column stores it. *)
Definition test_extra_data : json :=
  let quote := String (Ascii.ascii_of_nat 34) EmptyString in
  ("{" ++ quote ++ "test" ++ quote ++ ": true}")%string.

Definition send_test_notification (now : datetime) (w : world) (current_user : User)
    : world * result (response test_notification_response) :=
  let '(w, notification) :=
    send_notification now (User_id current_user) "email" "test" "Test Notification"
      "This is a test notification from Wellbeing Copilot." None (Some test_extra_data) w in
  (w, Ok {| status_code := 200;
            body := {| tn_message := "Test notification sent";
                       tn_notification_id := nl_id notification;
                       tn_status := nl_status notification |} |}).

End preferences.

(** The user has a notification with this id. *)
Definition owns_notification (d : database) (current_user : User) (notification_id : Z) : Prop :=
  exists n, In n (notification_logs d)
            /\ nl_id n = notification_id /\ nl_user_id n = User_id current_user.

(** ** More of api/endpoints/financial.py: budgets and the health score *)

(** models/financial.py: Budget, and FinancialGoal with the columns the
    health score reads.  [current_amount] is read as a float: a row holding
    NULL there, which the arithmetic on it cannot take, is left out. *)
Record Budget : Type := {
  Budget_id : Z;
  Budget_user_id : Z;
  Budget_category : TransactionCategory;
  Budget_amount_limit : Q;
  Budget_period : string;
  Budget_start_date : datetime;
  Budget_end_date : option datetime;
  Budget_is_active : option Z;
  Budget_alert_threshold : option Q;
  Budget_created_at : datetime;
  Budget_updated_at : option datetime
}.

Record FinancialGoal : Type := {
  Goal_id : Z;
  Goal_user_id : Z;
  Goal_title : string;
  Goal_target_amount : Q;
  Goal_current_amount : option Q;
  Goal_is_completed : option Z
}.

(** The session's view for these handlers: the tables of [database] and
    the two more they query. *)
Record financial_database : Type := {
  base : database;
  budgets : list Budget;
  financial_goals : list FinancialGoal
}.

Definition set_budgets (db : financial_database) (rows : list Budget) : financial_database :=
  {| base := base db; budgets := rows; financial_goals := financial_goals db |}.

(** schemas/financial.py: BudgetCreate *)
Record BudgetCreate : Type := {
  bc_category : TransactionCategory;
  bc_amount_limit : Q;
  bc_period : string;
  bc_start_date : datetime;
  bc_end_date : option datetime;
  bc_alert_threshold : Q
}.

(** [amount_limit: float = Field(..., gt=0)],
    [alert_threshold: float = Field(default=0.8, ge=0, le=1)] *)
Definition valid_BudgetCreate (p : BudgetCreate) : bool :=
  Qltb 0 (bc_amount_limit p)
  && Qle_bool 0 (bc_alert_threshold p) && Qle_bool (bc_alert_threshold p) 1.

(** The filter of [create_budget]: an active budget of the user for the
    category. *)
Definition is_active_budget_for (user_id : Z) (category : TransactionCategory)
    (b : Budget) : bool :=
  (Budget_user_id b =? user_id)
  && TransactionCategory_eqb (Budget_category b) category
  && is_active_1 (Budget_is_active b).

Section EnumFormat.

(** [f"{budget_data.category}"]: what an f-string writes for a member of an
    enum that mixes in [str] is the member's value or its qualified name,
    depending on the version of Python. *)
Variable format_category : TransactionCategory -> string.

Definition create_budget (budget_data : BudgetCreate) (now : datetime)
    (db : financial_database) (current_user : User)
    : financial_database * result (response Budget) :=
  if valid_BudgetCreate budget_data then
    let existing :=
      first (filter (is_active_budget_for (User_id current_user) (bc_category budget_data))
               (budgets db)) in
    match existing with
    | Some _ =>
        (db,
         Raise (HTTPException 400
                  ("Active budget already exists for category "
                   ++ format_category (bc_category budget_data))%string))
    | None =>
        let budget :=
          {| Budget_id := fresh_id (map Budget_id (budgets db));
             Budget_user_id := User_id current_user;
             Budget_category := bc_category budget_data;
             Budget_amount_limit := bc_amount_limit budget_data;
             Budget_period := bc_period budget_data;
             Budget_start_date := bc_start_date budget_data;
             Budget_end_date := bc_end_date budget_data;
             Budget_is_active := Some 1;
             Budget_alert_threshold := Some (bc_alert_threshold budget_data);
             Budget_created_at := now;
             Budget_updated_at := None |} in
        (set_budgets db (budgets db ++ [budget]),
         Ok {| status_code := 201; body := budget |})
    end
  else (db, Raise (HTTPException 422 "Unprocessable Entity")).

End EnumFormat.

Definition get_budgets (active_only : bool) (db : financial_database) (current_user : User)
    : financial_database * result (response (list Budget)) :=
  let query := filter (fun b => Budget_user_id b =? User_id current_user) (budgets db) in
  let query :=
    if active_only then filter (fun b => is_active_1 (Budget_is_active b)) query
    else query in
  let budgets := sort_by (fun a b => Budget_created_at b <=? Budget_created_at a) query in
  (db, Ok {| status_code := 200; body := budgets |}).

(** [for x in l: scores.append(f(x))]: the first exception ends the loop. *)
Fixpoint for_each {A B : Type} (f : A -> result B) (l : list A) : result (list B) :=
  match l with
  | [] => Ok []
  | x :: l' => y <- f x ;; ys <- for_each f l' ;; Ok (y :: ys)
  end.

(** [sub in s] *)
Fixpoint str_contains (sub s : string) : bool :=
  String.prefix sub s
  || match s with
     | EmptyString => false
     | String _ s' => str_contains sub s'
     end.

Definition is_completed_0 (flag : option Z) : bool :=
  match flag with
  | Some f => f =? 0
  | None => false
  end.

(** Lines 810-815: one pass of the loop over the budgets. *)
Definition budget_adherence (recent_transactions : list Transaction) (budget : Budget)
    : result Q :=
  let spent :=
    py_sum (map tx_amount
              (filter (fun t => TransactionType_eqb (tx_transaction_type t) EXPENSE
                                && TransactionCategory_eqb (tx_category t)
                                     (Budget_category budget))
                 recent_transactions)) in
  q <- py_div spent (Budget_amount_limit budget) ;;
  Ok (py_max 0 (100 - q * 100)).

(** Lines 829-830: one pass of the loop over the goals. *)
Definition goal_progress (goal : FinancialGoal) : result Q :=
  q <- py_div_nullable (Goal_current_amount goal) (Goal_target_amount goal) ;;
  let progress := (q * 100)%Q in
  Ok (py_min 100 progress).

(** Lines 862-874: the grade. *)
Definition financial_grade (total_score : Q) : string :=
  if Qle_bool 90 total_score then "A+"
  else if Qle_bool 80 total_score then "A"
  else if Qle_bool 70 total_score then "B"
  else if Qle_bool 60 total_score then "C"
  else if Qle_bool 50 total_score then "D"
  else "F".

Definition generate_recommendations
    (savings_score budget_score goal_score debt_score emergency_score : Q) : list string :=
  let recommendations := [] in
  let recommendations :=
    if Qltb savings_score 15
    then recommendations ++ ["Increase your savings rate to at least 20% of income"%string]
    else recommendations in
  let recommendations :=
    if Qltb budget_score 15 && Qltb 0 budget_score
    then recommendations ++ ["Review and adjust your budgets to match spending patterns"%string]
    else recommendations in
  let recommendations :=
    if Qeq_bool budget_score 0
    then recommendations ++ ["Set up budgets for your main expense categories"%string]
    else recommendations in
  let recommendations :=
    if Qltb goal_score 10 && Qltb 0 goal_score
    then recommendations ++ ["Focus on making consistent progress towards your goals"%string]
    else recommendations in
  let recommendations :=
    if Qeq_bool goal_score 0
    then recommendations ++ ["Create financial goals to stay motivated"%string]
    else recommendations in
  let recommendations :=
    if Qltb debt_score 10
    then recommendations ++ ["Prioritize paying down high-interest debt"%string]
    else recommendations in
  let recommendations :=
    if Qltb emergency_score 5
    then recommendations ++ ["Build an emergency fund covering 3-6 months of expenses"%string]
    else recommendations in
  match recommendations with
  | [] => recommendations ++ ["Great job! Keep up your excellent financial habits"%string]
  | _ => recommendations
  end.

Record score_entry : Type := {
  se_score : Q;
  se_max_score : Z
}.

Record health_score_response : Type := {
  hs_overall_score : Q;
  hs_grade : string;
  hs_savings_rate : score_entry;
  hs_savings_actual_rate : Q;
  hs_budget_adherence : score_entry;
  hs_goal_progress : score_entry;
  hs_debt_management : score_entry;
  hs_emergency_fund : score_entry;
  hs_recommendations : list string
}.

Definition calculate_financial_health_score (now : datetime)
    (db : financial_database) (current_user : User)
    : financial_database * result (response health_score_response) :=
  let three_months_ago := now - 90 * day_us in
  let recent_transactions :=
    filter (fun t => (tx_user_id t =? User_id current_user)
                     && (three_months_ago <=? tx_transaction_date t))
      (transactions (base db)) in
  let income := sum_amounts INCOME recent_transactions in
  let expenses := sum_amounts EXPENSE recent_transactions in
  let savings_rate :=
    if Qltb 0 income then ((income - expenses) / income * 100)%Q else 0%Q in
  let savings_score := py_min 30 (py_max 0 (savings_rate * 1.5)) in
  let budgets :=
    filter (fun b => (Budget_user_id b =? User_id current_user)
                     && is_active_1 (Budget_is_active b))
      (budgets db) in
  let goals :=
    filter (fun g => (Goal_user_id g =? User_id current_user)
                     && is_completed_0 (Goal_is_completed g))
      (financial_goals db) in
  let debts := active_debts (base db) current_user in
  let total_debt := py_sum (map Debt_current_balance debts) in
  let monthly_income := (income / 3)%Q in
  let debt_score :=
    if Qltb 0 monthly_income
    then
      let debt_to_income_ratio := ((total_debt / (monthly_income * 12)) * 100)%Q in
      py_max 0 (15 - (debt_to_income_ratio * 0.15))
    else 0%Q in
  let emergency_fund_goal :=
    first (filter (fun g => str_contains "emergency" (py_lower (Goal_title g))) goals) in
  (db,
   budget_score <-
     match budgets with
     | [] => Ok 0%Q
     | _ =>
         adherence_scores <- for_each (budget_adherence recent_transactions) budgets ;;
         Ok ((py_sum adherence_scores
              / inject_Z (Z.of_nat (List.length adherence_scores))) * 0.25)%Q
     end ;;
   goal_score <-
     match goals with
     | [] => Ok 0%Q
     | _ =>
         progress_scores <- for_each goal_progress goals ;;
         Ok ((py_sum progress_scores
              / inject_Z (Z.of_nat (List.length progress_scores))) * 0.20)%Q
     end ;;
   emergency_score <-
     match emergency_fund_goal with
     | Some g =>
         q <- py_div_nullable (Goal_current_amount g) (Goal_target_amount g) ;;
         Ok (py_min 10 (q * 10))
     | None => Ok 0%Q
     end ;;
   let total_score :=
     (savings_score + budget_score + goal_score + debt_score + emergency_score)%Q in
   Ok {| status_code := 200;
         body :=
           {| hs_overall_score := py_round total_score 2;
              hs_grade := financial_grade total_score;
              hs_savings_rate :=
                {| se_score := py_round savings_score 2; se_max_score := 30 |};
              hs_savings_actual_rate := py_round savings_rate 2;
              hs_budget_adherence :=
                {| se_score := py_round budget_score 2; se_max_score := 25 |};
              hs_goal_progress :=
                {| se_score := py_round goal_score 2; se_max_score := 20 |};
              hs_debt_management :=
                {| se_score := py_round debt_score 2; se_max_score := 15 |};
              hs_emergency_fund :=
                {| se_score := py_round emergency_score 2; se_max_score := 10 |};
              hs_recommendations :=
                generate_recommendations savings_score budget_score goal_score
                  debt_score emergency_score |} |}).

(** ** Vocabulary of the statements about budgets and the health score *)

(** The user has an active budget for the category. *)
Definition has_active_budget (db : financial_database) (current_user : User)
    (category : TransactionCategory) : Prop :=
  exists b, In b (budgets db)
            /\ Budget_user_id b = User_id current_user
            /\ Budget_category b = category
            /\ Budget_is_active b = Some 1.

(** No user has two active budgets for one category: two such rows of the
    table are the same row. *)
Definition one_active_budget_per_category (rows : list Budget) : Prop :=
  forall i j bi bj,
    nth_error rows i = Some bi -> nth_error rows j = Some bj ->
    Budget_is_active bi = Some 1 -> Budget_is_active bj = Some 1 ->
    Budget_user_id bi = Budget_user_id bj ->
    Budget_category bi = Budget_category bj ->
    i = j.

(** The rows of the user are as the request schemas let them be written:
    positive transaction amounts, budget limits and goal targets,
    non-negative goal amounts and debt balances.  The amount of a goal is
    set: the column is nullable, and a row whose amount is NULL is not as
    the schema of a new goal ([ge=0]) writes it. *)
Definition schema_valid (db : financial_database) (current_user : User) : Prop :=
  (forall t, In t (transactions (base db)) -> tx_user_id t = User_id current_user ->
             (0 < tx_amount t)%Q)
  /\ (forall b, In b (budgets db) -> Budget_user_id b = User_id current_user ->
                (0 < Budget_amount_limit b)%Q)
  /\ (forall g, In g (financial_goals db) -> Goal_user_id g = User_id current_user ->
                (0 < Goal_target_amount g)%Q
                /\ exists c, Goal_current_amount g = Some c /\ (0 <= c)%Q)
  /\ (forall d, In d (debts (base db)) -> Debt_user_id d = User_id current_user ->
                (0 <= Debt_current_balance d)%Q).

Definition sample_budget_payload : BudgetCreate :=
  {| bc_category := FOOD; bc_amount_limit := 400; bc_period := "monthly";
     bc_start_date := days_from_civil 2024 3 1 * day_us; bc_end_date := None;
     bc_alert_threshold := 0.8 |}.

Definition sample_financial_database : financial_database :=
  {| base := sample_database;
     budgets :=
       [ {| Budget_id := 1; Budget_user_id := 7; Budget_category := FOOD;
            Budget_amount_limit := 50; Budget_period := "monthly";
            Budget_start_date := days_from_civil 2024 3 1 * day_us;
            Budget_end_date := None; Budget_is_active := Some 1;
            Budget_alert_threshold := Some 0.8%Q;
            Budget_created_at := days_from_civil 2024 3 1 * day_us;
            Budget_updated_at := None |} ];
     financial_goals :=
       [ {| Goal_id := 1; Goal_user_id := 7; Goal_title := "Emergency fund";
            Goal_target_amount := 1000; Goal_current_amount := Some 250%Q;
            Goal_is_completed := Some 0 |} ] |}.

(** ** NotificationService._check_health_alerts *)

(** models/health.py: Biometric, with the columns the check reads.  The
    biometrics table is not part of [database]; the method takes its rows. *)
Record Biometric : Type := {
  bio_id : Z;
  bio_user_id : Z;
  bio_measurement_date : datetime;
  bio_blood_pressure_systolic : option Z;
  bio_heart_rate : option Z
}.

(** [x and p(x)] on an [Optional[int]]: [None] and [0] are false. *)
Definition and_then (x : option Z) (p : Z -> bool) : bool :=
  match x with
  | Some v => truthy_int x && p v
  | None => false
  end.

(** Lines 394-402: the alerts of one row. *)
Definition health_alerts (bio : Biometric) : list string :=
  let alerts := [] in
  let alerts :=
    if and_then (bio_blood_pressure_systolic bio) (fun v => 140 <? v)
    then alerts ++ ["High systolic blood pressure detected"%string]
    else alerts in
  let alerts :=
    if and_then (bio_heart_rate bio) (fun v => (100 <? v) || (v <? 60))
    then alerts ++ ["Unusual heart rate detected"%string]
    else alerts in
  alerts.

Definition newline : string := String (Ascii.ascii_of_nat 10) EmptyString.

(** [extra_data={"biometric_id": bio.id}] as the JSON column stores it. *)
Definition biometric_extra_data (bio : Biometric) : json :=
  let quote := String (Ascii.ascii_of_nat 34) EmptyString in
  ("{" ++ quote ++ "biometric_id" ++ quote ++ ": " ++ str_of_int (bio_id bio) ++ "}")%string.

(** [now] is the time the database stamps on the rows logged during the
    call.  The query has no ORDER BY, so the order of its result is the
    database's choice: [all_rows] is what [.all()] makes of the selected
    rows. *)
Definition _check_health_alerts (all_rows : list Biometric -> list Biometric)
    (utcnow now : datetime) (biometrics : list Biometric)
    (user_id : Z) (preferences : UserPreferences) (w : world) : world :=
  let week_ago := utcnow - 7 * day_us in
  let biometrics :=
    all_rows
      (filter (fun b => (bio_user_id b =? user_id) && (week_ago <=? bio_measurement_date b))
         biometrics) in
  fold_left
    (fun w bio =>
       let alerts := health_alerts bio in
       match alerts with
       | [] => w
       | _ :: _ =>
           fst (send_notification now user_id "email" "alert" "Health Alert"
                  (String.concat newline alerts ++ newline ++ newline
                   ++ "Consider consulting with a healthcare professional.")%string
                  None (Some (biometric_extra_data bio)) w)
       end)
    biometrics w.

(** A row of the last seven days of the user that gives an alert. *)
Definition alarming (utcnow : datetime) (user_id : Z) (bio : Biometric) : bool :=
  ((bio_user_id bio =? user_id) && (utcnow - 7 * day_us <=? bio_measurement_date bio))
  && match health_alerts bio with
     | [] => false
     | _ :: _ => true
     end.

Definition sample_biometrics : list Biometric :=
  [ {| bio_id := 1; bio_user_id := 7; bio_measurement_date := 100;
       bio_blood_pressure_systolic := Some 150; bio_heart_rate := Some 70 |};
    {| bio_id := 2; bio_user_id := 7; bio_measurement_date := 200;
       bio_blood_pressure_systolic := Some 120; bio_heart_rate := Some 0 |};
    {| bio_id := 3; bio_user_id := 8; bio_measurement_date := 300;
       bio_blood_pressure_systolic := Some 190; bio_heart_rate := Some 130 |} ].

(** ** NotificationService.generate_daily_briefing *)

(** models/productivity.py: Task, with the columns the briefing reads.  The
    tasks table is not part of [database]; the method takes its rows. *)
Record Task : Type := {
  Task_id : Z;
  Task_user_id : Z;
  Task_completed_at : option datetime
}.

(** models/wellbeing.py: what SleepEntry declares. *)
Definition SleepEntry_attributes : list string :=
  [ "id"; "user_id"; "sleep_hours"; "sleep_quality"; "bedtime"; "wake_time";
    "notes"; "created_at" ]%string.

Definition zero_pad (width : nat) (s : string) : string :=
  (String.concat "" (repeat "0" (width - String.length s)) ++ s)%string.

(** [date.isoformat()] of the day with this number: YYYY-MM-DD. *)
Definition isoformat (day : Z) : string :=
  let '(y, m, d) := civil_from_days day in
  (zero_pad 4 (str_of_int y) ++ "-" ++ zero_pad 2 (str_of_int m) ++ "-"
   ++ zero_pad 2 (str_of_int d))%string.

Record briefing_financial : Type := {
  bf_transactions : Z;
  bf_spent : Q;
  bf_earned : Q
}.

Record briefing_health : Type := {
  bh_exercises : Z;
  bh_total_minutes : Z
}.

Record briefing_sleep : Type := {
  bs_hours : Q;
  bs_quality : Z
}.

Record briefing_productivity : Type := {
  bp_tasks_completed : Z
}.

Record daily_briefing : Type := {
  briefing_date : string;
  briefing_user_id : Z;
  summary_financial : briefing_financial;
  summary_health : briefing_health;
  summary_sleep : option briefing_sleep;
  summary_productivity : briefing_productivity;
  briefing_highlights : list string;
  briefing_recommendations : list string
}.

(** [today] and [yesterday] are dates; against a DateTime column they stand
    for their midnight. *)
Definition generate_daily_briefing (utcnow : datetime) (tasks : list Task)
    (db : database) (user_id : Z) : result daily_briefing :=
  let today := utcnow / day_us * day_us in
  let yesterday := today - 1 * day_us in
  Transaction_date <-
    undeclared_attribute "Transaction" Transaction_attributes "date" eq_refl ;;
  let transactions :=
    filter (fun t => (tx_user_id t =? user_id)
                     && (yesterday <=? Transaction_date t)
                     && (Transaction_date t <? today))
      (transactions db) in
  let total_spent := sum_amounts EXPENSE transactions in
  let total_earned := sum_amounts INCOME transactions in
  let exercises :=
    filter (fun e => (ex_user_id e =? user_id) && (yesterday <=? ex_exercise_date e))
      (exercises db) in
  let total_exercise := fold_left Z.add (map ex_duration_minutes exercises) 0 in
  SleepEntry_date <-
    undeclared_attribute "SleepEntry" SleepEntry_attributes "date" eq_refl ;;
  let sleep :=
    first (filter (fun s => (se_user_id s =? user_id) && (SleepEntry_date s =? yesterday))
             (sleep_entries db)) in
  sleep_summary <-
    match sleep with
    | Some sleep =>
        hours_slept <-
          undeclared_attribute "SleepEntry" SleepEntry_attributes "hours_slept" eq_refl ;;
        quality_rating <-
          undeclared_attribute "SleepEntry" SleepEntry_attributes "quality_rating" eq_refl ;;
        Ok (Some {| bs_hours := hours_slept sleep; bs_quality := quality_rating sleep |})
    | None => Ok None
    end ;;
  let tasks :=
    filter (fun t => (Task_user_id t =? user_id)
                     && match Task_completed_at t with
                        | Some c => (yesterday <=? c) && (c <? today)
                        | None => false
                        end)
      tasks in
  let highlights := [] in
  let highlights :=
    if 60 <? total_exercise
    then highlights ++ ["Great job! You exercised for over 60 minutes yesterday."%string]
    else highlights in
  let highlights :=
    if 5 <=? count tasks
    then highlights
         ++ [("Productive day! You completed " ++ str_of_int (count tasks) ++ " tasks.")%string]
    else highlights in
  let highlights :=
    if match sleep_summary with
       | Some s => Qle_bool 7 (bs_hours s)
       | None => false
       end
    then highlights ++ ["You got a good night's sleep!"%string]
    else highlights in
  Ok {| briefing_date := isoformat (utcnow / day_us);
        briefing_user_id := user_id;
        summary_financial :=
          {| bf_transactions := count transactions; bf_spent := total_spent;
             bf_earned := total_earned |};
        summary_health :=
          {| bh_exercises := count exercises; bh_total_minutes := total_exercise |};
        summary_sleep := sleep_summary;
        summary_productivity := {| bp_tasks_completed := count tasks |};
        briefing_highlights := highlights;
        briefing_recommendations := [] |}.

(** api/endpoints/preferences.py: POST /briefing/generate *)
Definition generate_daily_briefing_endpoint (utcnow : datetime) (tasks : list Task)
    (db : database) (current_user : User)
    : database * result (response daily_briefing) :=
  (db,
   briefing <- generate_daily_briefing utcnow tasks db (User_id current_user) ;;
   Ok {| status_code := 200; body := briefing |}).

(** * Properties *)

(** ** Arithmetic of the prelude *)

Lemma Qltb_true (a b : Q) : Qltb a b = true <-> (a < b)%Q.
Proof.
  unfold Qltb. rewrite negb_true_iff.
  split; intro H.
  - apply Qnot_le_lt. intro Hle. apply Qle_bool_iff in Hle. congruence.
  - destruct (Qle_bool b a) eqn:E; [|reflexivity].
    apply Qle_bool_iff in E. exfalso. apply (Qlt_not_le _ _ H E).
Qed.

Lemma Qltb_false (a b : Q) : Qltb a b = false <-> (b <= a)%Q.
Proof.
  unfold Qltb. rewrite negb_false_iff. apply Qle_bool_iff.
Qed.

Lemma py_min_cases (a b : Q) :
  (py_min a b = b /\ (b < a)%Q) \/ (py_min a b = a /\ (a <= b)%Q).
Proof.
  unfold py_min. destruct (Qltb b a) eqn:E.
  - left. split; [reflexivity | now apply Qltb_true].
  - right. split; [reflexivity | now apply Qltb_false].
Qed.

Lemma py_max_cases (a b : Q) :
  (py_max a b = b /\ (a < b)%Q) \/ (py_max a b = a /\ (b <= a)%Q).
Proof.
  unfold py_max. destruct (Qltb a b) eqn:E.
  - left. split; [reflexivity | now apply Qltb_true].
  - right. split; [reflexivity | now apply Qltb_false].
Qed.

Lemma round_half_even_floor (x : Q) :
  round_half_even x = Qfloor x
  \/ (round_half_even x = Qfloor x + 1 /\ (inject_Z (Qfloor x) < x)%Q).
Proof.
  unfold round_half_even.
  destruct (Qltb (x - inject_Z (Qfloor x)) (1 # 2)) eqn:E1; [now left|].
  apply Qltb_false in E1.
  assert (Hlt : (inject_Z (Qfloor x) < x)%Q) by lra.
  destruct (Qltb (1 # 2) (x - inject_Z (Qfloor x))); [now right|].
  destruct (Z.even (Qfloor x)); [now left | now right].
Qed.

Lemma round_half_even_ge (k : Z) (x : Q) :
  (inject_Z k <= x)%Q -> k <= round_half_even x.
Proof.
  intro H. apply Qfloor_resp_le in H. rewrite Qfloor_Z in H.
  destruct (round_half_even_floor x) as [-> | [-> _]]; lia.
Qed.

Lemma round_half_even_le (k : Z) (x : Q) :
  (x <= inject_Z k)%Q -> round_half_even x <= k.
Proof.
  intro H. pose proof (Qfloor_resp_le _ _ H) as Hf. rewrite Qfloor_Z in Hf.
  destruct (round_half_even_floor x) as [-> | [-> Hlt]]; [lia|].
  assert (Hk : (inject_Z (Qfloor x) < inject_Z k)%Q) by lra.
  rewrite <- Zlt_Qlt in Hk. lia.
Qed.

Lemma round_half_even_comp (x y : Q) : (x == y)%Q -> round_half_even x = round_half_even y.
Proof.
  intro H. unfold round_half_even.
  rewrite (Qfloor_comp _ _ H).
  assert (Hr : (x - inject_Z (Qfloor y) == y - inject_Z (Qfloor y))%Q) by (rewrite H; reflexivity).
  assert (E1 : Qltb (x - inject_Z (Qfloor y)) (1 # 2) = Qltb (y - inject_Z (Qfloor y)) (1 # 2)).
  { unfold Qltb. f_equal. apply eq_true_iff_eq. rewrite !Qle_bool_iff, Hr. reflexivity. }
  assert (E2 : Qltb (1 # 2) (x - inject_Z (Qfloor y)) = Qltb (1 # 2) (y - inject_Z (Qfloor y))).
  { unfold Qltb. f_equal. apply eq_true_iff_eq. rewrite !Qle_bool_iff, Hr. reflexivity. }
  rewrite E1, E2. reflexivity.
Qed.

Lemma py_round_comp (x y : Q) (n : nat) : (x == y)%Q -> py_round x n = py_round y n.
Proof.
  intro H. unfold py_round. f_equal. apply round_half_even_comp. rewrite H. reflexivity.
Qed.

(** Rounding to two decimals keeps a value between two bounds that are
    themselves multiples of 1/100. *)
Lemma py_round_2_bounds (a b : Z) (x : Q) :
  (a # 100 <= x)%Q -> (x <= b # 100)%Q ->
  (a # 100 <= py_round x 2)%Q /\ (py_round x 2 <= b # 100)%Q.
Proof.
  intros Ha Hb. unfold py_round.
  change (Z.to_pos (10 ^ Z.of_nat 2)) with 100%positive.
  assert (H1 : a <= round_half_even (x * inject_Z 100)).
  { apply round_half_even_ge. unfold Qle in *. cbn in *. lia. }
  assert (H2 : round_half_even (x * inject_Z 100) <= b).
  { apply round_half_even_le. unfold Qle in *. cbn in *. lia. }
  unfold Qle. cbn. lia.
Qed.

Lemma Qeq_bool_false (a b : Q) : ~ (a == b)%Q -> Qeq_bool a b = false.
Proof.
  intro H. destruct (Qeq_bool a b) eqn:E; [|reflexivity].
  apply Qeq_bool_iff in E. contradiction.
Qed.

Lemma Qeq_bool_true (a b : Q) : (a == b)%Q -> Qeq_bool a b = true.
Proof. apply Qeq_bool_iff. Qed.

(** ** HealthCalculator.calculate_health_score *)

Lemma bmi_points_range (bmi : option Q) : 0 <= bmi_points bmi <= 20.
Proof.
  unfold bmi_points. destruct bmi as [b|]; [|lia].
  repeat match goal with |- context [if ?c then _ else _] => destruct c end; lia.
Qed.

Lemma sleep_points_range (sleep_avg : option Q) : 0 <= sleep_points sleep_avg <= 20.
Proof.
  unfold sleep_points. destruct sleep_avg as [s|]; [|lia].
  repeat match goal with |- context [if ?c then _ else _] => destruct c end; lia.
Qed.

Lemma exercise_points_range (exercise_days : option Z) :
  0 <= exercise_points exercise_days <= 25.
Proof.
  unfold exercise_points. destruct exercise_days as [d|]; [|lia].
  repeat match goal with |- context [if ?c then _ else _] => destruct c end; lia.
Qed.

Lemma blood_pressure_points_range (bp : option Z) :
  (0 <= blood_pressure_points bp <= 7.5)%Q.
Proof.
  unfold blood_pressure_points. destruct bp as [b|]; [|lra].
  repeat match goal with |- context [if ?c then _ else _] => destruct c end; lra.
Qed.

Lemma heart_rate_points_range (hr : option Z) : (0 <= heart_rate_points hr <= 7.5)%Q.
Proof.
  unfold heart_rate_points. destruct hr as [h|]; [|lra].
  repeat match goal with |- context [if ?c then _ else _] => destruct c end; lra.
Qed.

Lemma nutrition_points_range (nutrition_score : option Q) :
  in_documented_range nutrition_score ->
  (0 <= nutrition_points nutrition_score <= 20)%Q.
Proof.
  unfold in_documented_range, nutrition_points.
  destruct nutrition_score as [n|]; intro H; [|lra].
  split.
  - setoid_replace (n / 100 * 20)%Q with (n * (1 # 5))%Q by field. lra.
  - setoid_replace (n / 100 * 20)%Q with (n * (1 # 5))%Q by field. lra.
Qed.

Lemma health_total_range
    (bmi sleep_avg : option Q) (exercise_days : option Z) (nutrition_score : option Q)
    (blood_pressure_systolic heart_rate : option Z) :
  in_documented_range nutrition_score ->
  let total_score :=
    py_sum [ inject_Z (bmi_points bmi); inject_Z (sleep_points sleep_avg);
             inject_Z (exercise_points exercise_days);
             py_round (nutrition_points nutrition_score) 2;
             py_round (0 + blood_pressure_points blood_pressure_systolic
                         + heart_rate_points heart_rate) 2 ] in
  (0 # 100 <= total_score)%Q /\ (total_score <= 10000 # 100)%Q.
Proof.
  intros Hn total_score. subst total_score. unfold py_sum. cbn [fold_left].
  pose proof (bmi_points_range bmi) as [H1 H1'].
  pose proof (sleep_points_range sleep_avg) as [H2 H2'].
  pose proof (exercise_points_range exercise_days) as [H3 H3'].
  rewrite Zle_Qle in H1, H1', H2, H2', H3, H3'.
  pose proof (nutrition_points_range _ Hn) as [Hn1 Hn2].
  destruct (py_round_2_bounds 0 2000 (nutrition_points nutrition_score)) as [H4 H4'];
    [lra | lra |].
  pose proof (blood_pressure_points_range blood_pressure_systolic) as [Hb Hb'].
  pose proof (heart_rate_points_range heart_rate) as [Hh Hh'].
  destruct (py_round_2_bounds 0 1500
              (0 + blood_pressure_points blood_pressure_systolic
               + heart_rate_points heart_rate)) as [H5 H5']; [lra | lra |].
  change (inject_Z 0) with 0%Q in *.
  change (inject_Z 20) with 20%Q in *.
  change (inject_Z 25) with 25%Q in *.
  generalize dependent (inject_Z (bmi_points bmi)).
  generalize dependent (inject_Z (sleep_points sleep_avg)).
  generalize dependent (inject_Z (exercise_points exercise_days)).
  intros. split; lra.
Qed.

(** The overall health score lies between 0 and [max_score], which is 100,
    whenever the nutrition score handed in is in its documented range. *)
Lemma calculate_health_score_range
    (bmi sleep_avg : option Q) (exercise_days : option Z) (nutrition_score : option Q)
    (blood_pressure_systolic heart_rate : option Z) :
  in_documented_range nutrition_score ->
  let r := calculate_health_score bmi sleep_avg exercise_days nutrition_score
             blood_pressure_systolic heart_rate in
  max_score r = 100
  /\ (0 <= overall_score r)%Q /\ (overall_score r <= inject_Z (max_score r))%Q.
Proof.
  intros Hn r. split; [reflexivity|].
  change (max_score r) with 100.
  pose proof (health_total_range bmi sleep_avg exercise_days nutrition_score
                blood_pressure_systolic heart_rate Hn) as [Hlo Hhi].
  cbv zeta in Hlo, Hhi.
  destruct (py_round_2_bounds 0 10000 _ Hlo Hhi) as [H1 H2].
  subst r. cbn [overall_score calculate_health_score map snd score].
  change (inject_Z 100) with 100%Q.
  split; lra.
Qed.

Example calculate_health_score_example :
  let r := calculate_health_score (Some 22.86%Q) (Some 7.5%Q) (Some 4) (Some 87.5%Q)
             (Some 118) (Some 72) in
  overall_score r = (9250 # 100) /\ max_score r = 100 /\ grade r = "A+"%string.
Proof. repeat split. Qed.

(** ** IntelligenceEngine.predict_burnout_risk *)

(** The risk formula itself stays within 0..100 on a non-negative violation
    count and a non-negative average sleep quality. *)
Lemma burnout_risk_score_range (avg_daily_hours : Q) (violations : Z) (avg_sleep_quality : Q) :
  0 <= violations -> (0 <= avg_sleep_quality)%Q ->
  (0 <= burnout_risk_score avg_daily_hours violations avg_sleep_quality <= 100)%Q.
Proof.
  intros Hv Hs. unfold burnout_risk_score.
  rewrite Zle_Qle in Hv. change (inject_Z 0) with 0%Q in Hv.
  generalize dependent (inject_Z violations). intros v Hv.
  assert (H1 : (0 <= (if Qltb 8 avg_daily_hours
                      then py_min 40 ((avg_daily_hours - 8) * 5) else 0) <= 40)%Q).
  { destruct (Qltb 8 avg_daily_hours) eqn:E; [|lra].
    apply Qltb_true in E.
    destruct (py_min_cases 40 ((avg_daily_hours - 8) * 5)) as [[-> H] | [-> H]]; lra. }
  assert (H2 : (0 <= py_min 30 (v * 2.5) <= 30)%Q).
  { destruct (py_min_cases 30 (v * 2.5)) as [[-> H] | [-> H]]; lra. }
  assert (H3 : (0 <= py_max 0 ((7 - avg_sleep_quality) * 4) <= 28)%Q).
  { destruct (py_max_cases 0 ((7 - avg_sleep_quality) * 4)) as [[-> H] | [-> H]]; lra. }
  lra.
Qed.

Lemma fold_result_raise {A S : Type} (f : S -> A -> result S) (e : py_error) :
  (forall s x, f s x = Raise e) ->
  forall l s, fold_result f l s = Ok s /\ l = [] \/ fold_result f l s = Raise e.
Proof.
  intros Hf [|x l] s; cbn.
  - left. split; reflexivity.
  - right. rewrite Hf. reflexivity.
Qed.

(** C1. The health score and the dashboard's financial health score are
    bounded to 0..100 ([calculate_health_score_range],
    [financial_health_score_range]) and so is the burnout formula
    ([burnout_risk_score_range]), but [predict_burnout_risk] never gets to
    return its score: on every database it raises AttributeError, on
    [WorkSession.duration_minutes] when the user has a recent work session
    and on [BoundaryViolation.user_id] otherwise. *)
Theorem predict_burnout_risk_raises (d : database) (user_id : Z) (utcnow : datetime) :
  predict_burnout_risk d user_id utcnow
    = Raise (AttributeError "WorkSession" "duration_minutes")
  \/ predict_burnout_risk d user_id utcnow
    = Raise (AttributeError "BoundaryViolation" "user_id").
Proof.
  unfold predict_burnout_risk.
  match goal with
  | |- context [fold_result ?f ?l ?s] =>
      destruct (fold_result_raise f (AttributeError "WorkSession" "duration_minutes")
                  ltac:(reflexivity) l s) as [[-> _] | ->]
  end.
  - right. reflexivity.
  - left. reflexivity.
Qed.

Example predict_burnout_risk_empty_database :
  predict_burnout_risk empty_database 1 0
  = Raise (AttributeError "BoundaryViolation" "user_id").
Proof. reflexivity. Qed.

(** ** get_financial_dashboard: the financial health score *)

Lemma dashboard_health_score_range (savings_rate investment_value total_debt : Q) :
  (0 <= dashboard_health_score savings_rate investment_value total_debt <= 100)%Q.
Proof.
  unfold dashboard_health_score.
  match goal with |- context [py_max 0 ?e] => generalize e end.
  intro e.
  destruct (py_max_cases 0 e) as [[-> H] | [-> H]];
    match goal with |- context [py_min 100 ?x] =>
      destruct (py_min_cases 100 x) as [[-> H'] | [-> H']] end; lra.
Qed.

(** The dashboard always answers, and its financial health score is within
    0..100 whatever the rows are. *)
Lemma financial_health_score_range (now : datetime) (d : database) (current_user : User) :
  exists r, snd (get_financial_dashboard now d current_user) = Ok r
            /\ status_code r = 200
            /\ (0 <= financial_health_score (body r) <= 100)%Q.
Proof.
  eexists. split; [reflexivity|]. split; [reflexivity|].
  cbn [body financial_health_score].
  match goal with |- context [dashboard_health_score ?s ?i ?t] =>
    pose proof (dashboard_health_score_range s i t) as [Hlo Hhi];
    destruct (py_round_2_bounds 0 10000 (dashboard_health_score s i t)) as [H1 H2];
      [lra | lra |]
  end.
  split; lra.
Qed.

(** ** IntelligenceEngine.analyze_correlations *)

Lemma correlate_placeholders_empty
    (financial_data worklife_data : list Q) (health_data : health_timeseries)
    (productivity_data : productivity_timeseries) (wellbeing_data : wellbeing_timeseries) :
  _correlate_spending_vs_stress financial_data wellbeing_data = []
  /\ _correlate_work_hours_vs_health worklife_data health_data = []
  /\ _correlate_sleep_vs_productivity health_data productivity_data = []
  /\ _correlate_exercise_vs_mood health_data wellbeing_data = []
  /\ _correlate_meetings_vs_focus worklife_data productivity_data = [].
Proof. repeat split. Qed.

Lemma _get_financial_timeseries_raises (d : database) (user_id : Z) (cutoff_date : datetime) :
  _get_financial_timeseries d user_id cutoff_date = Raise (AttributeError "Transaction" "date").
Proof. reflexivity. Qed.

(** C6. The five [_correlate_*] helpers are placeholders that return the
    empty list ([correlate_placeholders_empty]), but [analyze_correlations]
    does not get to call them: building the first query reads
    [Transaction.date], which the model does not declare, so every call
    raises (OverflowError when [days] is out of range for a timedelta or the
    cutoff leaves the datetime range, AttributeError otherwise) and none
    returns the empty list. *)
Theorem analyze_correlations_raises
    (d : database) (user_id : Z) (utcnow : datetime) (days : Z) :
  (analyze_correlations d user_id utcnow days = Raise OverflowError
   \/ analyze_correlations d user_id utcnow days = Raise (AttributeError "Transaction" "date"))
  /\ analyze_correlations d user_id utcnow days <> Ok [].
Proof.
  assert (H : analyze_correlations d user_id utcnow days = Raise OverflowError
              \/ analyze_correlations d user_id utcnow days
                 = Raise (AttributeError "Transaction" "date")).
  { unfold analyze_correlations.
    destruct (timedelta_days days) as [delta | e] eqn:E1.
    - cbn [bind]. destruct (datetime_sub utcnow delta) as [cutoff | e] eqn:E2.
      + right. reflexivity.
      + left. unfold datetime_sub in E2.
        destruct (_ && _) in E2; [discriminate | now inversion E2].
    - left. unfold timedelta_days in E1.
      destruct (_ <=? _) in E1; [discriminate | now inversion E1]. }
  split; [exact H|].
  destruct H as [-> | ->]; discriminate.
Qed.

Example analyze_correlations_empty_database :
  analyze_correlations empty_database 1 (days_from_civil 2024 3 15 * day_us) 90
  = Raise (AttributeError "Transaction" "date").
Proof. reflexivity. Qed.

(** ** Transactions: create, get, delete *)

Lemma fresh_id_above (ids : list Z) : forall i, In i ids -> i < fresh_id ids.
Proof.
  unfold fresh_id. induction ids as [|j ids IH]; cbn; intros i Hi; [contradiction|].
  destruct Hi as [-> | Hi]; [lia|]. specialize (IH i Hi). lia.
Qed.

(** C3. For an authenticated user and a payload that passes validation,
    [create_transaction] answers 201 with the new row, and the row it
    appended to the table carries the user's id and every field of the
    payload; the rows already there are kept and the new primary key is not
    one of theirs. *)
Theorem create_transaction_created
    (transaction_data : TransactionCreate) (now : datetime)
    (d : database) (current_user : User) :
  valid_TransactionCreate transaction_data = true ->
  exists row,
    snd (create_transaction transaction_data now d current_user)
      = Ok {| status_code := 201; body := row |}
    /\ transactions (fst (create_transaction transaction_data now d current_user))
       = transactions d ++ [row]
    /\ tx_user_id row = User_id current_user
    /\ tx_transaction_type row = tc_transaction_type transaction_data
    /\ tx_category row = tc_category transaction_data
    /\ tx_amount row = tc_amount transaction_data
    /\ tx_description row = tc_description transaction_data
    /\ tx_transaction_date row = tc_transaction_date transaction_data
    /\ tx_merchant row = tc_merchant transaction_data
    /\ tx_tags row = tc_tags transaction_data
    /\ (forall old, In old (transactions d) -> tx_id old <> tx_id row).
Proof.
  intro Hvalid. unfold create_transaction. rewrite Hvalid.
  eexists. cbn [fst snd transactions set_transactions].
  repeat (split; [reflexivity|]).
  intros old Hold. cbn [tx_id].
  pose proof (fresh_id_above (map tx_id (transactions d)) (tx_id old)
                (in_map tx_id _ _ Hold)).
  lia.
Qed.

Lemma create_transaction_created_witness :
  valid_TransactionCreate sample_payload = true
  /\ exists row,
       snd (create_transaction sample_payload 0 empty_database sample_user)
         = Ok {| status_code := 201; body := row |}
       /\ transactions (fst (create_transaction sample_payload 0 empty_database sample_user))
          = [row]
       /\ tx_user_id row = 7.
Proof.
  split; [reflexivity|].
  destruct (create_transaction_created sample_payload 0 empty_database sample_user
              eq_refl) as [row (H1 & H2 & H3 & _)].
  exists row. repeat split; assumption.
Defined.

Lemma first_filter_none {A : Type} (p : A -> bool) (l : list A) :
  first (filter p l) = None <-> forall x, In x l -> p x = false.
Proof.
  unfold first. induction l as [|y l IH]; cbn.
  - split; [intros _ x [] | reflexivity].
  - destruct (p y) eqn:E; cbn.
    + split; [discriminate|]. intro H. specialize (H y (or_introl eq_refl)). congruence.
    + rewrite IH. split.
      * intros H x [-> | Hx]; [exact E | exact (H x Hx)].
      * intros H x Hx. apply H. right. exact Hx.
Qed.

Lemma first_filter_some {A : Type} (p : A -> bool) (l : list A) (x : A) :
  first (filter p l) = Some x -> In x l /\ p x = true.
Proof.
  unfold first. intro H.
  assert (Hin : In x (filter p l)).
  { destruct (filter p l); [discriminate|]. inversion H. left. reflexivity. }
  apply filter_In in Hin. exact Hin.
Qed.

Lemma find_transaction_none (transaction_id : Z) (d : database) (current_user : User) :
  find_transaction transaction_id d current_user = None
  <-> ~ owns_transaction d current_user transaction_id.
Proof.
  unfold find_transaction, owns_transaction. rewrite first_filter_none. split.
  - intros H (t & Hin & Hid & Hu). specialize (H t Hin).
    rewrite <- Hid, <- Hu, !Z.eqb_refl in H. discriminate.
  - intros H t Hin.
    destruct (tx_id t =? transaction_id) eqn:E1; [|reflexivity].
    destruct (tx_user_id t =? User_id current_user) eqn:E2; [|reflexivity].
    exfalso. apply H. exists t. rewrite Z.eqb_eq in E1, E2. auto.
Qed.

(** C4. [get_transaction] and [delete_transaction] raise 404 exactly when
    the table holds no row with the given id that belongs to the current
    user, 404 is the only error they raise, and a request that raises leaves
    the database as it was. *)
Theorem transaction_404_iff_absent
    (transaction_id : Z) (d : database) (current_user : User) :
  (snd (get_transaction transaction_id d current_user) = Raise not_found
     <-> ~ owns_transaction d current_user transaction_id)
  /\ (snd (delete_transaction transaction_id d current_user) = Raise not_found
     <-> ~ owns_transaction d current_user transaction_id)
  /\ (forall e, snd (get_transaction transaction_id d current_user) = Raise e ->
        e = not_found /\ fst (get_transaction transaction_id d current_user) = d)
  /\ (forall e, snd (delete_transaction transaction_id d current_user) = Raise e ->
        e = not_found /\ fst (delete_transaction transaction_id d current_user) = d).
Proof.
  rewrite <- find_transaction_none.
  unfold get_transaction, delete_transaction, not_found.
  destruct (find_transaction transaction_id d current_user) as [t|]; cbn [fst snd].
  - repeat split; try discriminate; intros; discriminate.
  - repeat split; try reflexivity;
      match goal with H : Raise _ = Raise _ |- _ => inversion H; reflexivity end.
Qed.

Lemma transaction_404_iff_absent_witness :
  snd (get_transaction 2 sample_database sample_user) = Raise not_found
  /\ fst (delete_transaction 2 sample_database sample_user) = sample_database
  /\ ~ owns_transaction sample_database sample_user 2
  /\ owns_transaction sample_database sample_user 1
  /\ snd (delete_transaction 1 sample_database sample_user)
     = Ok {| status_code := 204; body := tt |}
  /\ transactions (fst (delete_transaction 1 sample_database sample_user)) = [].
Proof.
  pose proof (transaction_404_iff_absent 2 sample_database sample_user)
    as (Hget & Hdel & _ & Hframe).
  assert (E : snd (get_transaction 2 sample_database sample_user) = Raise not_found)
    by reflexivity.
  split; [exact E|].
  split; [exact (proj2 (Hframe not_found eq_refl))|].
  split; [exact (proj1 Hget E)|].
  split; [eexists; split; [left; reflexivity | split; reflexivity]|].
  split; reflexivity.
Defined.

(** ** User-scoped reads *)

Lemma filter_andb {A : Type} (f g : A -> bool) (l : list A) :
  filter (fun x => f x && g x) l = filter g (filter f l).
Proof.
  induction l as [|x l IH]; cbn; [reflexivity|].
  destruct (f x); cbn; [destruct (g x)|]; rewrite IH; reflexivity.
Qed.

Lemma filter_andb3 {A : Type} (f g h : A -> bool) (l : list A) :
  filter (fun x => f x && g x && h x) l = filter h (filter g (filter f l)).
Proof.
  rewrite (filter_andb (fun x => f x && g x) h), (filter_andb f g). reflexivity.
Qed.

(** C5. Two databases that agree on the current user's rows give the same
    answers to [get_transactions] and to [get_financial_dashboard], whatever
    the rows of other users are. *)
Theorem reads_depend_on_own_rows_only
    (d1 d2 : database) (current_user : User) (now : datetime) (skip limit : Z)
    (transaction_type : option TransactionType) (category : option TransactionCategory)
    (start_date end_date : option datetime) (min_amount max_amount : option Q) :
  agree_on_user (User_id current_user) d1 d2 ->
  snd (get_transactions skip limit transaction_type category start_date end_date
         min_amount max_amount d1 current_user)
  = snd (get_transactions skip limit transaction_type category start_date end_date
           min_amount max_amount d2 current_user)
  /\ snd (get_financial_dashboard now d1 current_user)
     = snd (get_financial_dashboard now d2 current_user).
Proof.
  intros (Ht & Hi & Hd & _). unfold rows_of in Ht, Hi, Hd.
  split.
  - unfold get_transactions. cbn [snd]. rewrite Ht. reflexivity.
  - unfold get_financial_dashboard. cbn [snd].
    rewrite !filter_andb3, !filter_andb, Ht, Hi, Hd. reflexivity.
Qed.

Lemma reads_depend_on_own_rows_only_witness :
  agree_on_user 7 sample_database other_users_rows
  /\ sample_database <> other_users_rows
  /\ snd (get_transactions 0 100 None None None None None None
            other_users_rows sample_user)
     = snd (get_transactions 0 100 None None None None None None
              sample_database sample_user)
  /\ snd (get_financial_dashboard (days_from_civil 2024 3 20 * day_us)
            other_users_rows sample_user)
     = snd (get_financial_dashboard (days_from_civil 2024 3 20 * day_us)
              sample_database sample_user).
Proof.
  assert (H : agree_on_user 7 sample_database other_users_rows)
    by (repeat split; reflexivity).
  split; [exact H|].
  split; [discriminate|].
  destruct (reads_depend_on_own_rows_only sample_database other_users_rows sample_user
              (days_from_civil 2024 3 20 * day_us) 0 100 None None None None None None H)
    as [H1 H2].
  split; symmetry; assumption.
Defined.

Example get_financial_dashboard_sample :
  exists r, snd (get_financial_dashboard (days_from_civil 2024 3 20 * day_us)
                   other_users_rows sample_user) = Ok r
            /\ current_month_expenses (body r) = (1250 # 100)
            /\ spending_by_category (body r) = [("food"%string, 1250 # 100)]
            /\ financial_health_score (body r) = (3000 # 100).
Proof. eexists. repeat split. Qed.

(** ** calculate_debt_payoff_strategy: the simulation loop *)

Section PayoffLoop.

Variable monthly_payment : Q.

Lemma payoff_month_current_month (s : payoff_state) :
  current_month (payoff_month monthly_payment s) = current_month s + 1.
Proof.
  unfold payoff_month.
  destruct (fold_left pay_minimum (remaining_debts s)
              ([], total_interest_paid s, monthly_payment)) as [[r t] a].
  reflexivity.
Qed.

Lemma payoff_month_no_debts (s : payoff_state) :
  remaining_debts s = [] -> remaining_debts (payoff_month monthly_payment s) = [].
Proof.
  intro H. unfold payoff_month. rewrite H. reflexivity.
Qed.

Lemma payoff_guard_false (s : payoff_state) :
  payoff_guard s = false <-> remaining_debts s = [] \/ 360 <= current_month s.
Proof.
  unfold payoff_guard. destruct (remaining_debts s).
  - split; auto.
  - rewrite Z.ltb_ge. split; [auto | intros [H | H]; [discriminate | exact H]].
Qed.

Lemma iter_current_month (n : nat) (s : payoff_state) :
  current_month (Nat.iter n (payoff_month monthly_payment) s) = current_month s + Z.of_nat n.
Proof.
  induction n as [|n IH]; [cbn; lia|].
  rewrite Nat.iter_succ, payoff_month_current_month, IH. lia.
Qed.

Lemma iter_no_debts (n : nat) (s : payoff_state) :
  remaining_debts s = [] -> remaining_debts (Nat.iter n (payoff_month monthly_payment) s) = [].
Proof.
  intro H. induction n as [|n IH]; [exact H|].
  rewrite Nat.iter_succ. apply payoff_month_no_debts. exact IH.
Qed.

(** With fuel for the months left up to 360 the loop stops, after a number
    [n] of passes during which the guard held and after which it fails. *)
Lemma while_payoff_stops (fuel : nat) :
  forall s, 0 <= current_month s ->
    360 - current_month s <= Z.of_nat fuel ->
    exists n,
      while fuel payoff_guard (payoff_month monthly_payment) s = Some (Nat.iter n (payoff_month monthly_payment) s)
      /\ current_month s + Z.of_nat n <= Z.max 360 (current_month s)
      /\ payoff_guard (Nat.iter n (payoff_month monthly_payment) s) = false
      /\ (forall k, (k < n)%nat -> payoff_guard (Nat.iter k (payoff_month monthly_payment) s) = true).
Proof.
  induction fuel as [|fuel IH]; intros s Hlo Hfuel.
  - exists 0%nat. cbn [while Nat.iter nat_rect].
    assert (Hg : payoff_guard s = false) by (apply payoff_guard_false; right; lia).
    rewrite Hg. split; [reflexivity|]. split; [lia|]. split; [reflexivity|].
    intros k Hk. lia.
  - cbn [while]. destruct (payoff_guard s) eqn:Hg.
    + assert (Hm : current_month s < 360).
      { unfold payoff_guard in Hg. destruct (remaining_debts s); [discriminate|].
        now apply Z.ltb_lt. }
      destruct (IH (payoff_month monthly_payment s)) as (n & Hw & Hn & Hstop & Hrun).
      * rewrite payoff_month_current_month. lia.
      * rewrite payoff_month_current_month. lia.
      * exists (S n). rewrite Nat.iter_succ_r.
        rewrite payoff_month_current_month in Hn.
        split; [exact Hw|]. split; [lia|]. split; [exact Hstop|].
        intros [|k] Hk; [exact Hg|].
        rewrite Nat.iter_succ_r. apply Hrun. lia.
    + exists 0%nat. cbn [Nat.iter nat_rect].
      split; [reflexivity|]. split; [lia|]. split; [exact Hg|].
      intros k Hk. lia.
Qed.

End PayoffLoop.

(** C7. The simulation always terminates: with fuel for 360 passes the
    function returns, the loop makes [n <= 360] passes ([current_month] ends
    at [n]), and [total_months] is None exactly when debts are still
    remaining after the 360th pass; otherwise it is the number of passes. *)
Theorem debt_payoff_terminates_within_360
    (fuel : nat) (monthly_payment : Q) (strategy : string)
    (d : database) (current_user : User) :
  (360 <= fuel)%nat ->
  exists r,
    calculate_debt_payoff_strategy fuel monthly_payment strategy d current_user = Some r
    /\ match r with
       | NoActiveDebts _ => active_debts d current_user = []
       | PayoffPlan _ _ total_months _ _ _ =>
           let start :=
             payoff_start (prepare_debt_data strategy (active_debts d current_user)) in
           let after n := Nat.iter n (payoff_month monthly_payment) start in
           exists n,
             (1 <= n <= 360)%nat
             /\ (forall k, (k < n)%nat -> payoff_guard (after k) = true)
             /\ payoff_guard (after n) = false
             /\ current_month (after n) = Z.of_nat n
             /\ (total_months = None
                 <-> n = 360%nat /\ remaining_debts (after 360%nat) <> [])
             /\ (total_months = None <-> remaining_debts (after 360%nat) <> [])
             /\ (forall m, total_months = Some m -> m = Z.of_nat n)
       end.
Proof.
  intro Hfuel. unfold calculate_debt_payoff_strategy.
  destruct (active_debts d current_user) as [|d0 ds] eqn:Hdebts.
  - eexists. split; reflexivity.
  - set (start := payoff_start (prepare_debt_data strategy (d0 :: ds))).
    destruct (while_payoff_stops monthly_payment fuel start) as (n & Hw & Hn & Hstop & Hrun).
    + cbn. lia.
    + cbn. lia.
    + rewrite Hw. eexists. split; [reflexivity|].
      cbv zeta. fold start.
      pose proof (iter_current_month monthly_payment n start) as Hcm.
      change (current_month start) with 0 in Hcm, Hn.
      assert (Hstart : remaining_debts start <> []).
      { unfold start, payoff_start, prepare_debt_data. cbn [remaining_debts].
        intro E. apply (f_equal (@List.length _)) in E.
        destruct (String.eqb strategy "avalanche");
          [ set (cmp := fun a b : debt_entry => Qle_bool (interest_rate b) (interest_rate a)) in E
          | set (cmp := fun a b : debt_entry => Qle_bool (balance a) (balance b)) in E ];
          cbn [map sort_by fold_right] in E;
          match type of E with
          | List.length (insert_by _ ?x ?l) = _ =>
              destruct l; cbn in E; [discriminate|];
              match type of E with
              | context [if ?c then _ else _] => destruct c; discriminate
              end
          end. }
      assert (Hn1 : (1 <= n)%nat).
      { destruct n as [|n]; [|lia]. cbn [Nat.iter nat_rect] in Hstop.
        apply payoff_guard_false in Hstop. destruct Hstop as [H | H]; [contradiction|].
        cbn in H. lia. }
      exists n. split; [lia|]. split; [exact Hrun|]. split; [exact Hstop|].
      split; [lia|].
      apply payoff_guard_false in Hstop as Hstop'.
      assert (Hnone360 :
        remaining_debts (Nat.iter n (payoff_month monthly_payment) start) <> []
        <-> n = 360%nat
            /\ remaining_debts (Nat.iter 360 (payoff_month monthly_payment) start) <> []).
      { split.
        - intro Hrem. destruct Hstop' as [H | H]; [contradiction|].
          assert (n = 360%nat) by lia. subst n. split; [reflexivity | exact Hrem].
        - intros [-> H]. exact H. }
      assert (Hremain :
        remaining_debts (Nat.iter n (payoff_month monthly_payment) start) <> []
        <-> remaining_debts (Nat.iter 360 (payoff_month monthly_payment) start) <> []).
      { rewrite Hnone360. split; [tauto|]. intro H. split; [|exact H].
        destruct Hstop' as [Hempty | Hm]; [|lia].
        exfalso. apply H.
        replace 360%nat with ((360 - n) + n)%nat by lia.
        rewrite Nat.iter_add. apply iter_no_debts. exact Hempty. }
      destruct (remaining_debts (Nat.iter n (payoff_month monthly_payment) start)) eqn:Hr.
      * split; [split; [discriminate | intro H; apply Hnone360 in H; now contradiction H]|].
        split; [split; [discriminate | intro H; apply Hremain in H; now contradiction H]|].
        intros m Hm. inversion Hm. lia.
      * split; [split; [intros _; apply Hnone360; discriminate | reflexivity]|].
        split; [split; [intros _; apply Hremain; discriminate | reflexivity]|].
        discriminate.
Qed.

Example debt_payoff_avalanche :
  calculate_debt_payoff_strategy 360 200 "avalanche" debts_database sample_user
  = Some (PayoffPlan "avalanche" 200 (Some 3) (973 # 100)
            [ {| month := 2; debt_name := "card" |};
              {| month := 3; debt_name := "loan" |} ]
            [ "card"; "loan" ]%string).
Proof. vm_compute. reflexivity. Qed.

Example debt_payoff_snowball :
  calculate_debt_payoff_strategy 360 200 "snowball" debts_database sample_user
  = Some (PayoffPlan "snowball" 200 (Some 3) (1284 # 100)
            [ {| month := 1; debt_name := "loan" |};
              {| month := 3; debt_name := "card" |} ]
            [ "loan"; "card" ]%string).
Proof. vm_compute. reflexivity. Qed.

Example debt_payoff_out_of_fuel :
  calculate_debt_payoff_strategy 1 200 "snowball" debts_database sample_user = None.
Proof. vm_compute. reflexivity. Qed.

Lemma debt_payoff_terminates_within_360_witness :
  (360 <= 360)%nat
  /\ exists r,
       calculate_debt_payoff_strategy 360 200 "avalanche" debts_database sample_user
         = Some r
       /\ match r with
          | NoActiveDebts _ => False
          | PayoffPlan _ _ total_months _ _ _ => total_months = Some 3
          end.
Proof.
  split; [apply le_n|].
  destruct (debt_payoff_terminates_within_360 360 200 "avalanche" debts_database
              sample_user (le_n 360)) as (r & Hr & _).
  exists r. split; [exact Hr|].
  assert (E : Some r
              = Some (PayoffPlan "avalanche" 200 (Some 3) (973 # 100)
                        [ {| month := 2; debt_name := "card" |};
                          {| month := 3; debt_name := "loan" |} ]
                        [ "card"; "loan" ]%string)).
  { rewrite <- Hr. vm_compute. reflexivity. }
  inversion E. reflexivity.
Defined.

Lemma interest_only_month (s : payoff_state) (d : debt_entry) :
  remaining_debts s = [d] -> interest_only d ->
  exists d', remaining_debts (payoff_month 10 s) = [d'] /\ interest_only d'.
Proof.
  intros Hs (Hb & Hr & Hm). unfold payoff_month. rewrite Hs.
  cbn [fold_left pay_minimum app]. rewrite Hr, Hm.
  assert (Hmin : py_min 10 (balance d) = 10%Q).
  { unfold py_min. replace (Qltb (balance d) 10) with false; [reflexivity|].
    symmetry. apply Qltb_false. rewrite Hb. discriminate. }
  rewrite Hmin.
  assert (Hnew : (balance d - (10 - balance d * (12 / 100) / 12) == 1000)%Q).
  { rewrite Hb. reflexivity. }
  replace (Qltb 0 (10 - 10)) with false by reflexivity.
  cbn [filter balance set_balance].
  replace (Qltb 0 (balance d - (10 - balance d * (12 / 100) / 12))) with true.
  - eexists. split; [reflexivity|].
    unfold interest_only. cbn [balance interest_rate minimum_payment set_balance].
    rewrite Hr, Hm. split; [exact Hnew|]. split; reflexivity.
  - symmetry. apply Qltb_true. rewrite Hnew. reflexivity.
Qed.

Lemma interest_only_forever (n : nat) (s : payoff_state) (d : debt_entry) :
  remaining_debts s = [d] -> interest_only d ->
  exists d', remaining_debts (Nat.iter n (payoff_month 10) s) = [d'] /\ interest_only d'.
Proof.
  intros Hs Hd. induction n as [|n (d' & Hs' & Hd')].
  - exists d. split; assumption.
  - rewrite Nat.iter_succ. exact (interest_only_month _ d' Hs' Hd').
Qed.

Lemma interest_only_never_paid
    (fuel : nat) (strategy : string) (d : database) (current_user : User) (row : Debt) :
  (360 <= fuel)%nat ->
  active_debts d current_user = [row] ->
  (Debt_current_balance row == 1000)%Q ->
  Debt_interest_rate row = 12%Q ->
  Debt_minimum_payment row = 10%Q ->
  match calculate_debt_payoff_strategy fuel 10 strategy d current_user with
  | Some (PayoffPlan _ _ total_months _ _ payment_order) =>
      total_months = None /\ payment_order = [ Debt_name row ]
  | _ => False
  end.
Proof.
  intros Hfuel Hactive Hb Hr Hm.
  unfold calculate_debt_payoff_strategy. rewrite Hactive.
  assert (Hdata : prepare_debt_data strategy [row]
                  = [ {| id := Debt_id row; name := Debt_name row;
                         balance := Debt_current_balance row;
                         interest_rate := Debt_interest_rate row;
                         minimum_payment := Debt_minimum_payment row |} ]).
  { unfold prepare_debt_data. destruct (String.eqb strategy "avalanche"); reflexivity. }
  rewrite Hdata.
  match goal with |- context [payoff_start ?data] => set (start := payoff_start data) end.
  destruct (while_payoff_stops 10 fuel start) as (n & Hw & _);
    [unfold start, payoff_start; cbn [current_month]; lia
    |unfold start, payoff_start; cbn [current_month]; lia |].
  rewrite Hw.
  destruct (interest_only_forever n start
              {| id := Debt_id row; name := Debt_name row;
                 balance := Debt_current_balance row;
                 interest_rate := Debt_interest_rate row;
                 minimum_payment := Debt_minimum_payment row |}) as (d' & Hrem & _).
  - reflexivity.
  - unfold interest_only. cbn [balance interest_rate minimum_payment]. auto.
  - rewrite Hrem. split; reflexivity.
Qed.

Example interest_only_debt_never_paid :
  match calculate_debt_payoff_strategy 360 10 "avalanche" interest_only_database
          sample_user with
  | Some (PayoffPlan _ _ total_months _ _ payment_order) =>
      total_months = None /\ payment_order = [ "mortgage"%string ]
  | _ => False
  end.
Proof.
  exact (interest_only_never_paid 360 "avalanche" interest_only_database sample_user
           {| Debt_id := 1; Debt_user_id := 7; Debt_name := "mortgage";
              Debt_current_balance := 1000; Debt_interest_rate := 12;
              Debt_minimum_payment := 10; Debt_is_active := Some 1 |}
           (le_n 360) eq_refl (Qeq_refl _) eq_refl eq_refl).
Qed.

(** ** NotificationService.send_notification *)

Lemma _is_notification_enabled_false (preferences : option UserPreferences)
    (notification_type category : string) :
  truthy_bool (_is_notification_enabled preferences notification_type category) = false
  <-> notification_disabled preferences notification_type category.
Proof.
  unfold _is_notification_enabled, notification_disabled.
  destruct preferences as [p|].
  2: { split; [discriminate | intros (p & Hp & _); discriminate]. }
  destruct (String.eqb_spec notification_type "email") as [Et | Et];
  destruct (String.eqb_spec notification_type "push") as [Ep | Ep];
  destruct (String.eqb_spec category "briefing") as [Eb | Eb];
  destruct (String.eqb_spec category "alert") as [Ea | Ea];
  try (subst; discriminate);
  unfold py_or;
  destruct (truthy_bool (enable_email_notifications p)) eqn:T1;
  destruct (truthy_bool (enable_push_notifications p)) eqn:T2;
  destruct (truthy_bool (daily_briefing_enabled p)) eqn:T3;
  destruct (truthy_bool (alert_critical_enabled p)) eqn:T4;
  destruct (truthy_bool (alert_high_enabled p)) eqn:T5;
  cbn [andb negb truthy_bool];
  try rewrite T4; try rewrite T5;
  (split;
   [ intro H; first [discriminate H | (exists p; split; [reflexivity | tauto])]
   | intros (q & Hq & Hc); injection Hq as <-;
     first [ reflexivity
           | exfalso;
             repeat match goal with
                    | H : _ \/ _ |- _ => destruct H
                    | H : _ /\ _ |- _ => destruct H
                    end; congruence ] ]).
Qed.

Lemma _send_email_notification_prints (user_id : Z) (title message : string)
    (email_address : option string) (w : world) :
  db (_send_email_notification user_id title message email_address w) = db w
  /\ exists lines,
       console (_send_email_notification user_id title message email_address w)
         = console w ++ lines
       /\ (List.length lines <= 1)%nat.
Proof.
  unfold _send_email_notification.
  match goal with |- context [match ?a with Some _ => _ | None => _ end] =>
    destruct a as [address|] end.
  - match goal with |- context [if ?c then _ else _] => destruct c end.
    + split; [reflexivity|]. eexists. split; [reflexivity|]. cbn. lia.
    + split; [reflexivity|]. exists []. rewrite app_nil_r. split; [reflexivity | cbn; lia].
  - split; [reflexivity|]. exists []. rewrite app_nil_r. split; [reflexivity | cbn; lia].
Qed.

(** C8. [send_notification] delivers nothing: all it does to the world is
    print at most one console line and append one NotificationLog row, which
    it returns.  The row's status is "skipped" exactly when the user's
    preferences row disables the type or the category (no row means
    enabled), and "sent" otherwise. *)
Theorem send_notification_logs_and_prints
    (now : datetime) (user_id : Z) (notification_type category title message : string)
    (delivery_method : option string) (extra_data : option json) (w : world) :
  let preferences :=
    first (filter (fun p => up_user_id p =? user_id) (user_preferences (db w))) in
  let w' := fst (send_notification now user_id notification_type category title message
                   delivery_method extra_data w) in
  let log := snd (send_notification now user_id notification_type category title message
                    delivery_method extra_data w) in
  db w' = set_notification_logs (db w) (notification_logs (db w) ++ [log])
  /\ (exists lines, console w' = console w ++ lines /\ (List.length lines <= 1)%nat)
  /\ nl_user_id log = user_id
  /\ nl_notification_type log = notification_type
  /\ nl_category log = category
  /\ nl_title log = title
  /\ nl_message log = message
  /\ (nl_status log = "skipped"%string
      <-> notification_disabled preferences notification_type category)
  /\ (nl_status log = "sent"%string
      <-> ~ notification_disabled preferences notification_type category)
  /\ (nl_status log = "skipped"%string -> console w' = console w).
Proof.
  intros preferences w' log. subst w' log.
  pose proof (_is_notification_enabled_false preferences notification_type category) as Hdis.
  unfold send_notification. fold preferences.
  destruct (truthy_bool (_is_notification_enabled preferences notification_type category)).
  - cbn [negb].
    assert (Hnot : ~ notification_disabled preferences notification_type category).
    { intro H. apply Hdis in H. discriminate. }
    match goal with |- context [_create_notification_log _ _ _ _ _ _ _ _ _ ?x] =>
      set (w0 := x)
    end.
    assert (Hw0 : db w0 = db w
                  /\ exists lines, console w0 = console w ++ lines
                                   /\ (List.length lines <= 1)%nat).
    { subst w0. destruct (String.eqb notification_type "email").
      - apply _send_email_notification_prints.
      - destruct (String.eqb notification_type "push").
        + split; [reflexivity|]. eexists. split; [reflexivity | cbn; lia].
        + split; [reflexivity|]. exists []. rewrite app_nil_r.
          split; [reflexivity | cbn; lia]. }
    destruct Hw0 as [Hdb Hcon]. clearbody w0.
    unfold _create_notification_log. cbn [fst snd db console nl_user_id
      nl_notification_type nl_category nl_title nl_message nl_status].
    rewrite Hdb.
    split; [reflexivity|]. split; [exact Hcon|].
    repeat (split; [reflexivity|]).
    split; [split; [discriminate | contradiction]|].
    split; [split; [intros _; exact Hnot | reflexivity]|].
    discriminate.
  - cbn [negb].
    assert (Hyes : notification_disabled preferences notification_type category).
    { apply Hdis. reflexivity. }
    unfold _create_notification_log. cbn [fst snd db console nl_user_id
      nl_notification_type nl_category nl_title nl_message nl_status].
    split; [reflexivity|].
    split; [exists []; rewrite app_nil_r; split; [reflexivity | cbn; lia]|].
    repeat (split; [reflexivity|]).
    split; [split; [intros _; exact Hyes | reflexivity]|].
    split; [split; [discriminate | intro H; contradiction]|].
    reflexivity.
Qed.

Example send_notification_push :
  let r := send_notification 0 7 "push" "reminder" "Stretch" "Time to move" None None
             notification_world in
  nl_status (snd r) = "sent"%string
  /\ console (fst r) = [ "[PUSH] To User 7, Title: Stretch, Message: Time to move"%string ]
  /\ notification_logs (db (fst r)) = [ snd r ].
Proof. repeat split. Qed.

Example send_notification_email_without_preferences :
  let r := send_notification 0 8 "email" "alert" "Budget" "Over budget"
             (Some "bob@example.org"%string) None notification_world in
  nl_status (snd r) = "sent"%string
  /\ console (fst r)
     = [ "[EMAIL] To: bob@example.org, Subject: Budget, Body: Over budget"%string ].
Proof. repeat split. Qed.

Lemma send_notification_logs_and_prints_witness :
  let r := send_notification 0 7 "email" "reminder" "Stretch" "Time to move" None None
             notification_world in
  nl_status (snd r) = "skipped"%string
  /\ console (fst r) = console notification_world
  /\ nl_status (snd r) <> "sent"%string.
Proof.
  pose proof (send_notification_logs_and_prints 0 7 "email" "reminder" "Stretch"
                "Time to move" None None notification_world) as H.
  cbv zeta in H. destruct H as (_ & _ & _ & _ & _ & _ & _ & Hskip & Hsent & Hquiet).
  assert (Hdis : notification_disabled
                   (first (filter (fun p => up_user_id p =? 7)
                             (user_preferences (db notification_world))))
                   "email" "reminder").
  { eexists. split; [reflexivity|]. left. split; reflexivity. }
  cbv zeta. split; [exact (proj2 Hskip Hdis)|].
  split; [exact (Hquiet (proj2 Hskip Hdis))|].
  intro E. exact (proj1 Hsent E Hdis).
Defined.

(** ** NotificationService.mark_notification_read *)

Lemma NoDup_map_inj {A B : Type} (f : A -> B) (l : list A) (a b : A) :
  NoDup (map f l) -> In a l -> In b l -> f a = f b -> a = b.
Proof.
  induction l as [|x l IH]; cbn; intros Hnd Ha Hb Hf; [contradiction|].
  inversion Hnd as [|y ys Hnotin Hnd']; subst.
  destruct Ha as [-> | Ha], Hb as [-> | Hb].
  - reflexivity.
  - exfalso. apply Hnotin. rewrite Hf. apply in_map. exact Hb.
  - exfalso. apply Hnotin. rewrite <- Hf. apply in_map. exact Ha.
  - exact (IH Hnd' Ha Hb Hf).
Qed.

(** C10. [mark_notification_read] touches the notification_logs table only,
    and in it only the row with the given id and user id, of which there is
    at most one: that row gets [read_at] and [status] set and keeps its
    other fields; every other row stays as it is.  Without such a row the
    database is returned unchanged, with None. *)
Theorem mark_notification_read_frame
    (utcnow : datetime) (notification_id user_id : Z) (d : database) :
  NoDup (map nl_id (notification_logs d)) ->
  let d' := fst (mark_notification_read utcnow notification_id user_id d) in
  let r := snd (mark_notification_read utcnow notification_id user_id d) in
  d' = set_notification_logs d (notification_logs d')
  /\ (forall i row,
        nth_error (notification_logs d) i = Some row ->
        nth_error (notification_logs d') i
        = Some (if is_target notification_id user_id row
                then read_notification utcnow row else row))
  /\ List.length (notification_logs d') = List.length (notification_logs d)
  /\ (forall i j ri rj,
        nth_error (notification_logs d) i = Some ri ->
        nth_error (notification_logs d) j = Some rj ->
        is_target notification_id user_id ri = true ->
        is_target notification_id user_id rj = true -> i = j)
  /\ (forall row,
        let row' := read_notification utcnow row in
        nl_read_at row' = Some utcnow /\ nl_status row' = "read"%string
        /\ nl_id row' = nl_id row /\ nl_user_id row' = nl_user_id row
        /\ nl_notification_type row' = nl_notification_type row
        /\ nl_category row' = nl_category row /\ nl_title row' = nl_title row
        /\ nl_message row' = nl_message row
        /\ nl_delivery_method row' = nl_delivery_method row
        /\ nl_sent_at row' = nl_sent_at row
        /\ nl_delivered_at row' = nl_delivered_at row
        /\ nl_extra_data row' = nl_extra_data row)
  /\ (forall row, In row (notification_logs d) ->
        is_target notification_id user_id row = true ->
        r = Some (read_notification utcnow row))
  /\ ((forall row, In row (notification_logs d) ->
         is_target notification_id user_id row = false) ->
      d' = d /\ r = None).
Proof.
  intros Hnd d' r. subst d' r. unfold mark_notification_read.
  fold (is_target notification_id user_id).
  destruct (first (filter (is_target notification_id user_id) (notification_logs d)))
    as [n|] eqn:Hfirst.
  - apply first_filter_some in Hfirst as [Hin Hn].
    assert (Hsame : forall row, In row (notification_logs d) ->
              (nl_id row =? nl_id n) = is_target notification_id user_id row).
    { intros row Hrow. unfold is_target in *.
      apply andb_true_iff in Hn as [Hid Hu]. rewrite Z.eqb_eq in Hid, Hu.
      destruct (nl_id row =? nl_id n) eqn:E.
      - rewrite Z.eqb_eq in E.
        rewrite (NoDup_map_inj nl_id _ row n Hnd Hrow Hin E), Hid, Hu, !Z.eqb_refl.
        reflexivity.
      - rewrite Hid in E. rewrite E. reflexivity. }
    cbn [fst snd notification_logs set_notification_logs].
    split; [reflexivity|].
    split.
    { intros i row Hi. rewrite nth_error_map, Hi. cbn [option_map].
      rewrite (Hsame row (nth_error_In _ _ Hi)). reflexivity. }
    split; [apply length_map|].
    split.
    { intros i j ri rj Hi Hj Hri Hrj.
      pose proof (nth_error_In _ _ Hi) as Ini. pose proof (nth_error_In _ _ Hj) as Inj.
      rewrite <- (Hsame ri Ini) in Hri. rewrite <- (Hsame rj Inj) in Hrj.
      rewrite Z.eqb_eq in Hri, Hrj.
      apply (proj1 (NoDup_nth_error (map nl_id (notification_logs d))) Hnd).
      - rewrite length_map. apply nth_error_Some. congruence.
      - rewrite !nth_error_map, Hi, Hj. cbn. congruence. }
    split; [intro row; cbv zeta; repeat split|].
    split.
    { intros row Hrow Ht. rewrite <- (Hsame row Hrow) in Ht. rewrite Z.eqb_eq in Ht.
      rewrite (NoDup_map_inj nl_id _ row n Hnd Hrow Hin Ht). reflexivity. }
    intro Hnone. specialize (Hnone n Hin). congruence.
  - pose proof (proj1 (first_filter_none _ _) Hfirst) as Hnone.
    cbn [fst snd].
    split; [destruct d; reflexivity|].
    split.
    { intros i row Hi. rewrite Hi, (Hnone row (nth_error_In _ _ Hi)). reflexivity. }
    split; [reflexivity|].
    split.
    { intros i j ri rj Hi Hj Hri. rewrite (Hnone ri (nth_error_In _ _ Hi)) in Hri.
      discriminate. }
    split; [intro row; cbv zeta; repeat split|].
    split.
    { intros row Hrow Ht. rewrite (Hnone row Hrow) in Ht. discriminate. }
    intros _. split; reflexivity.
Qed.

Example mark_notification_read_own :
  map (fun n => (nl_id n, nl_status n, nl_read_at n))
    (notification_logs (fst (mark_notification_read 99 1 7 two_logs)))
  = [ (1, "read"%string, Some 99); (2, "sent"%string, None) ].
Proof. reflexivity. Qed.

Example mark_notification_read_foreign :
  mark_notification_read 99 2 7 two_logs = (two_logs, None).
Proof. reflexivity. Qed.

Lemma mark_notification_read_frame_witness :
  NoDup (map nl_id (notification_logs two_logs))
  /\ nth_error (notification_logs (fst (mark_notification_read 99 1 7 two_logs))) 1
     = nth_error (notification_logs two_logs) 1
  /\ fst (mark_notification_read 99 2 7 two_logs) = two_logs
  /\ snd (mark_notification_read 99 2 7 two_logs) = None.
Proof.
  assert (Hnd : NoDup (map nl_id (notification_logs two_logs))).
  { cbn. repeat constructor; cbn; intuition discriminate. }
  split; [exact Hnd|].
  split.
  - destruct (mark_notification_read_frame 99 1 7 two_logs Hnd) as (_ & Hrows & _).
    exact (Hrows 1%nat _ eq_refl).
  - destruct (mark_notification_read_frame 99 2 7 two_logs Hnd)
      as (_ & _ & _ & _ & _ & _ & Hnone).
    apply Hnone. intros row [<- | [<- | []]]; reflexivity.
Defined.

(** ** More arithmetic of rounding *)

Lemma Qfloor_unique (x : Q) (f : Z) :
  (inject_Z f <= x)%Q -> (x < inject_Z (f + 1))%Q -> Qfloor x = f.
Proof.
  intros Hlo Hhi.
  pose proof (Qfloor_le x) as H1. pose proof (Qlt_floor x) as H2.
  assert (A : (inject_Z f < inject_Z (Qfloor x + 1))%Q) by lra.
  assert (B : (inject_Z (Qfloor x) < inject_Z (f + 1))%Q) by lra.
  rewrite <- Zlt_Qlt in A, B. lia.
Qed.

Lemma Qfloor_shift (x : Q) (k : Z) : Qfloor (x + inject_Z k) = Qfloor x + k.
Proof.
  apply Qfloor_unique.
  - rewrite inject_Z_plus. pose proof (Qfloor_le x). lra.
  - replace (Qfloor x + k + 1) with ((Qfloor x + 1) + k) by lia.
    rewrite inject_Z_plus. pose proof (Qlt_floor x). lra.
Qed.

Lemma Qltb_comp (a b c d : Q) : (a == c)%Q -> (b == d)%Q -> Qltb a b = Qltb c d.
Proof.
  intros H1 H2. unfold Qltb. f_equal. apply eq_true_iff_eq.
  rewrite !Qle_bool_iff, H1, H2. reflexivity.
Qed.

Lemma round_half_even_shift (x : Q) (k : Z) :
  round_half_even (x + inject_Z (2 * k)) = round_half_even x + 2 * k.
Proof.
  unfold round_half_even. rewrite Qfloor_shift.
  assert (Hr : (x + inject_Z (2 * k) - inject_Z (Qfloor x + 2 * k)
                == x - inject_Z (Qfloor x))%Q).
  { rewrite inject_Z_plus. ring. }
  rewrite (Qltb_comp _ (1 # 2) _ (1 # 2) Hr (Qeq_refl _)).
  rewrite (Qltb_comp (1 # 2) _ (1 # 2) _ (Qeq_refl _) Hr).
  replace (Z.even (Qfloor x + 2 * k)) with (Z.even (Qfloor x))
    by (rewrite Z.even_add_mul_2; reflexivity).
  destruct (Qltb (x - inject_Z (Qfloor x)) (1 # 2)); [lia|].
  destruct (Qltb (1 # 2) (x - inject_Z (Qfloor x))); [lia|].
  destruct (Z.even (Qfloor x)); lia.
Qed.

Lemma round_half_even_mono (x y : Q) :
  (x <= y)%Q -> round_half_even x <= round_half_even y.
Proof.
  intro Hxy. pose proof (Qfloor_resp_le _ _ Hxy) as Hf.
  destruct (Z.eq_dec (Qfloor x) (Qfloor y)) as [E | NE].
  - unfold round_half_even. rewrite E.
    destruct (Qltb (x - inject_Z (Qfloor y)) (1 # 2)) eqn:X1;
    destruct (Qltb (y - inject_Z (Qfloor y)) (1 # 2)) eqn:Y1;
    destruct (Qltb (1 # 2) (x - inject_Z (Qfloor y))) eqn:X2;
    destruct (Qltb (1 # 2) (y - inject_Z (Qfloor y))) eqn:Y2;
    destruct (Z.even (Qfloor y)); try lia;
    repeat match goal with
           | H : Qltb _ _ = true |- _ => apply Qltb_true in H
           | H : Qltb _ _ = false |- _ => apply Qltb_false in H
           end; lra.
  - destruct (round_half_even_floor x) as [-> | [-> _]];
    destruct (round_half_even_floor y) as [-> | [-> _]]; lia.
Qed.

Lemma round_half_even_error (x : Q) :
  (inject_Z (round_half_even x) - (1 # 2) <= x)%Q
  /\ (x <= inject_Z (round_half_even x) + (1 # 2))%Q.
Proof.
  pose proof (Qfloor_le x) as H1. pose proof (Qlt_floor x) as H2.
  rewrite inject_Z_plus in H2. change (inject_Z 1) with 1%Q in H2.
  unfold round_half_even.
  destruct (Qltb (x - inject_Z (Qfloor x)) (1 # 2)) eqn:A.
  - apply Qltb_true in A. split; lra.
  - apply Qltb_false in A.
    destruct (Qltb (1 # 2) (x - inject_Z (Qfloor x))) eqn:B.
    + apply Qltb_true in B. rewrite inject_Z_plus. change (inject_Z 1) with 1%Q.
      split; lra.
    + apply Qltb_false in B.
      destruct (Z.even (Qfloor x));
        [|rewrite inject_Z_plus; change (inject_Z 1) with 1%Q]; split; lra.
Qed.

Lemma round_half_even_Z (k : Z) : round_half_even (inject_Z k) = k.
Proof.
  apply Z.le_antisymm.
  - apply round_half_even_le. lra.
  - apply round_half_even_ge. lra.
Qed.

Lemma py_round_mono (x y : Q) (n : nat) : (x <= y)%Q -> (py_round x n <= py_round y n)%Q.
Proof.
  intro H. unfold py_round.
  set (p := Z.to_pos (10 ^ Z.of_nat n)).
  assert (Hm : round_half_even (x * inject_Z (Zpos p))
               <= round_half_even (y * inject_Z (Zpos p))).
  { apply round_half_even_mono. apply Qmult_le_compat_r; [exact H | discriminate]. }
  unfold Qle. cbn. nia.
Qed.

(** Rounding to [n] decimals moves a value by at most half a unit of the
    last decimal. *)
Lemma py_round_error (x : Q) (n : nat) :
  let half_unit := (1 # (2 * Z.to_pos (10 ^ Z.of_nat n)))%Q in
  (py_round x n - half_unit <= x)%Q /\ (x <= py_round x n + half_unit)%Q.
Proof.
  cbv zeta. unfold py_round.
  set (p := Z.to_pos (10 ^ Z.of_nat n)).
  destruct (round_half_even_error (x * inject_Z (Zpos p))) as [Hlo Hhi].
  set (r := round_half_even (x * inject_Z (Zpos p))) in *.
  destruct x as [a b]. unfold Qle, Qminus, Qplus, Qopp, Qmult, inject_Z in *. cbn in *.
  split; nia.
Qed.

(** A value with [n] decimals is its own rounding. *)
Lemma py_round_fixed (a : Z) (n : nat) :
  let p := Z.to_pos (10 ^ Z.of_nat n) in
  py_round (a # p) n = (a # p).
Proof.
  cbv zeta. unfold py_round. f_equal.
  rewrite <- (round_half_even_Z a) at 2. apply round_half_even_comp.
  unfold Qeq. cbn. lia.
Qed.

Lemma py_round_idempotent (x : Q) (n : nat) : py_round (py_round x n) n = py_round x n.
Proof. unfold py_round at 2 3. apply py_round_fixed. Qed.

(** Adding a whole number commutes with rounding to two decimals. *)
Lemma py_round_2_shift (x : Q) (k : Z) :
  (py_round (x + inject_Z k) 2 == py_round x 2 + inject_Z k)%Q.
Proof.
  unfold py_round. change (Z.to_pos (10 ^ Z.of_nat 2)) with 100%positive.
  assert (E : round_half_even ((x + inject_Z k) * inject_Z 100)
              = round_half_even (x * inject_Z 100) + 2 * (50 * k)).
  { rewrite <- round_half_even_shift. apply round_half_even_comp.
    rewrite !inject_Z_mult. ring. }
  rewrite E. generalize (round_half_even (x * inject_Z 100)). intro r.
  unfold Qeq, Qplus, inject_Z. cbn [Qnum Qden]. lia.
Qed.

(** ** Binary64: the rounding *)

Lemma pow2_pos (e : Z) : (0 < 2 ^ e)%Q.
Proof. apply Qpower_0_lt. reflexivity. Qed.

Lemma pow2_le (a b : Z) : a <= b -> (2 ^ a <= 2 ^ b)%Q.
Proof. intro H. apply Qpower_le_compat_l; [exact H | discriminate]. Qed.

Lemma pow2_lt (a b : Z) : a < b -> (2 ^ a < 2 ^ b)%Q.
Proof. intro H. apply Qpower_lt_compat_l; [exact H | reflexivity]. Qed.

Lemma pow2_lt_inv (a b : Z) : (2 ^ a < 2 ^ b)%Q -> a < b.
Proof. intro H. eapply Qpower_lt_compat_l_inv; [exact H | reflexivity]. Qed.

Lemma pow2_add (a b : Z) : (2 ^ (a + b) == 2 ^ a * 2 ^ b)%Q.
Proof. apply Qpower_plus. discriminate. Qed.

Lemma pow2_succ (a : Z) : (2 ^ (a + 1) == 2 * 2 ^ a)%Q.
Proof. rewrite pow2_add. change (2 ^ 1)%Q with 2%Q. ring. Qed.

Lemma pow2_inject (a : Z) : 0 <= a -> (inject_Z (2 ^ a) == 2 ^ a)%Q.
Proof. intro H. rewrite Zpower_Qpower by exact H. reflexivity. Qed.

(** [Qlog2] is the integer part of the binary logarithm. *)
Lemma Qlog2_spec (q : Q) :
  (0 < q)%Q -> (2 ^ Qlog2 q <= q)%Q /\ (q < 2 ^ (Qlog2 q + 1))%Q.
Proof.
  intro Hq. destruct q as [n d].
  assert (Hn : 0 < n) by (unfold Qlt in Hq; cbn in Hq; lia).
  unfold Qlog2. cbn [Qnum Qden].
  set (a := Z.log2 n). set (b := Z.log2 (Zpos d)).
  destruct (Z.log2_spec n Hn) as [Ha1 Ha2]. fold a in Ha1, Ha2.
  destruct (Z.log2_spec (Zpos d) (Pos2Z.is_pos d)) as [Hb1 Hb2]. fold b in Hb1, Hb2.
  assert (Ha0 : 0 <= a) by apply Z.log2_nonneg.
  assert (Hb0 : 0 <= b) by apply Z.log2_nonneg.
  assert (Hd : (0 < inject_Z (Zpos d))%Q) by reflexivity.
  assert (Hq' : (n # d == inject_Z n / inject_Z (Zpos d))%Q) by apply Qmake_Qdiv.
  (* 2^(a-b-1) < n/d < 2^(a-b+1) *)
  assert (Hlow : (2 ^ (a - b - 1) < n # d)%Q).
  { rewrite Hq'. apply Qlt_shift_div_l; [exact Hd|].
    apply Qlt_le_trans with (2 ^ (a - b - 1) * 2 ^ (b + 1))%Q.
    - apply Qmult_lt_l; [apply pow2_pos|].
      rewrite <- pow2_inject by lia. rewrite <- Zlt_Qlt. replace (Z.succ b) with (b + 1) in Hb2 by lia. exact Hb2.
    - rewrite <- pow2_add. replace (a - b - 1 + (b + 1)) with a by lia.
      rewrite <- pow2_inject by lia. rewrite <- Zle_Qle. exact Ha1. }
  assert (Hhigh : (n # d < 2 ^ (a - b + 1))%Q).
  { rewrite Hq'. apply Qlt_shift_div_r; [exact Hd|].
    apply Qlt_le_trans with (2 ^ (a - b + 1) * 2 ^ b)%Q.
    - rewrite <- pow2_add. replace (a - b + 1 + b) with (a + 1) by lia.
      rewrite <- pow2_inject by lia. rewrite <- Zlt_Qlt. replace (Z.succ a) with (a + 1) in Ha2 by lia. exact Ha2.
    - apply Qmult_le_l; [apply pow2_pos|].
      rewrite <- pow2_inject by lia. rewrite <- Zle_Qle. exact Hb1. }
  destruct (Qle_bool (2 ^ (a - b)) (n # d)) eqn:E.
  - apply Qle_bool_iff in E. split; [exact E | exact Hhigh].
  - split; [apply Qlt_le_weak; exact Hlow|].
    replace (a - b - 1 + 1) with (a - b) by lia.
    apply Qnot_le_lt. intro H. apply Qle_bool_iff in H. congruence.
Qed.

Lemma Qlog2_unique (q : Q) (k : Z) :
  (2 ^ k <= q)%Q -> (q < 2 ^ (k + 1))%Q -> Qlog2 q = k.
Proof.
  intros H1 H2.
  assert (Hq : (0 < q)%Q) by (eapply Qlt_le_trans; [apply (pow2_pos k) | exact H1]).
  destruct (Qlog2_spec q Hq) as [L1 L2].
  assert (Qlog2 q < k + 1).
  { apply pow2_lt_inv. eapply Qle_lt_trans; [exact L1 | exact H2]. }
  assert (k < Qlog2 q + 1).
  { apply pow2_lt_inv. eapply Qle_lt_trans; [exact H1 | exact L2]. }
  lia.
Qed.

Lemma Qlog2_comp (x y : Q) : (0 < x)%Q -> (x == y)%Q -> Qlog2 x = Qlog2 y.
Proof.
  intros Hx E. destruct (Qlog2_spec x Hx) as [L1 L2].
  symmetry. apply Qlog2_unique; rewrite <- E; assumption.
Qed.

Lemma Qlog2_mono (x y : Q) : (0 < x)%Q -> (x <= y)%Q -> Qlog2 x <= Qlog2 y.
Proof.
  intros Hx Hxy.
  assert (Hy : (0 < y)%Q) by (eapply Qlt_le_trans; eassumption).
  destruct (Qlog2_spec x Hx) as [X1 _]. destruct (Qlog2_spec y Hy) as [_ Y2].
  assert (Qlog2 x < Qlog2 y + 1).
  { apply pow2_lt_inv. eapply Qle_lt_trans; [exact X1|].
    eapply Qle_lt_trans; [exact Hxy | exact Y2]. }
  lia.
Qed.

Lemma ulp_exponent_mono (x y : Q) :
  (0 < x)%Q -> (x <= y)%Q -> ulp_exponent x <= ulp_exponent y.
Proof.
  intros Hx Hxy. unfold ulp_exponent. pose proof (Qlog2_mono x y Hx Hxy). lia.
Qed.

Lemma ulp_exponent_comp (x y : Q) :
  (0 < x)%Q -> (x == y)%Q -> ulp_exponent x = ulp_exponent y.
Proof. intros Hx E. unfold ulp_exponent. rewrite (Qlog2_comp x y Hx E). reflexivity. Qed.

(** The scaled magnitude has at most 53 bits, and exactly 53 in the normal
    range. *)
Lemma scaled_lt (a : Q) :
  (0 < a)%Q -> (a / 2 ^ ulp_exponent a < 2 ^ 53)%Q.
Proof.
  intro Ha. destruct (Qlog2_spec a Ha) as [_ L2].
  apply Qlt_shift_div_r; [apply pow2_pos|].
  rewrite <- pow2_add. eapply Qlt_le_trans; [exact L2|].
  apply pow2_le. unfold ulp_exponent. lia.
Qed.

Lemma scaled_ge (a : Q) :
  (0 < a)%Q -> -1022 <= Qlog2 a -> (2 ^ 52 <= a / 2 ^ ulp_exponent a)%Q.
Proof.
  intros Ha HL. destruct (Qlog2_spec a Ha) as [L1 _].
  apply Qle_shift_div_l; [apply pow2_pos|].
  rewrite <- pow2_add. eapply Qle_trans; [|exact L1].
  apply pow2_le. unfold ulp_exponent. lia.
Qed.

Lemma round_magnitude_nonneg (a : Q) : (0 < a)%Q -> (0 <= round_magnitude a)%Q.
Proof.
  intro Ha. unfold round_magnitude.
  apply Qmult_le_0_compat; [|apply Qlt_le_weak, pow2_pos].
  change 0%Q with (inject_Z 0). rewrite <- Zle_Qle.
  apply round_half_even_ge. change (inject_Z 0) with 0%Q.
  apply Qle_shift_div_l; [apply pow2_pos|]. lra.
Qed.

Lemma round_magnitude_le (a : Q) :
  (0 < a)%Q -> (round_magnitude a <= 2 ^ (ulp_exponent a + 53))%Q.
Proof.
  intro Ha. unfold round_magnitude. rewrite pow2_add, Qmult_comm.
  apply Qmult_le_l; [apply pow2_pos|].
  rewrite <- (pow2_inject 53) by lia. rewrite <- Zle_Qle.
  apply round_half_even_le. rewrite (pow2_inject 53) by lia.
  apply Qlt_le_weak, scaled_lt, Ha.
Qed.

Lemma round_magnitude_ge (a : Q) :
  (0 < a)%Q -> -1022 <= Qlog2 a -> (2 ^ Qlog2 a <= round_magnitude a)%Q.
Proof.
  intros Ha HL. unfold round_magnitude.
  replace (Qlog2 a) with (52 + ulp_exponent a) at 1 by (unfold ulp_exponent; lia).
  rewrite pow2_add. apply Qmult_le_compat_r; [|apply Qlt_le_weak, pow2_pos].
  rewrite <- (pow2_inject 52) by lia. rewrite <- Zle_Qle.
  apply round_half_even_ge. rewrite (pow2_inject 52) by lia.
  apply scaled_ge; assumption.
Qed.

Lemma round_magnitude_comp (x y : Q) :
  (0 < x)%Q -> (x == y)%Q -> (round_magnitude x == round_magnitude y)%Q.
Proof.
  intros Hx E. unfold round_magnitude.
  rewrite (ulp_exponent_comp x y Hx E).
  rewrite (round_half_even_comp (x / 2 ^ ulp_exponent y) (y / 2 ^ ulp_exponent y));
    [reflexivity|]. rewrite E. reflexivity.
Qed.

(** Rounding keeps the order of positive numbers. *)
Lemma round_magnitude_mono (x y : Q) :
  (0 < x)%Q -> (x <= y)%Q -> (round_magnitude x <= round_magnitude y)%Q.
Proof.
  intros Hx Hxy.
  assert (Hy : (0 < y)%Q) by (eapply Qlt_le_trans; eassumption).
  pose proof (ulp_exponent_mono x y Hx Hxy) as He.
  destruct (Z.eq_dec (ulp_exponent x) (ulp_exponent y)) as [E | Hne].
  - unfold round_magnitude. rewrite E.
    apply Qmult_le_compat_r; [|apply Qlt_le_weak, pow2_pos].
    rewrite <- Zle_Qle. apply round_half_even_mono.
    apply Qmult_le_compat_r; [exact Hxy|].
    apply Qlt_le_weak, Qinv_lt_0_compat, pow2_pos.
  - assert (HL : -1022 <= Qlog2 y) by (unfold ulp_exponent in *; lia).
    eapply Qle_trans; [apply round_magnitude_le, Hx|].
    eapply Qle_trans; [|apply round_magnitude_ge; assumption].
    apply pow2_le. unfold ulp_exponent in *. lia.
Qed.

(** The error of rounding is at most half a unit in the last place. *)
Lemma round_magnitude_error (a : Q) :
  (0 < a)%Q ->
  (Qabs (round_magnitude a - a) <= (1 # 2) * 2 ^ ulp_exponent a)%Q.
Proof.
  intro Ha. unfold round_magnitude.
  pose proof (pow2_pos (ulp_exponent a)) as He.
  remember (2 ^ ulp_exponent a)%Q as p eqn:Ep.
  destruct (round_half_even_error (a / p)) as [H1 H2].
  remember (inject_Z (round_half_even (a / p))) as m eqn:Em.
  assert (Hd : (m * p - a == (m - a / p) * p)%Q) by (field; lra).
  apply Qabs_Qle_condition. rewrite Hd.
  remember (m - a / p)%Q as d eqn:Ed.
  assert (Hdb : (- (1 # 2) <= d <= 1 # 2)%Q) by (subst d; clear Ep Em; lra).
  clear Ep Em Ed H1 H2 Hd.
  split.
  - apply Qle_trans with (- (1 # 2) * p)%Q; [lra|].
    apply Qmult_le_compat_r; lra.
  - apply Qle_trans with ((1 # 2) * p)%Q; [|lra].
    apply Qmult_le_compat_r; lra.
Qed.

Lemma round64_zero (q : Q) : (q == 0)%Q -> round64 q = Finite 0.
Proof. intro H. unfold round64. rewrite (Qeq_bool_true _ _ H). reflexivity. Qed.

(** What [round64] returns for a positive and for a negative number. *)
Lemma round64_pos (q : Q) :
  (0 < q)%Q ->
  exists r, (r == round_magnitude q)%Q /\ (0 <= r)%Q
    /\ (((2 ^ 1024 <= r)%Q /\ round64 q = Infinity false)
        \/ ((r == 0)%Q /\ round64 q = Finite 0)
        \/ ((0 < r)%Q /\ (r < 2 ^ 1024)%Q /\ exists v, (v == r)%Q /\ round64 q = Finite v)).
Proof.
  intro Hq. exists (round_magnitude (Qabs q)).
  assert (Habs : (Qabs q == q)%Q) by (apply Qabs_pos; lra).
  assert (Hapos : (0 < Qabs q)%Q) by (rewrite Habs; exact Hq).
  split; [apply round_magnitude_comp; assumption|].
  pose proof (round_magnitude_nonneg (Qabs q) Hapos) as Hr.
  split; [exact Hr|].
  unfold round64.
  rewrite (Qeq_bool_false q 0) by lra.
  assert (Hneg : Qltb q 0 = false) by (apply Qltb_false; lra).
  rewrite Hneg. cbv zeta.
  destruct (Qle_bool (2 ^ 1024) (round_magnitude (Qabs q))) eqn:E1.
  - left. apply Qle_bool_iff in E1. split; [exact E1 | reflexivity].
  - right.
    assert (Hlt : (round_magnitude (Qabs q) < 2 ^ 1024)%Q).
    { apply Qnot_le_lt. intro H. apply Qle_bool_iff in H. congruence. }
    destruct (Qeq_bool (round_magnitude (Qabs q)) 0) eqn:E2.
    + left. apply Qeq_bool_iff in E2. split; [exact E2 | reflexivity].
    + right. apply Qeq_bool_neq in E2.
      split; [|split; [exact Hlt|]].
      * destruct (Qlt_le_dec 0 (round_magnitude (Qabs q))) as [H | H]; [exact H|].
        exfalso. apply E2. apply Qle_antisym; assumption.
      * eexists. split; [|reflexivity]. apply Qred_correct.
Qed.

Lemma round64_neg (q : Q) :
  (q < 0)%Q ->
  exists r, (r == round_magnitude (- q))%Q /\ (0 <= r)%Q
    /\ (((2 ^ 1024 <= r)%Q /\ round64 q = Infinity true)
        \/ ((r == 0)%Q /\ round64 q = NegZero)
        \/ ((0 < r)%Q /\ (r < 2 ^ 1024)%Q
            /\ exists v, (v == - r)%Q /\ round64 q = Finite v)).
Proof.
  intro Hq. exists (round_magnitude (Qabs q)).
  assert (Habs : (Qabs q == - q)%Q) by (apply Qabs_neg; lra).
  assert (Hapos : (0 < Qabs q)%Q) by (rewrite Habs; lra).
  split; [apply round_magnitude_comp; assumption|].
  pose proof (round_magnitude_nonneg (Qabs q) Hapos) as Hr.
  split; [exact Hr|].
  unfold round64.
  rewrite (Qeq_bool_false q 0) by lra.
  assert (Hneg : Qltb q 0 = true) by (apply Qltb_true; lra).
  rewrite Hneg. cbv zeta.
  destruct (Qle_bool (2 ^ 1024) (round_magnitude (Qabs q))) eqn:E1.
  - left. apply Qle_bool_iff in E1. split; [exact E1 | reflexivity].
  - right.
    assert (Hlt : (round_magnitude (Qabs q) < 2 ^ 1024)%Q).
    { apply Qnot_le_lt. intro H. apply Qle_bool_iff in H. congruence. }
    destruct (Qeq_bool (round_magnitude (Qabs q)) 0) eqn:E2.
    + left. apply Qeq_bool_iff in E2. split; [exact E2 | reflexivity].
    + right. apply Qeq_bool_neq in E2.
      split; [|split; [exact Hlt|]].
      * destruct (Qlt_le_dec 0 (round_magnitude (Qabs q))) as [H | H]; [exact H|].
        exfalso. apply E2. apply Qle_antisym; assumption.
      * eexists. split; [|reflexivity]. apply Qred_correct.
Qed.

Lemma Qle_bool_true (a b : Q) : (a <= b)%Q -> Qle_bool a b = true.
Proof. apply Qle_bool_iff. Qed.

(** Rounding to binary64 keeps the order. *)
Lemma round64_mono (x y : Q) : (x <= y)%Q -> fle (round64 x) (round64 y) = true.
Proof.
  intro Hxy.
  destruct (Q_dec x 0) as [[Hx | Hx] | Hx], (Q_dec y 0) as [[Hy | Hy] | Hy];
    try (exfalso; lra).
  - (* both negative *)
    destruct (round64_neg x Hx) as (rx & Erx & Hrx & Cx).
    destruct (round64_neg y Hy) as (ry & Ery & Hry & Cy).
    assert (Hr : (ry <= rx)%Q).
    { rewrite Erx, Ery. apply round_magnitude_mono; lra. }
    destruct Cx as [[Bx ->] | [[Bx ->] | (Bx & Bx' & vx & Evx & ->)]];
      destruct Cy as [[By ->] | [[By ->] | (By & By' & vy & Evy & ->)]];
      cbn; try reflexivity; try (exfalso; lra);
      apply Qle_bool_true; lra.
  - destruct (round64_neg x Hx) as (rx & Erx & Hrx & Cx).
    destruct (round64_pos y Hy) as (ry & Ery & Hry & Cy).
    destruct Cx as [[Bx ->] | [[Bx ->] | (Bx & Bx' & vx & Evx & ->)]];
      destruct Cy as [[By ->] | [[By ->] | (By & By' & vy & Evy & ->)]];
      cbn; try reflexivity; apply Qle_bool_true; lra.
  - rewrite (round64_zero y Hy).
    destruct (round64_neg x Hx) as (rx & Erx & Hrx & Cx).
    destruct Cx as [[Bx ->] | [[Bx ->] | (Bx & Bx' & vx & Evx & ->)]];
      cbn; try reflexivity; apply Qle_bool_true; lra.
  - (* both positive *)
    destruct (round64_pos x Hx) as (rx & Erx & Hrx & Cx).
    destruct (round64_pos y Hy) as (ry & Ery & Hry & Cy).
    assert (Hr : (rx <= ry)%Q).
    { rewrite Erx, Ery. apply round_magnitude_mono; lra. }
    destruct Cx as [[Bx ->] | [[Bx ->] | (Bx & Bx' & vx & Evx & ->)]];
      destruct Cy as [[By ->] | [[By ->] | (By & By' & vy & Evy & ->)]];
      cbn; try reflexivity; try (exfalso; lra);
      apply Qle_bool_true; lra.
  - rewrite (round64_zero x Hx).
    destruct (round64_pos y Hy) as (ry & Ery & Hry & Cy).
    destruct Cy as [[By ->] | [[By ->] | (By & By' & vy & Evy & ->)]];
      cbn; try reflexivity; apply Qle_bool_true; lra.
  - rewrite (round64_zero x Hx), (round64_zero y Hy). reflexivity.
Qed.

Lemma Qlog2_pow2 (k : Z) : Qlog2 (2 ^ k) = k.
Proof. apply Qlog2_unique; [apply Qle_refl | apply pow2_lt; lia]. Qed.

Lemma Qlog2_lt (a : Q) (k : Z) : (0 < a)%Q -> (a < 2 ^ k)%Q -> Qlog2 a < k.
Proof.
  intros Ha H. destruct (Qlog2_spec a Ha) as [L _].
  apply pow2_lt_inv. eapply Qle_lt_trans; eassumption.
Qed.

Lemma Qlog2_ge (a : Q) (k : Z) : (2 ^ k <= a)%Q -> k <= Qlog2 a.
Proof.
  intro H. rewrite <- (Qlog2_pow2 k) at 1. apply Qlog2_mono; [apply pow2_pos | exact H].
Qed.

Lemma rounded_pow2_accurate : accurate_pow2 rounded_pow2.
Proof.
  intros x Hx. exists (x * x)%Q. split; [|split; [|reflexivity]].
  - destruct (Qlt_le_dec x 0); nra.
  - setoid_replace (x * x - x * x)%Q with 0%Q by ring.
    pose proof (pow2_pos (ulp_exponent (x * x))). cbn. lra.
Qed.

(** Below half the smallest subnormal everything rounds to zero. *)
Lemma round_magnitude_tiny (a : Q) :
  (0 < a)%Q -> (a < 2 ^ (-1075))%Q -> (round_magnitude a == 0)%Q.
Proof.
  intros Ha Hlt.
  pose proof (Qlog2_lt a _ Ha Hlt) as HL.
  unfold round_magnitude. cbv zeta.
  assert (He : ulp_exponent a = -1074) by (unfold ulp_exponent; lia).
  rewrite He.
  pose proof (pow2_pos (-1074)) as Hp.
  pose proof (pow2_succ (-1075)) as Hs. change (-1075 + 1) with (-1074) in Hs.
  assert (Hsc : (a / 2 ^ (-1074) < 1 # 2)%Q).
  { apply Qlt_shift_div_r; [exact Hp|]. lra. }
  assert (Hnn : (0 <= a / 2 ^ (-1074))%Q).
  { apply Qle_shift_div_l; [exact Hp|]. lra. }
  pose proof (round_half_even_ge 0 _ Hnn) as Hge.
  destruct (round_half_even_error (a / 2 ^ (-1074))) as [Herr _].
  assert (Hm : (inject_Z (round_half_even (a / 2 ^ (-1074))) < inject_Z 1)%Q).
  { change (inject_Z 1) with 1%Q. lra. }
  rewrite <- Zlt_Qlt in Hm.
  replace (round_half_even (a / 2 ^ (-1074))) with 0 by lia.
  change (inject_Z 0) with 0%Q. ring.
Qed.

Lemma round64_tiny (y : Q) : (Qabs y < 2 ^ (-1075))%Q -> is_zero (round64 y) = true.
Proof.
  intro H.
  destruct (Q_dec y 0) as [[Hy | Hy] | Hy].
  - assert (Habs : (Qabs y == - y)%Q) by (apply Qabs_neg; lra).
    destruct (round64_neg y Hy) as (r & Er & Hr & C).
    assert (Hz : (r == 0)%Q).
    { rewrite Er. apply round_magnitude_tiny; lra. }
    pose proof (pow2_pos 1024).
    destruct C as [[B ->] | [[B ->] | (B & _)]]; [lra | reflexivity | lra].
  - assert (Habs : (Qabs y == y)%Q) by (apply Qabs_pos; lra).
    destruct (round64_pos y Hy) as (r & Er & Hr & C).
    assert (Hz : (r == 0)%Q).
    { rewrite Er. apply round_magnitude_tiny; lra. }
    pose proof (pow2_pos 1024).
    destruct C as [[B ->] | [[B ->] | (B & _)]]; [lra | reflexivity | lra].
  - rewrite (round64_zero y Hy). reflexivity.
Qed.

Lemma round64_huge (y : Q) : (2 ^ 1024 <= y)%Q -> round64 y = Infinity false.
Proof.
  intro H. pose proof (pow2_pos 1024) as Hp.
  assert (Hy : (0 < y)%Q) by lra.
  pose proof (Qlog2_ge y 1024 H) as HL.
  destruct (round64_pos y Hy) as (r & Er & Hr & C).
  pose proof (round_magnitude_ge y Hy ltac:(lia)) as Hge.
  pose proof (pow2_le 1024 (Qlog2 y) HL) as Hle.
  destruct C as [[B ->] | [[B _] | (_ & B & _)]]; [reflexivity | lra | lra].
Qed.

Lemma round64_nonneg (y : Q) :
  (0 <= y)%Q ->
  round64 y = Infinity false \/ exists v, round64 y = Finite v /\ (0 <= v)%Q.
Proof.
  intro H. destruct (Qlt_le_dec 0 y) as [Hy | Hy].
  - destruct (round64_pos y Hy) as (r & Er & Hr & C).
    destruct C as [[B ->] | [[B ->] | (B & _ & v & Ev & ->)]].
    + left. reflexivity.
    + right. exists 0%Q. split; [reflexivity | lra].
    + right. exists v. split; [reflexivity | lra].
  - right. exists 0%Q. split; [apply round64_zero; lra | lra].
Qed.

(** In the normal range the rounding has a relative error of at most 2^-53. *)
Lemma round64_normal (a : Q) :
  (2 ^ (-1022) <= a)%Q -> (a < 2 ^ 1023)%Q ->
  exists v, round64 a = Finite v /\ within (2 ^ (-53)) v a.
Proof.
  intros Hlo Hhi. pose proof (pow2_pos (-1022)) as Hp.
  assert (Ha : (0 < a)%Q) by lra.
  pose proof (Qlog2_ge a _ Hlo) as HL1.
  pose proof (Qlog2_lt a _ Ha Hhi) as HL2.
  destruct (Qlog2_spec a Ha) as [S1 S2].
  destruct (round64_pos a Ha) as (r & Er & Hr & C).
  pose proof (round_magnitude_ge a Ha HL1) as Hge.
  pose proof (round_magnitude_le a Ha) as Hle.
  pose proof (round_magnitude_error a Ha) as Herr.
  assert (He : ulp_exponent a = Qlog2 a - 52) by (unfold ulp_exponent; lia).
  rewrite He in Hle, Herr.
  replace (Qlog2 a - 52 + 53) with (Qlog2 a + 1) in Hle by lia.
  pose proof (pow2_le (Qlog2 a + 1) 1023 ltac:(lia)) as Hb.
  pose proof (pow2_lt 1023 1024 ltac:(lia)) as Hb'.
  pose proof (pow2_pos (Qlog2 a)) as HpL.
  destruct C as [[B _] | [[B _] | (_ & _ & v & Ev & ->)]]; [lra | lra |].
  exists v. split; [reflexivity|].
  assert (Hu : (2 ^ (Qlog2 a - 52) == 2 * 2 ^ (-53) * 2 ^ Qlog2 a)%Q).
  { replace (Qlog2 a - 52) with (Qlog2 a + (-53 + 1)) by lia.
    rewrite pow2_add, pow2_succ. ring. }
  rewrite Hu in Herr.
  pose proof (pow2_pos (-53)) as Hu0.
  apply Qabs_Qle_condition in Herr. destruct Herr as [E1 E2].
  unfold within. rewrite Ev, Er.
  remember (round_magnitude a) as m. remember (2 ^ Qlog2 a)%Q as p.
  remember (2 ^ (-53))%Q as u.
  clear - S1 HpL Hu0 E1 E2.
  assert (Hm : (u * p <= u * a)%Q) by nra.
  split; nra.
Qed.

(** Comparison of closed rationals by computation. *)
Ltac Qcompute := apply Qle_bool_iff; vm_compute; reflexivity.

Ltac abs_cases v :=
  let H := fresh "Hsign" in
  let E := fresh "Eabs" in
  destruct (Qlt_le_dec v 0) as [H | H];
  [ assert (E : (Qabs v == - v)%Q) by (apply Qabs_neg; lra)
  | assert (E : (Qabs v == v)%Q) by (apply Qabs_pos; lra) ].

(** Powers of two in the normal range are binary64 values. *)
Lemma round_magnitude_pow2 (k : Z) : -1022 <= k -> (round_magnitude (2 ^ k) == 2 ^ k)%Q.
Proof.
  intro Hk. unfold round_magnitude, ulp_exponent. cbv zeta.
  rewrite Qlog2_pow2. replace (Z.max (k - 52) (-1074)) with (k - 52) by lia.
  pose proof (pow2_pos (k - 52)) as Hp.
  assert (E : (2 ^ k / 2 ^ (k - 52) == inject_Z (2 ^ 52))%Q).
  { rewrite (pow2_inject 52) by lia.
    replace k with (k - 52 + 52) at 1 by lia. rewrite pow2_add. field. lra. }
  rewrite (round_half_even_comp _ _ E), round_half_even_Z.
  rewrite (pow2_inject 52) by lia. rewrite <- pow2_add. replace (52 + (k - 52)) with k by lia.
  reflexivity.
Qed.

Lemma round_magnitude_range (a : Q) (k1 k2 : Z) :
  -1022 <= k1 -> -1022 <= k2 ->
  (2 ^ k1 <= a)%Q -> (a <= 2 ^ k2)%Q ->
  (2 ^ k1 <= round_magnitude a)%Q /\ (round_magnitude a <= 2 ^ k2)%Q.
Proof.
  intros H1 H2 L U. pose proof (pow2_pos k1).
  split.
  - rewrite <- (round_magnitude_pow2 k1 H1). apply round_magnitude_mono; [apply pow2_pos | exact L].
  - rewrite <- (round_magnitude_pow2 k2 H2). apply round_magnitude_mono; [lra | exact U].
Qed.

Lemma round_magnitude_below (a : Q) (k : Z) :
  -1022 <= k -> (0 < a)%Q -> (a <= 2 ^ k)%Q -> (round_magnitude a <= 2 ^ k)%Q.
Proof.
  intros H1 Ha U.
  rewrite <- (round_magnitude_pow2 k H1). apply round_magnitude_mono; [lra | exact U].
Qed.

(** A number between two powers of two rounds to a finite value between
    them. *)
Lemma round64_range (a : Q) (k1 k2 : Z) :
  -1022 <= k1 -> k2 <= 1023 ->
  (2 ^ k1 <= Qabs a)%Q -> (Qabs a <= 2 ^ k2)%Q ->
  exists v, round64 a = Finite v /\ (2 ^ k1 <= Qabs v)%Q /\ (Qabs v <= 2 ^ k2)%Q.
Proof.
  intros H1 H2 L U. pose proof (pow2_pos k1) as Hp.
  assert (H12 : k1 <= k2).
  { destruct (Z_le_gt_dec k1 k2) as [H | H]; [exact H|].
    pose proof (pow2_lt k2 k1 ltac:(lia)). lra. }
  pose proof (pow2_lt k2 1024 ltac:(lia)) as Hb.
  abs_cases a.
  - assert (Ha : (a < 0)%Q) by lra.
    destruct (round64_neg a Ha) as (r & Er & Hr & C).
    destruct (round_magnitude_range (- a) k1 k2) as [R1 R2]; try lia; try lra.
    rewrite <- Er in R1, R2.
    destruct C as [[B _] | [[B _] | (_ & _ & v & Ev & ->)]]; [lra | lra |].
    exists v. split; [reflexivity|].
    assert (Ea : (Qabs v == r)%Q) by (rewrite Ev, Qabs_opp; apply Qabs_pos; lra).
    rewrite Ea. split; assumption.
  - assert (Ha : (0 < a)%Q) by lra.
    destruct (round64_pos a Ha) as (r & Er & Hr & C).
    destruct (round_magnitude_range a k1 k2) as [R1 R2]; try lia; try lra.
    rewrite <- Er in R1, R2.
    destruct C as [[B _] | [[B _] | (_ & _ & v & Ev & ->)]]; [lra | lra |].
    exists v. split; [reflexivity|].
    assert (Ea : (Qabs v == r)%Q) by (rewrite Ev; apply Qabs_pos; lra).
    rewrite Ea. split; assumption.
Qed.

(** A number below a power of two rounds to a zero or to a finite value
    below it. *)
Lemma round64_below (a : Q) (k : Z) :
  -1022 <= k -> k <= 1023 -> (Qabs a <= 2 ^ k)%Q ->
  round64 a = NegZero
  \/ exists v, round64 a = Finite v /\ (Qabs v <= 2 ^ k)%Q.
Proof.
  intros H1 H2 U. pose proof (pow2_pos k) as Hp.
  pose proof (pow2_lt k 1024 ltac:(lia)) as Hb.
  destruct (Q_dec a 0) as [[Ha | Ha] | Ha].
  - assert (Eabs : (Qabs a == - a)%Q) by (apply Qabs_neg; lra).
    destruct (round64_neg a Ha) as (r & Er & Hr & C).
    pose proof (round_magnitude_below (- a) k H1 ltac:(lra) ltac:(lra)) as R.
    rewrite <- Er in R.
    destruct C as [[B _] | [[B ->] | (_ & _ & v & Ev & ->)]]; [lra | left; reflexivity |].
    right. exists v. split; [reflexivity|].
    assert (Ea : (Qabs v == r)%Q) by (rewrite Ev, Qabs_opp; apply Qabs_pos; lra).
    rewrite Ea. exact R.
  - assert (Eabs : (Qabs a == a)%Q) by (apply Qabs_pos; lra).
    destruct (round64_pos a Ha) as (r & Er & Hr & C).
    pose proof (round_magnitude_below a k H1 ltac:(lra) ltac:(lra)) as R.
    rewrite <- Er in R.
    destruct C as [[B _] | [[B ->] | (_ & _ & v & Ev & ->)]]; [lra | |].
    + right. exists 0%Q. split; [reflexivity|]. cbn. lra.
    + right. exists v. split; [reflexivity|].
      assert (Ea : (Qabs v == r)%Q) by (rewrite Ev; apply Qabs_pos; lra).
      rewrite Ea. exact R.
  - right. exists 0%Q. split; [apply round64_zero; exact Ha|]. cbn. lra.
Qed.

(** The unit in the last place, against the number itself. *)
Lemma ulp_normal (t : Q) :
  (2 ^ (-1022) <= t)%Q -> (2 ^ ulp_exponent t <= 2 * 2 ^ (-53) * t)%Q.
Proof.
  intro H. pose proof (pow2_pos (-1022)).
  assert (Ht : (0 < t)%Q) by lra.
  pose proof (Qlog2_ge t _ H) as HL.
  destruct (Qlog2_spec t Ht) as [S1 _].
  unfold ulp_exponent. replace (Z.max (Qlog2 t - 52) (-1074)) with (Qlog2 t + (-53 + 1)) by lia.
  rewrite pow2_add, pow2_succ.
  pose proof (pow2_pos (-53)).
  remember (2 ^ Qlog2 t)%Q as p. remember (2 ^ (-53))%Q as u.
  clear - S1 H1. nra.
Qed.

Lemma ulp_subnormal (t : Q) :
  (0 < t)%Q -> (t < 2 ^ (-1022))%Q -> ulp_exponent t = -1074.
Proof.
  intros Ht H. pose proof (Qlog2_lt t _ Ht H). unfold ulp_exponent. lia.
Qed.

Lemma square_abs (v : Q) : (v * v == Qabs v * Qabs v)%Q.
Proof. abs_cases v; rewrite Eabs; ring. Qed.

Lemma square_bounds (a lo hi : Q) :
  (0 <= lo)%Q -> (lo <= a)%Q -> (a <= hi)%Q -> (lo * lo <= a * a)%Q /\ (a * a <= hi * hi)%Q.
Proof. intros. split; nra. Qed.

Lemma pow2_double (k : Z) : (2 ^ k * 2 ^ k == 2 ^ (2 * k))%Q.
Proof. rewrite <- pow2_add. replace (k + k) with (2 * k) by lia. reflexivity. Qed.

Section LibmSquare.

Variable libm_pow2 : Q -> float.
Hypothesis libm_accurate : accurate_pow2 libm_pow2.

(** The library's square of a number between two powers of two. *)
Lemma libm_pow2_range (v : Q) (k1 k2 : Z) :
  -510 <= k1 -> k2 <= 511 ->
  (2 ^ k1 <= Qabs v)%Q -> (Qabs v <= 2 ^ k2)%Q ->
  exists s, libm_pow2 v = Finite s
            /\ (2 ^ (2 * k1 - 1) <= s)%Q /\ (s <= 2 ^ (2 * k2 + 1))%Q.
Proof.
  intros H1 H2 L U. pose proof (pow2_pos k1) as Hp.
  assert (Hv : ~ (v == 0)%Q).
  { intro E. rewrite E in L. cbn in L. lra. }
  destruct (libm_accurate v Hv) as (y & Hy & Herr & ->).
  destruct (square_bounds (Qabs v) (2 ^ k1) (2 ^ k2)) as [B1 B2]; try lra.
  rewrite <- square_abs in B1, B2. rewrite pow2_double in B1, B2.
  assert (Hn : (2 ^ (-1022) <= v * v)%Q).
  { eapply Qle_trans; [|exact B1]. apply pow2_le. lia. }
  pose proof (ulp_normal _ Hn) as Hulp.
  apply Qabs_Qle_condition in Herr. destruct Herr as [E1 E2].
  pose proof (pow2_pos (-53)) as Hu.
  assert (Hu' : (2 ^ (-53) <= 1)%Q) by (change 1%Q with (2 ^ 0)%Q; apply pow2_le; lia).
  pose proof (pow2_succ (2 * k1 - 1)) as S1. replace (2 * k1 - 1 + 1) with (2 * k1) in S1 by lia.
  pose proof (pow2_succ (2 * k2)) as S2.
  pose proof (pow2_pos (2 * k1 - 1)) as P1.
  assert (Hy1 : (2 ^ (2 * k1 - 1) <= y)%Q).
  { remember (2 ^ ulp_exponent (v * v))%Q as p. remember (2 ^ (-53))%Q as u.
    remember (v * v)%Q as t. remember (2 ^ (2 * k1 - 1))%Q as a. remember (2 ^ (2 * k1))%Q as b.
    clear - B1 Hulp E1 Hu Hu' S1 P1.
    assert (0 <= t)%Q by lra. assert (0 <= 1 - u)%Q by lra.
    assert (u * t <= t)%Q by nra. lra. }
  assert (Hy2 : (y <= 2 ^ (2 * k2 + 1))%Q).
  { remember (2 ^ ulp_exponent (v * v))%Q as p. remember (2 ^ (-53))%Q as u.
    remember (v * v)%Q as t. remember (2 ^ (2 * k2 + 1))%Q as a. remember (2 ^ (2 * k2))%Q as b.
    clear - B1 B2 Hulp E2 Hu Hu' S2 Hp.
    assert (0 <= 2 ^ k1)%Q by lra. assert (0 <= t)%Q by (pose proof (pow2_pos (2 * k1)); lra).
    assert (0 <= 1 - u)%Q by lra.
    assert (u * t <= t)%Q by nra. lra. }
  assert (Ey : (Qabs y == y)%Q) by (apply Qabs_pos; lra).
  destruct (round64_range y (2 * k1 - 1) (2 * k2 + 1)) as (s & Es & R1 & R2);
    try lia; try (rewrite Ey; assumption).
  exists s. split; [exact Es|].
  destruct (round64_nonneg y Hy) as [E | (s' & E & Hs)]; rewrite Es in E; [discriminate E|].
  injection E as <-.
  rewrite Qabs_pos in R1, R2 by exact Hs. split; assumption.
Qed.

(** The library's square of a number so small that the square is below
    half the smallest subnormal: a zero. *)
Lemma libm_pow2_underflow (v : Q) :
  ~ (v == 0)%Q -> (Qabs v <= 2 ^ (-539))%Q -> is_zero (libm_pow2 v) = true.
Proof.
  intros Hv U.
  destruct (libm_accurate v Hv) as (y & Hy & Herr & ->).
  assert (Ha : (0 < Qabs v)%Q).
  { abs_cases v; rewrite Eabs; [lra|].
    destruct (Qlt_le_dec 0 v); [assumption|]. exfalso. apply Hv. lra. }
  destruct (square_bounds (Qabs v) 0 (2 ^ (-539))) as [_ B2]; try lra.
  rewrite <- square_abs in B2. rewrite pow2_double in B2. change (2 * -539) with (-1078) in B2.
  assert (Ht : (0 < v * v)%Q) by (rewrite square_abs; nra).
  assert (Hsub : (v * v < 2 ^ (-1022))%Q).
  { eapply Qle_lt_trans; [exact B2|]. apply pow2_lt. lia. }
  rewrite (ulp_subnormal _ Ht Hsub) in Herr.
  apply Qabs_Qle_condition in Herr. destruct Herr as [_ E2].
  apply round64_tiny.
  assert (Ey : (Qabs y == y)%Q) by (apply Qabs_pos; lra).
  rewrite Ey.
  assert (C1 : ((1 # 16) * 2 ^ (-1074) + 2 ^ (-1078) < 2 ^ (-1075))%Q).
  { apply Qnot_le_lt. intro H. apply Qle_bool_iff in H. vm_compute in H. discriminate H. }
  lra.
Qed.

(** The library's square of a number so large that the square is beyond the
    binary64 range: an infinity. *)
Lemma libm_pow2_overflow (v : Q) :
  (2 ^ 513 <= Qabs v)%Q -> libm_pow2 v = Infinity false.
Proof.
  intro L. pose proof (pow2_pos 513) as Hp.
  assert (Hv : ~ (v == 0)%Q).
  { intro E. rewrite E in L. cbn in L. lra. }
  destruct (libm_accurate v Hv) as (y & Hy & Herr & ->).
  assert (B1 : (2 ^ 513 * 2 ^ 513 <= Qabs v * Qabs v)%Q) by nra.
  rewrite <- square_abs in B1. rewrite pow2_double in B1. change (2 * 513) with 1026 in B1.
  assert (Hn : (2 ^ (-1022) <= v * v)%Q).
  { eapply Qle_trans; [|exact B1]. apply pow2_le. lia. }
  pose proof (ulp_normal _ Hn) as Hulp.
  apply Qabs_Qle_condition in Herr. destruct Herr as [E1 _].
  pose proof (pow2_pos (-53)) as Hu.
  assert (Hu' : (2 ^ (-53) <= 1)%Q) by (change 1%Q with (2 ^ 0)%Q; apply pow2_le; lia).
  pose proof (pow2_succ 1025) as S1. change (1025 + 1) with 1026 in S1.
  pose proof (pow2_le 1024 1025 ltac:(lia)) as S2.
  pose proof (pow2_pos 1025) as P1.
  apply round64_huge.
  remember (2 ^ ulp_exponent (v * v))%Q as p. remember (2 ^ (-53))%Q as u.
  remember (v * v)%Q as t. remember (2 ^ 1025)%Q as a. remember (2 ^ 1026)%Q as b.
  remember (2 ^ 1024)%Q as c.
  clear - B1 Hulp E1 Hu Hu' S1 S2 P1.
  assert (0 <= t)%Q by lra. assert (0 <= 1 - u)%Q by lra.
  assert (u * t <= t)%Q by nra. lra.
Qed.

(** The library's square is never negative and never NaN. *)
Lemma libm_pow2_nonneg (v : Q) :
  ~ (v == 0)%Q ->
  libm_pow2 v = Infinity false \/ exists s, libm_pow2 v = Finite s /\ (0 <= s)%Q.
Proof.
  intro Hv. destruct (libm_accurate v Hv) as (y & Hy & _ & ->).
  apply round64_nonneg. exact Hy.
Qed.

End LibmSquare.

(** ** calculate_bmi in binary64 *)

Lemma literal_100 : literal 100 = Finite 100.
Proof. vm_compute. reflexivity. Qed.

Lemma py_truediv_100 (x : float) : py_truediv x (literal 100) = Ok (fdiv x (Finite 100)).
Proof. rewrite literal_100. reflexivity. Qed.

Lemma fdiv_100_finite (q : Q) :
  ~ (q == 0)%Q -> fdiv (Finite q) (Finite 100) = round64 (q / 100).
Proof. intro H. cbn. rewrite (Qeq_bool_false q 0 H). reflexivity. Qed.

Lemma fdiv_100_zero (x : float) :
  is_zero x = true -> is_zero (fdiv x (Finite 100)) = true.
Proof.
  destruct x as [q | | s |]; cbn; try discriminate; [|reflexivity].
  intro H. rewrite H. apply Qeq_bool_iff in H.
  rewrite (proj2 (Qltb_false q 0)) by lra. reflexivity.
Qed.

Lemma py_square_zero (libm_pow2 : Q -> float) (x : float) :
  is_zero x = true -> py_square libm_pow2 x = Ok (Finite 0).
Proof.
  destruct x as [q | | s |]; cbn; try discriminate; [|reflexivity].
  intros ->. reflexivity.
Qed.

(** The three steps of [calculate_bmi] after the division by 100. *)
Lemma calculate_bmi_steps (libm_pow2 : Q -> float) (weight_kg height_cm : float) :
  calculate_bmi libm_pow2 weight_kg height_cm
  = match py_square libm_pow2 (fdiv height_cm (Finite 100)) with
    | Raise e => Raise e
    | Ok squared =>
        if is_zero squared then Raise ZeroDivisionError
        else Ok (py_round_float (fdiv weight_kg squared) 2)
    end.
Proof.
  unfold calculate_bmi. rewrite py_truediv_100. cbn [bind].
  destruct (py_square _ _) as [s | e]; cbn [bind]; [|reflexivity].
  unfold py_truediv. destruct (is_zero s); reflexivity.
Qed.

Lemma py_square_raises (libm_pow2 : Q -> float) (x : float) (e : py_error) :
  py_square libm_pow2 x = Raise e -> e = OverflowError.
Proof.
  destruct x as [q | | s |]; cbn; try discriminate.
  destruct (Qeq_bool q 0); [discriminate|].
  destruct (libm_pow2 q); intro H; inversion H; reflexivity.
Qed.

Lemma py_square_finite (libm_pow2 : Q -> float) (q s : Q) :
  ~ (q == 0)%Q -> libm_pow2 q = Finite s -> py_square libm_pow2 (Finite q) = Ok (Finite s).
Proof. intros H E. cbn. rewrite (Qeq_bool_false q 0 H), E. reflexivity. Qed.

Lemma abs_nonzero (q : Q) (k : Z) : (2 ^ k <= Qabs q)%Q -> ~ (q == 0)%Q.
Proof. intros H E. rewrite E in H. pose proof (pow2_pos k). cbn in H. lra. Qed.

Lemma Qabs_div_100 (q : Q) : (Qabs (q / 100) == Qabs q / 100)%Q.
Proof.
  unfold Qdiv. rewrite Qabs_Qmult. apply Qmult_comp; [reflexivity|]. reflexivity.
Qed.

Section BmiErrors.

Variable libm_pow2 : Q -> float.
Hypothesis libm_accurate : accurate_pow2 libm_pow2.

(** Heights whose square in metres is a normal binary64 number. *)
Lemma calculate_bmi_returns (weight_kg : float) (q : Q) :
  (10 ^ (-151) <= Qabs q)%Q -> (Qabs q <= 10 ^ 155)%Q ->
  exists s, py_square libm_pow2 (fdiv (Finite q) (Finite 100)) = Ok (Finite s)
            /\ (0 < s)%Q
            /\ calculate_bmi libm_pow2 weight_kg (Finite q)
               = Ok (py_round_float (fdiv weight_kg (Finite s)) 2).
Proof.
  intros L U.
  assert (C1 : (2 ^ (-510) <= 10 ^ (-151) / 100)%Q) by Qcompute.
  assert (C2 : (10 ^ 155 / 100 <= 2 ^ 511)%Q) by Qcompute.
  assert (Hq : ~ (q == 0)%Q).
  { intro E. rewrite E in L. apply Qle_bool_iff in L. vm_compute in L. discriminate L. }
  assert (L' : (2 ^ (-510) <= Qabs (q / 100))%Q).
  { rewrite Qabs_div_100. eapply Qle_trans; [exact C1|].
    apply Qmult_le_compat_r; [exact L | Qcompute]. }
  assert (U' : (Qabs (q / 100) <= 2 ^ 511)%Q).
  { rewrite Qabs_div_100. eapply Qle_trans; [|exact C2].
    apply Qmult_le_compat_r; [exact U | Qcompute]. }
  destruct (round64_range (q / 100) (-510) 511) as (v & Ev & V1 & V2); try lia; try assumption.
  destruct (libm_pow2_range libm_pow2 libm_accurate v (-510) 511) as (s & Es & S1 & S2);
    try lia; try assumption.
  pose proof (pow2_pos (2 * -510 - 1)) as Hp.
  assert (Hs : (0 < s)%Q) by lra.
  exists s.
  assert (Esq : py_square libm_pow2 (fdiv (Finite q) (Finite 100)) = Ok (Finite s)).
  { rewrite (fdiv_100_finite q Hq), Ev.
    apply py_square_finite; [|exact Es]. eapply abs_nonzero. exact V1. }
  split; [exact Esq|]. split; [exact Hs|].
  rewrite calculate_bmi_steps, Esq. cbn [is_zero].
  rewrite (Qeq_bool_false s 0) by lra. reflexivity.
Qed.

(** Non-zero heights whose square in metres underflows. *)
Lemma calculate_bmi_underflows (weight_kg : float) (q : Q) :
  ~ (q == 0)%Q -> (Qabs q <= 10 ^ (-161))%Q ->
  calculate_bmi libm_pow2 weight_kg (Finite q) = Raise ZeroDivisionError.
Proof.
  intros Hq U.
  assert (C : (10 ^ (-161) / 100 <= 2 ^ (-539))%Q) by Qcompute.
  assert (U' : (Qabs (q / 100) <= 2 ^ (-539))%Q).
  { rewrite Qabs_div_100. eapply Qle_trans; [|exact C].
    apply Qmult_le_compat_r; [exact U | Qcompute]. }
  rewrite calculate_bmi_steps, (fdiv_100_finite q Hq).
  destruct (round64_below (q / 100) (-539)) as [-> | (v & -> & V)]; try lia; try assumption.
  - reflexivity.
  - destruct (Qeq_bool v 0) eqn:E.
    + rewrite py_square_zero by exact E. reflexivity.
    + apply Qeq_bool_neq in E.
      pose proof (libm_pow2_underflow libm_pow2 libm_accurate v E V) as Hz.
      cbn. rewrite (Qeq_bool_false v 0 E).
      destruct (libm_pow2 v) as [s | | b |]; cbn in Hz |- *; try discriminate Hz.
      * rewrite Hz. reflexivity.
      * reflexivity.
Qed.

(** Finite heights whose square in metres is beyond the binary64 range. *)
Lemma calculate_bmi_overflows (weight_kg : float) (q : Q) :
  (10 ^ 157 <= Qabs q)%Q -> (Qabs q < 2 ^ 1024)%Q ->
  calculate_bmi libm_pow2 weight_kg (Finite q) = Raise OverflowError.
Proof.
  intros L U.
  assert (C1 : (2 ^ 513 <= 10 ^ 157 / 100)%Q) by Qcompute.
  assert (C2 : (2 ^ 1024 / 100 <= 2 ^ 1018)%Q) by Qcompute.
  assert (Hq : ~ (q == 0)%Q).
  { intro E. rewrite E in L. apply Qle_bool_iff in L. vm_compute in L. discriminate L. }
  assert (L' : (2 ^ 513 <= Qabs (q / 100))%Q).
  { rewrite Qabs_div_100. eapply Qle_trans; [exact C1|].
    apply Qmult_le_compat_r; [exact L | Qcompute]. }
  assert (U' : (Qabs (q / 100) <= 2 ^ 1018)%Q).
  { rewrite Qabs_div_100. eapply Qle_trans; [|exact C2].
    apply Qmult_le_compat_r; [apply Qlt_le_weak; exact U | Qcompute]. }
  rewrite calculate_bmi_steps, (fdiv_100_finite q Hq).
  destruct (round64_range (q / 100) 513 1018) as (v & -> & V1 & V2); try lia; try assumption.
  cbn. rewrite (Qeq_bool_false v 0) by (eapply abs_nonzero; exact V1).
  rewrite (libm_pow2_overflow libm_pow2 libm_accurate v V1). reflexivity.
Qed.

(** C9. The division of calculate_bmi is unguarded, and a non-zero height
    is not enough to pass it.  In binary64: a zero height (0.0 or -0.0)
    raises ZeroDivisionError for every weight; so does every non-zero height
    of magnitude at most 1e-161, whose square in metres underflows to zero;
    a finite height of magnitude at least 1e157 raises OverflowError at the
    square; every height of magnitude between 1e-151 and 1e155, and every
    infinite or NaN height, returns a value; there is no other error. *)
Theorem calculate_bmi_error_branches (weight_kg height_cm : float) :
  (is_zero height_cm = true ->
   calculate_bmi libm_pow2 weight_kg height_cm = Raise ZeroDivisionError)
  /\ (forall q, height_cm = Finite q -> ~ (q == 0)%Q -> (Qabs q <= 10 ^ (-161))%Q ->
      calculate_bmi libm_pow2 weight_kg height_cm = Raise ZeroDivisionError)
  /\ (forall q, height_cm = Finite q -> (10 ^ 157 <= Qabs q)%Q -> (Qabs q < 2 ^ 1024)%Q ->
      calculate_bmi libm_pow2 weight_kg height_cm = Raise OverflowError)
  /\ (forall q, height_cm = Finite q -> (10 ^ (-151) <= Qabs q)%Q -> (Qabs q <= 10 ^ 155)%Q ->
      exists bmi, calculate_bmi libm_pow2 weight_kg height_cm = Ok bmi)
  /\ (height_cm = NaN \/ (exists s, height_cm = Infinity s) ->
      exists bmi, calculate_bmi libm_pow2 weight_kg height_cm = Ok bmi)
  /\ (forall e, calculate_bmi libm_pow2 weight_kg height_cm = Raise e ->
      e = ZeroDivisionError \/ e = OverflowError).
Proof.
  split; [|split; [|split; [|split; [|split]]]].
  - intro Hz. rewrite calculate_bmi_steps.
    rewrite py_square_zero by (apply fdiv_100_zero; exact Hz). reflexivity.
  - intros q -> Hq U. apply calculate_bmi_underflows; assumption.
  - intros q -> L U. apply calculate_bmi_overflows; assumption.
  - intros q -> L U.
    destruct (calculate_bmi_returns weight_kg q L U) as (s & _ & _ & E).
    eexists. exact E.
  - intros [-> | (s & ->)]; rewrite calculate_bmi_steps; cbn; eexists; reflexivity.
  - intros e. rewrite calculate_bmi_steps.
    destruct (py_square _ _) as [s | e'] eqn:E.
    + destruct (is_zero s); intro H; inversion H. left. reflexivity.
    + intro H. inversion H. subst e'. right. eapply py_square_raises. exact E.
Qed.

End BmiErrors.

Lemma calculate_bmi_error_branches_witness :
  calculate_bmi rounded_pow2 (literal 70) (literal 0) = Raise ZeroDivisionError.
Proof.
  apply (calculate_bmi_error_branches rounded_pow2 rounded_pow2_accurate
           (literal 70) (literal 0)).
  vm_compute. reflexivity.
Defined.

(** C9, as stated, fails: the height 1e-200 is not zero, and the call
    raises ZeroDivisionError. *)
Lemma calculate_bmi_nonzero_height_raises :
  is_zero (literal (10 ^ (-200))) = false
  /\ calculate_bmi rounded_pow2 (literal 70) (literal (10 ^ (-200)))
     = Raise ZeroDivisionError.
Proof. split; vm_compute; reflexivity. Qed.

(** ** Relative errors *)

Lemma within_pos (e a b : Q) : within e a b -> (e < 1)%Q -> (0 < b)%Q -> (0 < a)%Q.
Proof. intros [H _] He Hb. assert (0 < (1 - e) * b)%Q by nra. lra. Qed.

Lemma within_weaken (e e' a b : Q) :
  within e a b -> (e <= e')%Q -> (0 <= b)%Q -> within e' a b.
Proof. intros [H1 H2] He Hb. split; nra. Qed.

Lemma within_square (e v x : Q) :
  within e v x -> (0 <= e)%Q -> (e <= 1)%Q -> (0 <= x)%Q -> within (3 * e) (v * v) (x * x).
Proof.
  intros [H1 H2] He He' Hx.
  assert (Hlo : (0 <= (1 - e) * x)%Q) by nra.
  destruct (square_bounds v ((1 - e) * x) ((1 + e) * x) Hlo H1 H2) as [L U].
  assert (Hxx : (0 <= x * x)%Q) by nra.
  assert (Hee : (0 <= e * e)%Q) by nra.
  assert (Hee' : (e * e <= e)%Q) by nra.
  assert (P1 : (0 <= (e - e * e) * (x * x))%Q) by nra.
  assert (P2 : (0 <= (e * e) * (x * x))%Q) by nra.
  split; nra.
Qed.

Lemma within_trans (e1 e2 e3 a b c : Q) :
  within e1 a b -> within e2 b c ->
  (0 <= c)%Q -> (0 <= e1)%Q -> (e1 <= 1)%Q -> (0 <= e2)%Q -> (e2 <= 1)%Q ->
  (e1 + e2 + e1 * e2 <= e3)%Q ->
  within e3 a c.
Proof.
  intros [A1 A2] [B1 B2] Hc H1 H1' H2 H2' H3.
  assert (Hb : (0 <= b)%Q) by nra.
  assert (U : (a <= (1 + e1) * ((1 + e2) * c))%Q) by nra.
  assert (L : ((1 - e1) * ((1 - e2) * c) <= a)%Q) by nra.
  assert (He : (0 <= e1 * e2)%Q) by nra.
  assert (P : (0 <= (e3 - (e1 + e2 + e1 * e2)) * c)%Q) by nra.
  assert (P' : (0 <= (e1 * e2) * c)%Q) by nra.
  split; nra.
Qed.

Lemma within_div (e w s t : Q) :
  within e s t -> (0 < t)%Q -> (0 <= e)%Q -> (e <= 1 # 2)%Q -> (0 <= w)%Q ->
  within (2 * e) (w / s) (w / t).
Proof.
  intros [H1 H2] Ht He He' Hw.
  assert (Hs : (0 < s)%Q) by (assert (0 < (1 - e) * t)%Q by nra; lra).
  assert (Ez : (w == w / t * t)%Q) by (field; lra).
  assert (Hz : (0 <= w / t)%Q) by (apply Qle_shift_div_l; lra).
  remember (w / t)%Q as z.
  assert (Hzt : (0 <= z * t)%Q) by nra.
  assert (Hze : (0 <= e * (z * t))%Q) by nra.
  assert (Hzee : (0 <= e * (1 - 2 * e) * (z * t))%Q).
  { assert (0 <= e * (1 - 2 * e))%Q by nra. nra. }
  assert (Hzs1 : (z * ((1 - e) * t) <= z * s)%Q) by nra.
  assert (Hzs2 : (z * s <= z * ((1 + e) * t))%Q) by nra.
  assert (Hzse : (0 <= e * (z * s))%Q) by nra.
  split.
  - apply Qle_shift_div_l; [exact Hs|]. rewrite Ez.
    assert (e * (z * s) <= e * (z * ((1 + e) * t)))%Q by nra.
    nra.
  - apply Qle_shift_div_r; [exact Hs|]. rewrite Ez.
    assert (e * (z * ((1 - e) * t)) <= e * (z * s))%Q by nra.
    nra.
Qed.

(** Two numbers less than a hundredth apart round to two decimals at most
    a hundredth apart. *)
Lemma py_round_2_close (a b : Q) :
  (Qabs (a - b) < 1 # 100)%Q -> (Qabs (py_round a 2 - py_round b 2) <= 1 # 100)%Q.
Proof.
  intro H. unfold py_round. change (Z.to_pos (10 ^ Z.of_nat 2)) with 100%positive.
  destruct (round_half_even_error (a * inject_Z 100)) as [A1 A2].
  destruct (round_half_even_error (b * inject_Z 100)) as [B1 B2].
  set (m := round_half_even (a * inject_Z 100)) in *.
  set (n := round_half_even (b * inject_Z 100)) in *.
  change (inject_Z 100) with 100%Q in *.
  assert (Hab : (- (1 # 100) < a - b)%Q /\ (a - b < 1 # 100)%Q).
  { destruct (Qlt_le_dec (a - b) 0) as [Hs | Hs].
    - rewrite Qabs_neg in H by lra. lra.
    - rewrite Qabs_pos in H by lra. lra. }
  assert (Hmn : (inject_Z (m - n) < inject_Z 2)%Q /\ (inject_Z (-2) < inject_Z (m - n))%Q).
  { unfold Z.sub. rewrite inject_Z_plus, inject_Z_opp.
    change (inject_Z 2) with 2%Q. change (inject_Z (-2)) with (-2)%Q. lra. }
  destruct Hmn as [M1 M2]. rewrite <- Zlt_Qlt in M1, M2.
  assert (E : (Qmake m 100 - Qmake n 100 == Qmake (m - n) 100)%Q).
  { unfold Qminus, Qplus, Qopp, Qeq. cbn. lia. }
  rewrite E. apply Qabs_Qle_condition. unfold Qle, Qopp. cbn. lia.
Qed.

Lemma fdiv_finite (x y : Q) :
  ~ (x == 0)%Q -> ~ (y == 0)%Q -> fdiv (Finite x) (Finite y) = round64 (x / y).
Proof.
  intros Hx Hy. cbn. rewrite (Qeq_bool_false y 0 Hy), (Qeq_bool_false x 0 Hx). reflexivity.
Qed.

Lemma py_round_float_nonneg (q : Q) (n : nat) :
  (0 <= q)%Q ->
  py_round_float (Finite q) n = round64 (py_round q n) \/ ((q == 0)%Q /\ py_round_float (Finite q) n = Finite q).
Proof.
  intro Hq. cbn. destruct (Qeq_bool q 0) eqn:E.
  - right. apply Qeq_bool_iff in E. split; [exact E | reflexivity].
  - left. destruct (Qeq_bool (py_round q n) 0) eqn:Er.
    + apply Qeq_bool_iff in Er. rewrite (round64_zero _ Er).
      rewrite (proj2 (Qltb_false q 0)) by lra. reflexivity.
    + reflexivity.
Qed.

Ltac Qcompute_lt :=
  apply Qnot_le_lt; let H := fresh in
  intro H; apply Qle_bool_iff in H; vm_compute in H; discriminate H.

Lemma calculate_bmi_cases (libm_pow2 : Q -> float) (weight_kg height_cm : float) :
  calculate_bmi libm_pow2 weight_kg height_cm = Ok (bmi_spec libm_pow2 weight_kg height_cm)
  \/ calculate_bmi libm_pow2 weight_kg height_cm = Raise ZeroDivisionError
  \/ calculate_bmi libm_pow2 weight_kg height_cm = Raise OverflowError.
Proof.
  rewrite calculate_bmi_steps. unfold bmi_spec. rewrite literal_100. cbv zeta.
  destruct (fdiv height_cm (Finite 100)) as [q | | s |]; cbn [py_square].
  - destruct (Qeq_bool q 0); [right; left; reflexivity|].
    destruct (libm_pow2 q) as [r | | s |].
    + destruct (is_zero (Finite r)); [right; left | left]; reflexivity.
    + right. left. reflexivity.
    + right. right. reflexivity.
    + left. reflexivity.
  - right. left. reflexivity.
  - left. reflexivity.
  - left. reflexivity.
Qed.

Section BmiAccuracy.

Variable libm_pow2 : Q -> float.
Hypothesis libm_accurate : accurate_pow2 libm_pow2.

(** For weights and heights of people the binary64 quotient is within
    2^-49 of the exact one. *)
Lemma calculate_bmi_accuracy (w h : Q) :
  (1 <= w)%Q -> (w <= 1000)%Q -> (10 <= h)%Q -> (h <= 1000)%Q ->
  exists v, within (2 ^ (-49)) v (w / (h / 100 * (h / 100)))
            /\ (0 < v)%Q
            /\ calculate_bmi libm_pow2 (Finite w) (Finite h) = Ok (round64 (py_round v 2)).
Proof.
  intros W1 W2 H1 H2.
  assert (Clo : (2 ^ (-1022) <= 1 # 1000000)%Q) by Qcompute.
  assert (Chi : (1000000 < 2 ^ 1023)%Q) by Qcompute_lt.
  assert (Cu0 : (0 <= 2 ^ (-53))%Q) by Qcompute.
  assert (Cu1 : (2 ^ (-53) <= 1 # 1000000)%Q) by Qcompute.
  set (x := (h / 100)%Q).
  assert (X1 : (1 # 10 <= x)%Q) by (apply Qle_shift_div_l; lra).
  assert (X2 : (x <= 10)%Q) by (apply Qle_shift_div_r; lra).
  (* the height in metres *)
  destruct (round64_normal x) as (v1 & Ev1 & R1); [lra | lra |].
  assert (V1 : (0 < v1)%Q) by (apply (within_pos _ _ _ R1); lra).
  (* its square *)
  pose proof (within_square _ _ _ R1 Cu0 ltac:(lra) ltac:(lra)) as R2.
  assert (D1 : (1 # 100 <= x * x)%Q) by nra.
  assert (D2 : (x * x <= 100)%Q) by nra.
  assert (T0 : (0 < v1 * v1)%Q) by nra.
  assert (T1 : (1 # 200 <= v1 * v1)%Q).
  { destruct R2 as [R2 _]. nra. }
  assert (Hv1 : ~ (v1 == 0)%Q) by lra.
  destruct (libm_accurate v1 Hv1) as (y & Hy & Herr & Ey).
  pose proof (ulp_normal (v1 * v1) ltac:(lra)) as Hulp.
  apply Qabs_Qle_condition in Herr. destruct Herr as [E1 E2].
  assert (R3 : within (2 ^ (-53)) y (v1 * v1)).
  { unfold within. remember (2 ^ ulp_exponent (v1 * v1))%Q as p.
    remember (2 ^ (-53))%Q as u. remember (v1 * v1)%Q as t.
    clear - E1 E2 Hulp Cu0 T0.
    assert (0 <= u * t)%Q by nra. split; nra. }
  assert (R4 : within (5 * 2 ^ (-53)) y (x * x)).
  { apply (within_trans _ _ _ _ _ _ R3 R2); first [lra | Qcompute]. }
  assert (Y1 : (1 # 200 <= y)%Q).
  { destruct R4 as [R4 _]. nra. }
  assert (Y2 : (y <= 200)%Q).
  { destruct R4 as [_ R4]. nra. }
  destruct (round64_normal y) as (v2 & Ev2 & R5); [lra | lra |].
  assert (R6 : within (7 * 2 ^ (-53)) v2 (x * x)).
  { apply (within_trans _ _ _ _ _ _ R5 R4); first [lra | Qcompute]. }
  assert (V2 : (0 < v2)%Q) by (apply (within_pos _ _ _ R6); lra).
  (* the quotient *)
  pose proof (within_div _ w _ _ R6 ltac:(lra) ltac:(lra) ltac:(lra) ltac:(lra)) as R7.
  set (E := (w / (x * x))%Q) in *.
  assert (Q1 : (1 # 100 <= E)%Q) by (apply Qle_shift_div_l; lra).
  assert (Q2 : (E <= 100000)%Q) by (apply Qle_shift_div_r; lra).
  assert (B1 : (1 # 200 <= w / v2)%Q).
  { destruct R7 as [R7 _]. nra. }
  assert (B2 : (w / v2 <= 200000)%Q).
  { destruct R7 as [_ R7]. nra. }
  destruct (round64_normal (w / v2)) as (v3 & Ev3 & R8); [lra | lra |].
  assert (R9 : within (2 ^ (-49)) v3 E).
  { apply (within_trans _ _ _ _ _ _ R8 R7); first [lra | Qcompute]. }
  assert (V3 : (0 < v3)%Q).
  { apply (within_pos _ _ _ R9); [Qcompute_lt | lra]. }
  exists v3. split; [exact R9|]. split; [exact V3|].
  rewrite calculate_bmi_steps, fdiv_100_finite by lra.
  fold x. rewrite Ev1.
  rewrite (py_square_finite libm_pow2 v1 v2 Hv1) by (rewrite Ey; exact Ev2).
  cbn [is_zero]. rewrite (Qeq_bool_false v2 0) by lra.
  rewrite fdiv_finite by lra. rewrite Ev3.
  destruct (py_round_float_nonneg v3 2) as [-> | [Hz _]]; [lra | reflexivity | lra].
Qed.

(** C2. calculate_bmi evaluates round(weight_kg / (height_cm / 100) ** 2, 2)
    in binary64.  Whenever it returns, it returns the value of that formula;
    it returns for every height of magnitude between 1e-151 and 1e155; and
    for weights from 1 to 1000 kg and heights from 10 to 1000 cm the
    quotient it rounds is within 2^-49 of the exact one, so the result is the
    binary64 number nearest to a two-decimal number at most 0.01 away from
    the exact formula's value. *)
Theorem calculate_bmi_is_binary64_quotient (weight_kg height_cm : float) :
  (calculate_bmi libm_pow2 weight_kg height_cm
   = Ok (bmi_spec libm_pow2 weight_kg height_cm)
   \/ calculate_bmi libm_pow2 weight_kg height_cm = Raise ZeroDivisionError
   \/ calculate_bmi libm_pow2 weight_kg height_cm = Raise OverflowError)
  /\ (forall h, height_cm = Finite h -> (10 ^ (-151) <= Qabs h)%Q -> (Qabs h <= 10 ^ 155)%Q ->
      calculate_bmi libm_pow2 weight_kg height_cm
      = Ok (bmi_spec libm_pow2 weight_kg height_cm))
  /\ (forall w h, weight_kg = Finite w -> height_cm = Finite h ->
      (1 <= w)%Q -> (w <= 1000)%Q -> (10 <= h)%Q -> (h <= 1000)%Q ->
      exists v, within (2 ^ (-49)) v (w / (h / 100 * (h / 100)))
                /\ calculate_bmi libm_pow2 weight_kg height_cm = Ok (round64 (py_round v 2))
                /\ (Qabs (py_round v 2 - bmi_exact w h) <= 1 # 100)%Q).
Proof.
  split; [apply calculate_bmi_cases|]. split.
  - intros h -> L U.
    destruct (calculate_bmi_returns libm_pow2 libm_accurate weight_kg h L U) as (s & _ & _ & E).
    destruct (calculate_bmi_cases libm_pow2 weight_kg (Finite h)) as [C | [C | C]];
      [exact C | congruence | congruence].
  - intros w h -> -> W1 W2 H1 H2.
    destruct (calculate_bmi_accuracy w h W1 W2 H1 H2) as (v & R & V & E).
    exists v. split; [exact R|]. split; [exact E|].
    unfold bmi_exact. cbv zeta. apply py_round_2_close.
    set (x := (h / 100)%Q) in *.
    assert (X1 : (1 # 10 <= x)%Q) by (apply Qle_shift_div_l; lra).
    assert (D1 : (1 # 100 <= x * x)%Q) by nra.
    set (E0 := (w / (x * x))%Q) in *.
    assert (Q0 : (0 <= E0)%Q) by (apply Qle_shift_div_l; lra).
    assert (Q2 : (E0 <= 100000)%Q) by (apply Qle_shift_div_r; lra).
    assert (Ce : (0 <= 2 ^ (-49))%Q) by Qcompute.
    assert (Ce' : (2 ^ (-49) * 100000 < 1 # 100)%Q) by Qcompute_lt.
    destruct R as [R1 R2].
    remember (2 ^ (-49))%Q as e. clear Heqe.
    assert (P : (e * E0 <= e * 100000)%Q) by nra.
    destruct (Qlt_le_dec (v - E0) 0) as [Hs | Hs].
    + rewrite Qabs_neg by lra. lra.
    + rewrite Qabs_pos by lra. lra.
Qed.

End BmiAccuracy.

Lemma calculate_bmi_is_binary64_quotient_witness :
  calculate_bmi rounded_pow2 (literal 70) (literal 175)
  = Ok (bmi_spec rounded_pow2 (literal 70) (literal 175)).
Proof.
  destruct (calculate_bmi_is_binary64_quotient rounded_pow2 rounded_pow2_accurate
              (literal 70) (literal 175)) as (_ & H & _).
  apply (H 175%Q).
  - vm_compute. reflexivity.
  - apply Qle_bool_iff. vm_compute. reflexivity.
  - apply Qle_bool_iff. vm_compute. reflexivity.
Defined.

(** C2, as stated, fails.  For 56 kg and 160 cm the exact formula gives
    21.875, which rounds to 21.88, and calculate_bmi returns 21.87; and the
    height 1e200 is positive, and the call raises OverflowError. *)
Lemma calculate_bmi_differs_from_exact_formula :
  calculate_bmi rounded_pow2 (literal 56) (literal 160) = Ok (literal 21.87)
  /\ (bmi_exact 56 160 == 21.88)%Q
  /\ literal 21.87 <> literal 21.88
  /\ fle (literal (10 ^ 200)) (Finite 0) = false
  /\ calculate_bmi rounded_pow2 (literal 70) (literal (10 ^ 200)) = Raise OverflowError.
Proof.
  split; [vm_compute; reflexivity|].
  split; [vm_compute; reflexivity|].
  split; [vm_compute; discriminate|].
  split; vm_compute; reflexivity.
Qed.

(** ** Binary64: order, products and decimal rounding *)

Lemma Qle_bool_false (a b : Q) : Qle_bool a b = false -> (b < a)%Q.
Proof.
  intro H. apply Qnot_le_lt. intro L. apply Qle_bool_iff in L. congruence.
Qed.

Lemma Qle_bool_false' (a b : Q) : (b < a)%Q <-> Qle_bool a b = false.
Proof.
  split.
  - intro H. destruct (Qle_bool a b) eqn:E; [|reflexivity]. apply Qle_bool_iff in E. lra.
  - apply Qle_bool_false.
Qed.

Lemma fle_trans (x y z : float) : fle x y = true -> fle y z = true -> fle x z = true.
Proof.
  destruct x as [a | | [|] |], y as [b | | [|] |], z as [c | | [|] |]; cbn [fle value];
    intros H1 H2; try discriminate; try reflexivity;
    apply Qle_bool_true; apply Qle_bool_iff in H1; apply Qle_bool_iff in H2; lra.
Qed.

Lemma fle_infinity (x : float) : fle (Finite 0) x = true -> fle x (Infinity false) = true.
Proof. destruct x as [a | | [|] |]; cbn [fle value]; try discriminate; reflexivity. Qed.

Lemma nonneg_cases (x : float) :
  fle (Finite 0) x = true ->
  x = Infinity false \/ x = NegZero \/ exists q, x = Finite q /\ (0 <= q)%Q.
Proof.
  destruct x as [a | | [|] |]; cbn [fle value]; try discriminate; intro H.
  - right. right. exists a. split; [reflexivity | apply Qle_bool_iff; exact H].
  - right. left. reflexivity.
  - left. reflexivity.
Qed.

Lemma round64_nonneg_fle (t : Q) : (0 <= t)%Q -> fle (Finite 0) (round64 t) = true.
Proof.
  intro H. rewrite <- (round64_zero 0) at 1 by reflexivity. apply round64_mono. exact H.
Qed.

(** Rounding a binary64 number again changes nothing. *)
Lemma round_magnitude_idempotent (a : Q) :
  (0 < a)%Q -> (round_magnitude (round_magnitude a) == round_magnitude a)%Q.
Proof.
  intro Ha.
  destruct (Qlt_le_dec 0 (round_magnitude a)) as [Hpos | Hz].
  2:{ pose proof (round_magnitude_nonneg a Ha).
      assert (E : (round_magnitude a == 0)%Q) by lra.
      unfold round_magnitude at 1. cbv zeta.
      set (e := ulp_exponent (round_magnitude a)).
      assert (E' : (round_magnitude a / 2 ^ e == inject_Z 0)%Q).
      { rewrite E. unfold Qdiv. change (inject_Z 0) with 0%Q. ring. }
      rewrite (round_half_even_comp _ _ E'), round_half_even_Z, E.
      change (inject_Z 0) with 0%Q. ring. }
  pose proof (scaled_lt a Ha) as Hlt.
  set (e := ulp_exponent a) in *.
  set (m := round_half_even (a / 2 ^ e)).
  assert (Ev : (round_magnitude a == inject_Z m * 2 ^ e)%Q) by reflexivity.
  pose proof (pow2_pos e) as Hp.
  assert (Hm1 : m <= 2 ^ 53).
  { apply round_half_even_le. rewrite (pow2_inject 53) by lia. lra. }
  assert (Hm0 : 0 < m).
  { rewrite Ev in Hpos. rewrite Zlt_Qlt. change (inject_Z 0) with 0%Q.
    destruct (Qlt_le_dec 0 (inject_Z m)) as [H | H]; [exact H|]. exfalso. nra. }
  assert (Hfix : ulp_exponent (inject_Z m * 2 ^ e) = e ->
                 (round_magnitude (inject_Z m * 2 ^ e) == inject_Z m * 2 ^ e)%Q).
  { intros He. unfold round_magnitude. cbv zeta. rewrite He.
    assert (E' : (inject_Z m * 2 ^ e / 2 ^ e == inject_Z m)%Q) by (field; lra).
    rewrite (round_half_even_comp _ _ E'), round_half_even_Z. reflexivity. }
  assert (Hvpos : (0 < inject_Z m * 2 ^ e)%Q) by (rewrite <- Ev; exact Hpos).
  rewrite (round_magnitude_comp _ _ Hpos Ev), Ev.
  destruct (Z.eq_dec m (2 ^ 53)) as [Emax | Hne].
  - (* rounded up to the next power of two *)
    assert (Epow : (inject_Z m * 2 ^ e == 2 ^ (53 + e))%Q).
    { rewrite Emax, (pow2_inject 53), <- pow2_add by lia. reflexivity. }
    rewrite (round_magnitude_comp _ _ Hvpos Epow), Epow.
    apply round_magnitude_pow2. unfold e, ulp_exponent. lia.
  - assert (Hm2 : m < 2 ^ 53) by lia.
    assert (Hub : (inject_Z m * 2 ^ e < 2 ^ (e + 53))%Q).
    { rewrite (Z.add_comm e 53), pow2_add, <- (pow2_inject 53) by lia.
      apply Qmult_lt_compat_r; [exact Hp|]. rewrite <- Zlt_Qlt. exact Hm2. }
    destruct (Z_le_gt_dec (-1022) (Qlog2 a)) as [Hn | Hs].
    + (* normal *)
      pose proof (scaled_ge a Ha Hn) as Hge. fold e in Hge.
      assert (Hm3 : 2 ^ 52 <= m).
      { apply round_half_even_ge. rewrite (pow2_inject 52) by lia. exact Hge. }
      assert (Hlb : (2 ^ (e + 52) <= inject_Z m * 2 ^ e)%Q).
      { rewrite (Z.add_comm e 52), pow2_add, <- (pow2_inject 52) by lia.
        apply Qmult_le_compat_r; [|lra]. rewrite <- Zle_Qle. exact Hm3. }
      apply Hfix. unfold ulp_exponent at 1.
      rewrite (Qlog2_unique _ (e + 52)).
      * unfold e, ulp_exponent. lia.
      * exact Hlb.
      * replace (e + 52 + 1) with (e + 53) by lia. exact Hub.
    + (* subnormal *)
      assert (He : e = -1074) by (unfold e, ulp_exponent; lia).
      destruct (Qlog2_spec a Ha) as [_ S2].
      assert (Ha' : (a < 2 ^ (-1022))%Q).
      { eapply Qlt_le_trans; [exact S2|]. apply pow2_le. lia. }
      assert (Hsc : (a / 2 ^ e <= inject_Z (2 ^ 52))%Q).
      { rewrite (pow2_inject 52) by lia. apply Qle_shift_div_r; [exact Hp|].
        rewrite <- pow2_add, He. change (52 + -1074) with (-1022). lra. }
      assert (Hm3 : m <= 2 ^ 52) by (apply round_half_even_le; exact Hsc).
      destruct (Z.eq_dec m (2 ^ 52)) as [E52 | N52].
      * assert (Epow : (inject_Z m * 2 ^ e == 2 ^ (52 + e))%Q).
        { rewrite E52, (pow2_inject 52), <- pow2_add by lia. reflexivity. }
        rewrite (round_magnitude_comp _ _ Hvpos Epow), Epow.
        apply round_magnitude_pow2. lia.
      * apply Hfix.
        assert (Hsub : (inject_Z m * 2 ^ e < 2 ^ (-1022))%Q).
        { rewrite He. change (-1022) with (52 + -1074).
          rewrite pow2_add, <- (pow2_inject 52) by lia.
          apply Qmult_lt_compat_r; [apply pow2_pos|]. rewrite <- Zlt_Qlt. lia. }
        rewrite (ulp_subnormal _ Hvpos Hsub). symmetry. exact He.
Qed.

Lemma round64_fixed (w r : Q) :
  (0 < r)%Q -> (r < 2 ^ 1024)%Q -> (round_magnitude r == r)%Q ->
  (w == r)%Q \/ (w == - r)%Q ->
  round64 (Qred w) = Finite (Qred w).
Proof.
  intros Hpos Hlt Hi Hw.
  pose proof (Qred_correct w) as Ew.
  assert (Eabs : (Qabs (Qred w) == r)%Q).
  { rewrite Ew. destruct Hw as [-> | ->].
    - apply Qabs_pos. lra.
    - rewrite Qabs_opp. apply Qabs_pos. lra. }
  assert (Em : (round_magnitude (Qabs (Qred w)) == r)%Q).
  { assert (Hapos : (0 < Qabs (Qred w))%Q) by lra.
    eapply Qeq_trans; [apply (round_magnitude_comp _ _ Hapos Eabs) | exact Hi]. }
  unfold round64.
  rewrite (Qeq_bool_false (Qred w) 0) by (destruct Hw; lra).
  cbv zeta.
  rewrite (proj1 (Qle_bool_false' _ _)) by lra.
  rewrite (Qeq_bool_false _ 0) by lra.
  f_equal. apply Qred_complete.
  destruct Hw as [Hw | Hw].
  - rewrite (proj2 (Qltb_false (Qred w) 0)) by lra. rewrite Em, Hw. reflexivity.
  - rewrite (proj2 (Qltb_true (Qred w) 0)) by lra. rewrite Em, Hw. reflexivity.
Qed.

Lemma round64_idempotent (t v : Q) : round64 t = Finite v -> round64 v = Finite v.
Proof.
  unfold round64 at 1.
  destruct (Qeq_bool t 0) eqn:Et; [intro H; injection H as <-; reflexivity|].
  apply Qeq_bool_neq in Et. cbv zeta.
  assert (Ha : (0 < Qabs t)%Q).
  { abs_cases t; rewrite Eabs; [lra|].
    destruct (Qlt_le_dec 0 t); [assumption|]. exfalso. apply Et. lra. }
  pose proof (round_magnitude_nonneg _ Ha) as Hr.
  pose proof (round_magnitude_idempotent _ Ha) as Hi.
  set (r := round_magnitude (Qabs t)) in *.
  destruct (Qle_bool (2 ^ 1024) r) eqn:E1; [discriminate|].
  apply Qle_bool_false in E1.
  destruct (Qeq_bool r 0) eqn:E2.
  { destruct (Qltb t 0); cbn; [discriminate|]. intro H. injection H as <-. reflexivity. }
  apply Qeq_bool_neq in E2.
  assert (Hpos : (0 < r)%Q).
  { destruct (Qlt_le_dec 0 r); [assumption|]. exfalso. apply E2. lra. }
  intro H. injection H as <-.
  apply (round64_fixed _ r Hpos E1 Hi).
  destruct (Qltb t 0); [right | left]; reflexivity.
Qed.

Lemma py_round_nonneg (q : Q) (n : nat) : (0 <= q)%Q -> (0 <= py_round q n)%Q.
Proof.
  intro H. unfold py_round. set (p := Z.to_pos (10 ^ Z.of_nat n)).
  assert (Hm : 0 <= round_half_even (q * inject_Z (Z.pos p))).
  { apply round_half_even_ge. change (inject_Z 0) with 0%Q.
    assert (0 < inject_Z (Z.pos p))%Q by (rewrite <- (Zlt_Qlt 0); lia). nra. }
  unfold Qle. cbn. lia.
Qed.

Lemma py_round_float_nonneg_fle (x : float) (n : nat) :
  fle (Finite 0) x = true -> fle (Finite 0) (py_round_float x n) = true.
Proof.
  intro H. destruct (nonneg_cases x H) as [-> | [-> | (q & -> & Hq)]]; try reflexivity.
  destruct (py_round_float_nonneg q n Hq) as [-> | [_ ->]]; [|exact H].
  apply round64_nonneg_fle. apply py_round_nonneg. exact Hq.
Qed.

(** [round(x, n)] keeps the order of non-negative numbers. *)
Lemma py_round_float_mono (x y : float) (n : nat) :
  fle (Finite 0) x = true -> fle x y = true ->
  fle (py_round_float x n) (py_round_float y n) = true.
Proof.
  intros Hx Hxy.
  pose proof (fle_trans _ _ _ Hx Hxy) as Hy.
  pose proof (py_round_float_nonneg_fle y n Hy) as Hry.
  pose proof (py_round_float_nonneg_fle x n Hx) as Hrx.
  destruct (nonneg_cases y Hy) as [-> | Cy].
  { apply fle_infinity. exact Hrx. }
  destruct (nonneg_cases x Hx) as [-> | [-> | (q & -> & Hq)]].
  - destruct Cy as [-> | (q' & -> & _)]; discriminate Hxy.
  - apply (fle_trans _ (Finite 0)); [reflexivity | exact Hry].
  - destruct (py_round_float_nonneg q n Hq) as [Ex | [Hz Ex]].
    2:{ rewrite Ex. apply (fle_trans _ (Finite 0)); [|exact Hry].
        cbn [fle value]. apply Qle_bool_true. lra. }
    destruct Cy as [-> | (q' & -> & Hq')].
    + cbn [fle value] in Hxy. apply Qle_bool_iff in Hxy.
      assert (Hz : (q == 0)%Q) by lra.
      cbn [py_round_float]. rewrite (Qeq_bool_true q 0 Hz).
      cbn [fle value]. apply Qle_bool_true. lra.
    + cbn [fle value] in Hxy. apply Qle_bool_iff in Hxy.
      destruct (py_round_float_nonneg q' n Hq') as [Ey | [Hz Ey]].
      * rewrite Ex, Ey. apply round64_mono. apply py_round_mono. exact Hxy.
      * assert (Hz' : (q == 0)%Q) by lra.
        cbn [py_round_float]. rewrite (Qeq_bool_true q 0 Hz'), (Qeq_bool_true q' 0 Hz).
        cbn [fle value]. apply Qle_bool_true. lra.
Qed.

Lemma fmul_finite (a v : Q) :
  (0 <= a)%Q -> (0 <= v)%Q -> fmul (Finite a) (Finite v) = round64 (a * v).
Proof.
  intros Ha Hv. cbn [fmul is_zero sign_bit value].
  rewrite (proj2 (Qltb_false a 0)), (proj2 (Qltb_false v 0)) by lra.
  destruct (Qeq_bool a 0) eqn:Ea.
  - apply Qeq_bool_iff in Ea. cbn. symmetry. apply round64_zero. rewrite Ea. ring.
  - destruct (Qeq_bool v 0) eqn:Ev; [|reflexivity].
    apply Qeq_bool_iff in Ev. cbn. symmetry. apply round64_zero. rewrite Ev. ring.
Qed.

(** A product with a positive factor keeps the sign and the order. *)
Lemma fmul_left_mono (a b : Q) (s : float) :
  (0 < a)%Q -> (a <= b)%Q -> fle (Finite 0) s = true ->
  fle (Finite 0) (fmul (Finite a) s) = true
  /\ fle (fmul (Finite a) s) (fmul (Finite b) s) = true.
Proof.
  intros Ha Hab Hs.
  destruct (nonneg_cases s Hs) as [-> | [-> | (v & -> & Hv)]].
  - cbn [fmul is_zero sign_bit].
    rewrite (Qeq_bool_false a 0), (Qeq_bool_false b 0) by lra.
    rewrite (proj2 (Qltb_false a 0)), (proj2 (Qltb_false b 0)) by lra.
    split; reflexivity.
  - cbn [fmul is_zero sign_bit].
    rewrite (Qeq_bool_false a 0), (Qeq_bool_false b 0) by lra.
    rewrite (proj2 (Qltb_false a 0)), (proj2 (Qltb_false b 0)) by lra.
    split; reflexivity.
  - rewrite !fmul_finite by lra. split.
    + apply round64_nonneg_fle. nra.
    + apply round64_mono. nra.
Qed.

Lemma fmul_right_mono (c c' : Q) (x : float) :
  (0 < c)%Q -> (c <= c')%Q -> fle (Finite 0) x = true ->
  fle (Finite 0) (fmul x (Finite c)) = true
  /\ fle (fmul x (Finite c)) (fmul x (Finite c')) = true.
Proof.
  intros Hc Hcc Hx.
  destruct (nonneg_cases x Hx) as [-> | [-> | (v & -> & Hv)]].
  - cbn [fmul is_zero sign_bit].
    rewrite (Qeq_bool_false c 0), (Qeq_bool_false c' 0) by lra.
    rewrite (proj2 (Qltb_false c 0)), (proj2 (Qltb_false c' 0)) by lra.
    split; reflexivity.
  - cbn [fmul is_zero sign_bit].
    rewrite (proj2 (Qltb_false c 0)), (proj2 (Qltb_false c' 0)) by lra.
    split; reflexivity.
  - rewrite !fmul_finite by lra. split.
    + apply round64_nonneg_fle. nra.
    + apply round64_mono. nra.
Qed.

(** A binary64 number is not above its product with a factor of at least
    one. *)
Lemma fmul_grows (c : Q) (x : float) :
  (1 <= c)%Q -> fle (Finite 0) x = true ->
  (forall q, x = Finite q -> ~ (q == 0)%Q -> round64 q = Finite q) ->
  fle x (fmul x (Finite c)) = true.
Proof.
  intros Hc Hx Hb.
  destruct (nonneg_cases x Hx) as [-> | [-> | (v & -> & Hv)]].
  - cbn [fmul is_zero sign_bit].
    rewrite (Qeq_bool_false c 0) by lra.
    rewrite (proj2 (Qltb_false c 0)) by lra. reflexivity.
  - cbn [fmul is_zero sign_bit].
    rewrite (proj2 (Qltb_false c 0)) by lra. reflexivity.
  - rewrite fmul_finite by lra.
    destruct (Qeq_bool v 0) eqn:Ev.
    + apply Qeq_bool_iff in Ev.
      rewrite (round64_zero (v * c)) by (rewrite Ev; ring).
      cbn [fle value]. apply Qle_bool_true. lra.
    + apply Qeq_bool_neq in Ev.
      rewrite <- (Hb v eq_refl Ev) at 1. apply round64_mono. nra.
Qed.

(** ** calculate_ideal_weight_range and calculate_tdee in binary64 *)

Lemma bmi_bounds_literals :
  exists a b, literal 18.5 = Finite a /\ literal 24.9 = Finite b /\ (0 < a)%Q /\ (a <= b)%Q.
Proof.
  eexists. eexists. split; [vm_compute; reflexivity|]. split; [vm_compute; reflexivity|].
  split; [Qcompute_lt | Qcompute].
Qed.

(** The two ends of the range, from the square of the height in metres. *)
Lemma calculate_ideal_weight_range_steps (libm_pow2 : Q -> float) (height_cm : float)
    (gender : string) :
  calculate_ideal_weight_range libm_pow2 height_cm gender
  = match py_square libm_pow2 (fdiv height_cm (Finite 100)) with
    | Raise e => Raise e
    | Ok squared =>
        Ok (py_round_float (fmul (literal 18.5) squared) 1,
            py_round_float (fmul (literal 24.9) squared) 1)
    end.
Proof.
  unfold calculate_ideal_weight_range. rewrite py_truediv_100. cbn [bind].
  destruct (py_square _ _) as [s | e]; reflexivity.
Qed.

Lemma fdiv_100_cases (x : float) :
  x <> NaN ->
  is_zero (fdiv x (Finite 100)) = true
  \/ (exists s, fdiv x (Finite 100) = Infinity s)
  \/ (exists v, fdiv x (Finite 100) = Finite v /\ ~ (v == 0)%Q).
Proof.
  intro Hx. destruct x as [q | | s |]; [| left; reflexivity | right; left; eexists; reflexivity
                                        | contradiction].
  destruct (Qeq_bool q 0) eqn:E.
  - left. apply fdiv_100_zero. exact E.
  - apply Qeq_bool_neq in E. rewrite (fdiv_100_finite q E).
    destruct (round64 (q / 100)) as [v | | s |] eqn:Er.
    + destruct (Qeq_bool v 0) eqn:Ev.
      * left. exact Ev.
      * right. right. exists v. split; [reflexivity | apply Qeq_bool_neq; exact Ev].
    + left. reflexivity.
    + right. left. eexists. reflexivity.
    + exfalso. destruct (Q_dec (q / 100) 0) as [[H | H] | H].
      * destruct (round64_neg _ H) as (r & _ & _ & [[_ C] | [[_ C] | (_ & _ & v & _ & C)]]);
          congruence.
      * destruct (round64_pos _ H) as (r & _ & _ & [[_ C] | [[_ C] | (_ & _ & v & _ & C)]]);
          congruence.
      * rewrite (round64_zero _ H) in Er. discriminate Er.
Qed.

Section WeightRange.

Variable libm_pow2 : Q -> float.
Hypothesis libm_accurate : accurate_pow2 libm_pow2.

(** The library's square of a number whose square is within the binary64
    range is finite. *)
Lemma libm_pow2_below (v : Q) :
  ~ (v == 0)%Q -> (Qabs v <= 2 ^ 511)%Q ->
  exists s, libm_pow2 v = Finite s /\ (0 <= s)%Q.
Proof.
  intros Hv U.
  destruct (libm_accurate v Hv) as (y & Hy & Herr & Ey).
  assert (Ha : (0 <= Qabs v)%Q) by apply Qabs_nonneg.
  destruct (square_bounds (Qabs v) 0 (2 ^ 511)) as [_ B2]; try lra.
  rewrite <- square_abs in B2. rewrite pow2_double in B2. change (2 * 511) with 1022 in B2.
  assert (Ht : (0 <= v * v)%Q) by (rewrite square_abs; nra).
  apply Qabs_Qle_condition in Herr. destruct Herr as [_ E2].
  assert (Hy2 : (y <= 2 ^ 1023)%Q).
  { pose proof (pow2_succ 1022) as S2. change (1022 + 1) with 1023 in S2.
    pose proof (pow2_pos 1022) as P2.
    destruct (Qlt_le_dec (v * v) (2 ^ (-1022))) as [Hsub | Hn].
    - assert (Hpos : (0 < v * v)%Q).
      { destruct (Qlt_le_dec 0 (v * v)) as [H | H]; [exact H|]. exfalso. apply Hv. nra. }
      rewrite (ulp_subnormal _ Hpos Hsub) in E2.
      assert (C : (2 ^ (-1022) + (1 # 16) * 2 ^ (-1074) <= 1)%Q) by Qcompute.
      assert (C' : (1 <= 2 ^ 1022)%Q) by (change 1%Q with (2 ^ 0)%Q; apply pow2_le; lia).
      lra.
    - pose proof (ulp_normal _ Hn) as Hulp.
      pose proof (pow2_pos (-53)) as Hu.
      assert (Hu' : (2 ^ (-53) <= 1)%Q) by (change 1%Q with (2 ^ 0)%Q; apply pow2_le; lia).
      remember (2 ^ ulp_exponent (v * v))%Q as p. remember (2 ^ (-53))%Q as u.
      remember (v * v)%Q as t. remember (2 ^ 1023)%Q as a. remember (2 ^ 1022)%Q as b.
      clear - B2 Hulp E2 Hu Hu' S2 P2 Ht.
      assert (0 <= 1 - u)%Q by lra. assert (u * t <= t)%Q by nra. lra. }
  assert (Eabs : (Qabs y == y)%Q) by (apply Qabs_pos; exact Hy).
  destruct (round64_nonneg y Hy) as [C | (s & Es & Hs)].
  - destruct (round64_below y 1023) as [C' | (s & C' & _)]; try lia; try lra; congruence.
  - exists s. split; [congruence | exact Hs].
Qed.

Lemma py_square_nonneg (v : Q) :
  ~ (v == 0)%Q ->
  py_square libm_pow2 (Finite v) = Raise OverflowError
  \/ exists s, py_square libm_pow2 (Finite v) = Ok (Finite s) /\ (0 <= s)%Q.
Proof.
  intro Hv. cbn [py_square]. rewrite (Qeq_bool_false v 0 Hv).
  destruct (libm_pow2_nonneg libm_pow2 libm_accurate v Hv) as [-> | (s & -> & Hs)].
  - left. reflexivity.
  - right. exists s. split; [reflexivity | exact Hs].
Qed.

(** X4. calculate_ideal_weight_range in binary64: for every height that is
    not NaN it either raises OverflowError, at the square of the height in
    metres, or returns a well-formed range, whose lower end is not negative
    and not above the upper end.  It returns for every finite height of
    magnitude at most 1e155 and raises for every finite height of magnitude
    at least 1e157; the gender is not looked at. *)
Theorem calculate_ideal_weight_range_ordered (height_cm : float) (gender : string) :
  (height_cm <> NaN ->
   calculate_ideal_weight_range libm_pow2 height_cm gender = Raise OverflowError
   \/ exists lo hi,
        calculate_ideal_weight_range libm_pow2 height_cm gender = Ok (lo, hi)
        /\ fle (Finite 0) lo = true /\ fle lo hi = true)
  /\ (forall h, height_cm = Finite h -> (Qabs h <= 10 ^ 155)%Q ->
      exists range, calculate_ideal_weight_range libm_pow2 height_cm gender = Ok range)
  /\ (forall h, height_cm = Finite h -> (10 ^ 157 <= Qabs h)%Q -> (Qabs h < 2 ^ 1024)%Q ->
      calculate_ideal_weight_range libm_pow2 height_cm gender = Raise OverflowError)
  /\ (forall gender',
      calculate_ideal_weight_range libm_pow2 height_cm gender'
      = calculate_ideal_weight_range libm_pow2 height_cm gender).
Proof.
  destruct bmi_bounds_literals as (a & b & Ea & Eb & Ha & Hab).
  assert (Hrange : forall s, fle (Finite 0) s = true ->
            fle (Finite 0) (py_round_float (fmul (literal 18.5) s) 1) = true
            /\ fle (py_round_float (fmul (literal 18.5) s) 1)
                   (py_round_float (fmul (literal 24.9) s) 1) = true).
  { intros s Hs. rewrite Ea, Eb.
    destruct (fmul_left_mono a b s Ha Hab Hs) as [F1 F2].
    split; [apply py_round_float_nonneg_fle | apply py_round_float_mono]; assumption. }
  split; [|split; [|split]].
  - intro Hn. rewrite calculate_ideal_weight_range_steps.
    destruct (fdiv_100_cases height_cm Hn) as [Hz | [(s & ->) | (v & -> & Hv)]].
    + rewrite (py_square_zero _ _ Hz). right. eexists. eexists.
      split; [reflexivity|]. apply Hrange. reflexivity.
    + cbn [py_square]. right. eexists. eexists.
      split; [reflexivity|]. apply Hrange. reflexivity.
    + destruct (py_square_nonneg v Hv) as [-> | (s & -> & Hs)]; [left; reflexivity|].
      right. eexists. eexists. split; [reflexivity|]. apply Hrange.
      cbn [fle value]. apply Qle_bool_true. exact Hs.
  - intros h -> U. rewrite calculate_ideal_weight_range_steps.
    destruct (Qeq_bool h 0) eqn:Eh.
    { rewrite py_square_zero by (apply fdiv_100_zero; exact Eh). eexists. reflexivity. }
    apply Qeq_bool_neq in Eh. rewrite (fdiv_100_finite h Eh).
    assert (C : (10 ^ 155 / 100 <= 2 ^ 511)%Q) by Qcompute.
    assert (U' : (Qabs (h / 100) <= 2 ^ 511)%Q).
    { rewrite Qabs_div_100. eapply Qle_trans; [|exact C].
      apply Qmult_le_compat_r; [exact U | Qcompute]. }
    destruct (round64_below (h / 100) 511) as [-> | (v & -> & V)]; try lia; try assumption.
    { eexists. reflexivity. }
    destruct (Qeq_bool v 0) eqn:Ev.
    { rewrite py_square_zero by exact Ev. eexists. reflexivity. }
    apply Qeq_bool_neq in Ev.
    destruct (libm_pow2_below v Ev V) as (s & Es & _).
    rewrite (py_square_finite libm_pow2 v s Ev Es). eexists. reflexivity.
  - intros h -> L U. rewrite calculate_ideal_weight_range_steps.
    pose proof (calculate_bmi_overflows libm_pow2 libm_accurate (Finite 1) h L U) as Hb.
    rewrite calculate_bmi_steps in Hb.
    destruct (py_square _ _) as [s | e]; [|congruence].
    destruct (is_zero s); discriminate Hb.
  - intro gender'. reflexivity.
Qed.

End WeightRange.

Lemma calculate_ideal_weight_range_ordered_witness :
  exists lo hi,
    calculate_ideal_weight_range rounded_pow2 (literal 175) "male" = Ok (lo, hi)
    /\ fle (Finite 0) lo = true /\ fle lo hi = true.
Proof.
  destruct (calculate_ideal_weight_range_ordered rounded_pow2 rounded_pow2_accurate
              (literal 175) "male") as (H & _).
  destruct H as [H | H]; [vm_compute; discriminate | | exact H].
  vm_compute in H. discriminate H.
Defined.

(** ** calculate_tdee *)

Lemma activity_multiplier_range (activity_level : string) :
  exists c cmax,
    dict_get activity_multipliers (py_lower activity_level) (literal 1.2) = Finite c
    /\ dict_get activity_multipliers (py_lower "extra_active") (literal 1.2) = Finite cmax
    /\ (1 <= c)%Q /\ (c <= cmax)%Q.
Proof.
  unfold activity_multipliers. cbn [dict_get].
  repeat match goal with
         | |- context [String.eqb ?a (py_lower activity_level)] =>
             destruct (String.eqb a (py_lower activity_level))
         end;
    (eexists; eexists; split; [vm_compute; reflexivity|];
     split; [vm_compute; reflexivity|]; split; Qcompute).
Qed.

(** X2. calculate_tdee in binary64: for a BMR that is not negative and has
    at most two decimals (round(bmr, 2) gives it back), the result is never
    below the BMR and never above the result for 'extra_active',
    round(bmr * 1.9, 2), whatever the activity level string is (an unknown
    level falls back to 1.2). *)
Theorem calculate_tdee_between (bmr : float) (activity_level : string) :
  fle (Finite 0) bmr = true ->
  py_round_float bmr 2 = bmr ->
  fle bmr (calculate_tdee bmr activity_level) = true
  /\ fle (calculate_tdee bmr activity_level) (calculate_tdee bmr "extra_active") = true.
Proof.
  intros Hb Hr. unfold calculate_tdee. cbv zeta.
  destruct (activity_multiplier_range activity_level) as (c & cmax & -> & -> & Hc & Hcm).
  destruct (fmul_right_mono c cmax bmr ltac:(lra) Hcm Hb) as [F1 F2].
  split.
  - rewrite <- Hr at 1. apply py_round_float_mono; [exact Hb|].
    apply fmul_grows; [exact Hc | exact Hb|].
    intros q -> Hq.
    assert (Hq' : (0 <= q)%Q) by (cbn [fle value] in Hb; apply Qle_bool_iff in Hb; exact Hb).
    destruct (py_round_float_nonneg q 2 Hq') as [E | [Hz _]]; [|contradiction].
    rewrite E in Hr. apply (round64_idempotent _ _ Hr).
  - apply py_round_float_mono; assumption.
Qed.

Lemma calculate_tdee_between_witness :
  fle (literal 1650.25) (calculate_tdee (literal 1650.25) "Very_Active") = true
  /\ fle (calculate_tdee (literal 1650.25) "Very_Active")
         (calculate_tdee (literal 1650.25) "extra_active") = true.
Proof.
  apply (calculate_tdee_between (literal 1650.25) "Very_Active"); vm_compute; reflexivity.
Defined.

(** ** HealthCalculator: sleep efficiency and nutrition score *)

Lemma clamp_0_100 (x : Q) : (0 <= py_min 100 (py_max 0 x) <= 100)%Q.
Proof.
  destruct (py_max_cases 0 x) as [[-> H] | [-> H]];
    match goal with |- context [py_min 100 ?y] =>
      destruct (py_min_cases 100 y) as [[-> H'] | [-> H']] end; lra.
Qed.

(** X5. Sleep efficiency is 85 when no (or a zero) awake time is given;
    with an awake time it raises ZeroDivisionError exactly when the total
    time in bed is zero; and every value it returns is within 0..100. *)
Theorem calculate_sleep_efficiency_behaviour
    (total_hours : Q) (deep_sleep_hours rem_sleep_hours awake_time_hours : option Q) :
  (truthy_float awake_time_hours = false ->
     calculate_sleep_efficiency total_hours deep_sleep_hours rem_sleep_hours
       awake_time_hours = Ok (8500 # 100))
  /\ (truthy_float awake_time_hours = true ->
        (calculate_sleep_efficiency total_hours deep_sleep_hours rem_sleep_hours
           awake_time_hours = Raise ZeroDivisionError
         <-> (total_hours == 0)%Q))
  /\ (forall e,
        calculate_sleep_efficiency total_hours deep_sleep_hours rem_sleep_hours
          awake_time_hours = Ok e ->
        (0 <= e <= 100)%Q).
Proof.
  unfold calculate_sleep_efficiency, py_div.
  destruct awake_time_hours as [awake|]; cbn [truthy_float].
  - destruct (negb (Qeq_bool awake 0)) eqn:T.
    + destruct (Qeq_bool total_hours 0) eqn:Z0; cbn [bind].
      * split; [discriminate|]. split.
        -- intros _. split; [intros _; now apply Qeq_bool_iff | reflexivity].
        -- discriminate.
      * split; [discriminate|]. split.
        -- intros _. split; [discriminate|].
           intro H. apply Qeq_bool_iff in H. congruence.
        -- intros e He. inversion He; subst e.
           match goal with |- context [py_min 100 (py_max 0 ?x)] =>
             pose proof (clamp_0_100 x) as [Hlo Hhi];
             destruct (py_round_2_bounds 0 10000 (py_min 100 (py_max 0 x)))
               as [R1 R2]; [lra | lra |]
           end.
           split; lra.
    + cbn [bind]. split; [reflexivity|]. split; [discriminate|].
      intros e He. inversion He. split; discriminate.
  - cbn [bind]. split; [reflexivity|]. split; [discriminate|].
    intros e He. inversion He. split; discriminate.
Qed.

Lemma calculate_sleep_efficiency_behaviour_witness :
  calculate_sleep_efficiency 8 None None None = Ok (8500 # 100)
  /\ calculate_sleep_efficiency 0 None None (Some 1%Q) = Raise ZeroDivisionError
  /\ calculate_sleep_efficiency 8 None None (Some 1%Q) = Ok (8750 # 100).
Proof.
  split.
  - apply (proj1 (calculate_sleep_efficiency_behaviour 8 None None None)). reflexivity.
  - split.
    + apply (proj1 (proj2 (calculate_sleep_efficiency_behaviour 0 None None (Some 1%Q)))
               eq_refl). reflexivity.
    + reflexivity.
Defined.

Lemma py_div_nonzero (a b : Q) : ~ (b == 0)%Q -> py_div a b = Ok (a / b)%Q.
Proof. intro H. unfold py_div. rewrite (Qeq_bool_false _ _ H). reflexivity. Qed.

Lemma py_div_zero (a b : Q) : (b == 0)%Q -> py_div a b = Raise ZeroDivisionError.
Proof. intro H. unfold py_div. rewrite (Qeq_bool_true _ _ H). reflexivity. Qed.

Lemma inject_Z_nonzero (z : Z) : z <> 0 -> ~ (inject_Z z == 0)%Q.
Proof. intros H E. apply H. unfold Qeq in E. cbn in E. lia. Qed.

Lemma nutrition_score_cases
    (calories : Z) (protein carbs fat : Q) (fiber : option Q)
    (target_calories : Z) (target_protein target_carbs target_fat : Q) :
  (calculate_nutrition_score calories protein carbs fat fiber
     target_calories target_protein target_carbs target_fat = Raise ZeroDivisionError
   /\ (target_calories = 0 \/ (target_protein == 0)%Q \/ (target_carbs == 0)%Q
       \/ (target_fat == 0)%Q))
  \/ (exists s,
        calculate_nutrition_score calories protein carbs fat fiber
          target_calories target_protein target_carbs target_fat = Ok s
        /\ (47.5 <= s <= 100)%Q
        /\ target_calories <> 0 /\ ~ (target_protein == 0)%Q
        /\ ~ (target_carbs == 0)%Q /\ ~ (target_fat == 0)%Q).
Proof.
  unfold calculate_nutrition_score.
  destruct (Z.eq_dec target_calories 0) as [Ec | Hc].
  { left. subst. rewrite py_div_zero by reflexivity. split; [reflexivity | tauto]. }
  rewrite (py_div_nonzero _ _ (inject_Z_nonzero _ Hc)). cbn [bind].
  destruct (Qeq_dec target_protein 0) as [Ep | Hp].
  { left. rewrite (py_div_zero _ _ Ep). split; [reflexivity | tauto]. }
  rewrite (py_div_nonzero _ _ Hp). cbn [bind].
  destruct (Qeq_dec target_carbs 0) as [Ek | Hk].
  { left. rewrite (py_div_zero _ _ Ek). split; [reflexivity | tauto]. }
  rewrite (py_div_nonzero _ _ Hk). cbn [bind].
  destruct (Qeq_dec target_fat 0) as [Ef | Hf].
  { left. rewrite (py_div_zero _ _ Ef). split; [reflexivity | tauto]. }
  rewrite (py_div_nonzero _ _ Hf). cbn [bind].
  right. eexists. split; [reflexivity|].
  split; [|tauto].
  destruct fiber as [f|]; cbn [truthy_float];
    repeat match goal with |- context [if ?c then _ else _] => destruct c end;
    split; apply Qle_bool_imp_le; vm_compute; reflexivity.
Qed.

(** X6. With non-zero targets the nutrition score is returned and lies
    between 47.5 and 100; if one of the four targets is zero the function
    raises ZeroDivisionError. *)
Theorem calculate_nutrition_score_range
    (calories : Z) (protein carbs fat : Q) (fiber : option Q)
    (target_calories : Z) (target_protein target_carbs target_fat : Q) :
  (target_calories <> 0 -> ~ (target_protein == 0)%Q -> ~ (target_carbs == 0)%Q ->
   ~ (target_fat == 0)%Q ->
   exists s,
     calculate_nutrition_score calories protein carbs fat fiber
       target_calories target_protein target_carbs target_fat = Ok s
     /\ (47.5 <= s <= 100)%Q)
  /\ (target_calories = 0 \/ (target_protein == 0)%Q \/ (target_carbs == 0)%Q
      \/ (target_fat == 0)%Q ->
      calculate_nutrition_score calories protein carbs fat fiber
        target_calories target_protein target_carbs target_fat
      = Raise ZeroDivisionError).
Proof.
  destruct (nutrition_score_cases calories protein carbs fat fiber
              target_calories target_protein target_carbs target_fat)
    as [[Hr Hz] | (s & Hs & Hrange & Hc & Hp & Hk & Hf)].
  - split; [intros; exfalso; tauto | intros _; exact Hr].
  - split; [intros; exists s; split; assumption | intro H; exfalso; tauto].
Qed.

Lemma calculate_nutrition_score_range_witness :
  (exists s, calculate_nutrition_score 1900 140 250 60 (Some 22%Q) 2000 150 200 65 = Ok s
             /\ (47.5 <= s <= 100)%Q)
  /\ calculate_nutrition_score 1900 140 250 60 None 0 150 200 65
     = Raise ZeroDivisionError.
Proof.
  split.
  - apply (proj1 (calculate_nutrition_score_range 1900 140 250 60 (Some 22%Q)
                    2000 150 200 65)); discriminate.
  - apply (proj2 (calculate_nutrition_score_range 1900 140 250 60 None
                    0 150 200 65)). left. reflexivity.
Defined.

Example calculate_nutrition_score_sample :
  calculate_nutrition_score 1900 140 250 60 (Some 22%Q) 2000 150 200 65 = Ok (9100 # 100).
Proof. reflexivity. Qed.

(** X7. The nutrition score needs no range assumption when it comes from
    [calculate_nutrition_score], as on the health dashboard: the overall
    health score is then always within 0..100. *)
Theorem health_score_of_nutrition_score_range
    (calories : Z) (protein carbs fat : Q) (fiber : option Q)
    (target_calories : Z) (target_protein target_carbs target_fat : Q)
    (bmi sleep_avg : option Q) (exercise_days : option Z)
    (blood_pressure_systolic heart_rate : option Z) (n : Q) :
  calculate_nutrition_score calories protein carbs fat fiber
    target_calories target_protein target_carbs target_fat = Ok n ->
  let r := calculate_health_score bmi sleep_avg exercise_days (Some n)
             blood_pressure_systolic heart_rate in
  (0 <= overall_score r <= 100)%Q.
Proof.
  intros Hn r.
  assert (Hrange : in_documented_range (Some n)).
  { destruct (nutrition_score_cases calories protein carbs fat fiber
                target_calories target_protein target_carbs target_fat)
      as [[Hr _] | (s & Hs & [Hlo Hhi] & _)].
    - rewrite Hr in Hn. discriminate.
    - rewrite Hs in Hn. inversion Hn; subst s. cbn. split; lra. }
  destruct (calculate_health_score_range bmi sleep_avg exercise_days (Some n)
              blood_pressure_systolic heart_rate Hrange) as (Hmax & Hlo & Hhi).
  fold r in Hmax, Hlo, Hhi. rewrite Hmax in Hhi.
  change (inject_Z 100) with 100%Q in Hhi. split; assumption.
Qed.

Lemma health_score_of_nutrition_score_range_witness :
  calculate_nutrition_score 1900 140 250 60 (Some 22%Q) 2000 150 200 65 = Ok (9100 # 100)
  /\ (0 <= overall_score
             (calculate_health_score (Some 22.86%Q) (Some 7.5%Q) (Some 4%Z)
                (Some (9100 # 100)) (Some 118%Z) (Some 72%Z)) <= 100)%Q.
Proof.
  split; [reflexivity|].
  apply (health_score_of_nutrition_score_range 1900 140 250 60 (Some 22%Q)
           2000 150 200 65 (Some 22.86%Q) (Some 7.5%Q) (Some 4) (Some 118) (Some 72)
           (9100 # 100)).
  reflexivity.
Defined.

(** ** HealthCalculator: categories *)

(** X8. A blood pressure reading is called "Hypertensive Crisis" exactly
    when the systolic value is at least 180 and the diastolic at least 120,
    and "Normal" exactly when they are below 120 and below 80; a very high
    systolic value with a diastolic below 90 is still "Stage 1". *)
Theorem get_blood_pressure_category_extremes (systolic diastolic : Z) :
  (get_blood_pressure_category systolic diastolic = "Hypertensive Crisis"%string
   <-> 180 <= systolic /\ 120 <= diastolic)
  /\ (get_blood_pressure_category systolic diastolic = "Normal"%string
      <-> systolic < 120 /\ diastolic < 80)
  /\ (140 <= systolic -> diastolic < 90 ->
      get_blood_pressure_category systolic diastolic
      = "High Blood Pressure (Stage 1)"%string).
Proof.
  unfold get_blood_pressure_category.
  destruct (systolic <? 120) eqn:S1; destruct (diastolic <? 80) eqn:D1;
  destruct (systolic <? 130) eqn:S2; destruct (systolic <? 140) eqn:S3;
  destruct (diastolic <? 90) eqn:D2; destruct (systolic <? 180) eqn:S4;
  destruct (diastolic <? 120) eqn:D3; cbn [andb orb];
  rewrite ?Z.ltb_lt, ?Z.ltb_ge in *;
  (split; [split; [try discriminate; intros _; lia | intro; try reflexivity; lia]|]);
  (split; [split; [try discriminate; intros _; lia | intro; try reflexivity; lia]|]);
  intros; try reflexivity; lia.
Qed.

Lemma get_blood_pressure_category_extremes_witness :
  get_blood_pressure_category 200 85 = "High Blood Pressure (Stage 1)"%string
  /\ get_blood_pressure_category 185 125 = "Hypertensive Crisis"%string.
Proof.
  split.
  - apply (proj2 (proj2 (get_blood_pressure_category_extremes 200 85))); lia.
  - apply (proj1 (get_blood_pressure_category_extremes 185 125)). lia.
Defined.

(** X9. The BMI category and the BMI points of the health score agree on
    what is healthy: a non-zero BMI earns the full 20 points exactly when
    its category is "Normal weight". *)
Theorem normal_weight_iff_full_bmi_points (bmi : Q) :
  ~ (bmi == 0)%Q ->
  (get_bmi_category bmi = "Normal weight"%string <-> bmi_points (Some bmi) = 20).
Proof.
  intro Hnz. unfold get_bmi_category, bmi_points, truthy_float.
  rewrite (Qeq_bool_false _ _ Hnz). cbn [negb].
  destruct (Qltb bmi 18.5) eqn:A; destruct (Qle_bool 18.5 bmi) eqn:B;
  destruct (Qltb bmi 25) eqn:C; cbn [andb orb].
  all: try (split; [reflexivity|reflexivity]).
  all: try (apply Qltb_true in A; apply Qle_bool_iff in B; exfalso; lra).
  all: repeat match goal with |- context [if ?c then _ else _] => destruct c end.
  all: split; intro H; solve [discriminate H | reflexivity].
Qed.

Lemma normal_weight_iff_full_bmi_points_witness :
  get_bmi_category 22.86 = "Normal weight"%string /\ bmi_points (Some 22.86%Q) = 20.
Proof.
  split; [reflexivity|].
  apply (proj1 (normal_weight_iff_full_bmi_points 22.86 ltac:(discriminate))).
  reflexivity.
Defined.

(** ** Sorting and slicing of query results *)


Lemma insert_by_perm {A : Type} (before : A -> A -> bool) (x : A) (l : list A) :
  Permutation (insert_by before x l) (x :: l).
Proof.
  induction l as [|y l IH]; cbn; [reflexivity|].
  destruct (before x y); [reflexivity|].
  rewrite IH. apply perm_swap.
Qed.

Lemma sort_by_perm {A : Type} (before : A -> A -> bool) (l : list A) :
  Permutation (sort_by before l) l.
Proof.
  induction l as [|x l IH]; cbn; [reflexivity|].
  fold (sort_by before l). rewrite insert_by_perm. now constructor.
Qed.

Lemma sort_by_In {A : Type} (before : A -> A -> bool) (l : list A) (x : A) :
  In x (sort_by before l) <-> In x l.
Proof.
  split; apply Permutation_in; [|symmetry]; apply sort_by_perm.
Qed.

Section SortedBy.

Context {A : Type} (before : A -> A -> bool).
Hypothesis before_total : forall a b, before a b = true \/ before b a = true.
Hypothesis before_trans :
  forall a b c, before a b = true -> before b c = true -> before a c = true.

Lemma insert_by_sorted (x : A) (l : list A) :
  StronglySorted (fun a b => before a b = true) l ->
  StronglySorted (fun a b => before a b = true) (insert_by before x l).
Proof.
  induction l as [|y l IH]; intro Hs; cbn.
  - constructor; constructor.
  - inversion Hs as [|y' l' Hl Hy]; subst.
    destruct (before x y) eqn:E.
    + constructor; [exact Hs|]. constructor; [exact E|].
      apply Forall_forall. intros z Hz.
      apply (before_trans x y z E). rewrite Forall_forall in Hy. exact (Hy z Hz).
    + constructor; [exact (IH Hl)|].
      apply Forall_forall. intros z Hz.
      apply (Permutation_in _ (insert_by_perm before x l)) in Hz.
      destruct Hz as [<- | Hz].
      * destruct (before_total x y) as [H | H]; [congruence | exact H].
      * rewrite Forall_forall in Hy. exact (Hy z Hz).
Qed.

Lemma sort_by_sorted (l : list A) :
  StronglySorted (fun a b => before a b = true) (sort_by before l).
Proof.
  induction l as [|x l IH]; cbn; [constructor|].
  apply insert_by_sorted. exact IH.
Qed.

End SortedBy.

Lemma StronglySorted_skipn {A : Type} (R : A -> A -> Prop) (n : nat) (l : list A) :
  StronglySorted R l -> StronglySorted R (skipn n l).
Proof.
  revert l. induction n as [|n IH]; intros l Hs; [exact Hs|].
  destruct l as [|x l]; [constructor|]. cbn. apply IH. now inversion Hs.
Qed.

Lemma In_firstn {A : Type} (n : nat) (l : list A) (x : A) : In x (firstn n l) -> In x l.
Proof.
  revert l. induction n as [|n IH]; intros l H; [contradiction|].
  destruct l as [|y l]; [exact H|]. destruct H as [-> | H]; [now left | right; auto].
Qed.

Lemma StronglySorted_firstn {A : Type} (R : A -> A -> Prop) (n : nat) (l : list A) :
  StronglySorted R l -> StronglySorted R (firstn n l).
Proof.
  revert l. induction n as [|n IH]; intros l Hs; [constructor|].
  destruct l as [|x l]; [constructor|]. cbn.
  inversion Hs as [|x' l' Hl Hx]; subst.
  constructor; [exact (IH l Hl)|].
  apply Forall_forall. intros z Hz. rewrite Forall_forall in Hx.
  apply Hx. exact (In_firstn _ _ _ Hz).
Qed.

Lemma In_skipn {A : Type} (n : nat) (l : list A) (x : A) : In x (skipn n l) -> In x l.
Proof.
  revert l. induction n as [|n IH]; intros l H; [exact H|].
  destruct l as [|y l]; [exact H|]. right. exact (IH l H).
Qed.

Lemma In_limit {A : Type} (limit : Z) (l : list A) (x : A) : In x (limit_ limit l) -> In x l.
Proof.
  unfold limit_. destruct (limit <? 0); [tauto | apply In_firstn].
Qed.

Lemma In_offset {A : Type} (skip : Z) (l : list A) (x : A) : In x (offset skip l) -> In x l.
Proof. apply In_skipn. Qed.

Lemma length_limit {A : Type} (limit : Z) (l : list A) :
  0 <= limit -> Z.of_nat (List.length (limit_ limit l)) <= limit.
Proof.
  intro H. unfold limit_. destruct (limit <? 0) eqn:E; [apply Z.ltb_lt in E; lia|].
  pose proof (firstn_le_length (Z.to_nat limit) l). lia.
Qed.

Lemma StronglySorted_limit {A : Type} (R : A -> A -> Prop) (limit : Z) (l : list A) :
  StronglySorted R l -> StronglySorted R (limit_ limit l).
Proof.
  unfold limit_. destruct (limit <? 0); [tauto | apply StronglySorted_firstn].
Qed.

Lemma In_filter_opt {A B : Type} (arg : option B) (p : B -> A -> bool) (l : list A) (x : A) :
  In x (filter_opt arg p l) ->
  In x l /\ match arg with Some v => p v x = true | None => True end.
Proof.
  unfold filter_opt. destruct arg as [v|]; [|tauto].
  intro H. apply filter_In in H. exact H.
Qed.

(** ** Transactions: round trips and listing *)

Lemma filter_none {A : Type} (p : A -> bool) (l : list A) :
  (forall x, In x l -> p x = false) -> filter p l = [].
Proof.
  induction l as [|y l IH]; intro H; cbn; [reflexivity|].
  rewrite (H y (or_introl eq_refl)). apply IH. intros x Hx. apply H. now right.
Qed.

Lemma filter_all {A : Type} (p : A -> bool) (l : list A) :
  (forall x, In x l -> p x = true) -> filter p l = l.
Proof.
  induction l as [|y l IH]; intro H; cbn; [reflexivity|].
  rewrite (H y (or_introl eq_refl)). f_equal. apply IH. intros x Hx. apply H. now right.
Qed.

Lemma set_transactions_same (d : database) : set_transactions d (transactions d) = d.
Proof. destruct d. reflexivity. Qed.

Lemma set_transactions_twice (d : database) (r1 r2 : list Transaction) :
  set_transactions (set_transactions d r1) r2 = set_transactions d r2.
Proof. reflexivity. Qed.

Lemma created_row_is_new (d : database) (t : Transaction) :
  In t (transactions d) -> (tx_id t =? fresh_id (map tx_id (transactions d))) = false.
Proof.
  intro H. apply Z.eqb_neq.
  pose proof (fresh_id_above (map tx_id (transactions d)) (tx_id t) (in_map tx_id _ _ H)).
  lia.
Qed.

(** X11. Insert then look up: the row a successful [create_transaction]
    returns is what [get_transaction] gives its owner for the new id, and
    any other user asking for that id gets 404. *)
Theorem create_then_get_transaction
    (transaction_data : TransactionCreate) (now : datetime)
    (d : database) (current_user other_user : User) (row : Transaction) :
  snd (create_transaction transaction_data now d current_user)
    = Ok {| status_code := 201; body := row |} ->
  let d' := fst (create_transaction transaction_data now d current_user) in
  get_transaction (tx_id row) d' current_user
    = (d', Ok {| status_code := 200; body := row |})
  /\ (User_id other_user <> User_id current_user ->
      get_transaction (tx_id row) d' other_user
        = (d', Raise (HTTPException 404 "Transaction not found"))).
Proof.
  unfold create_transaction.
  destruct (valid_TransactionCreate transaction_data); cbn [fst snd]; [|discriminate].
  intro H. inversion H as [Hrow]. clear H.
  cbv zeta. unfold get_transaction, find_transaction.
  cbn [transactions set_transactions tx_id tx_user_id].
  rewrite !filter_app.
  split.
  - rewrite filter_none.
    + cbn [filter app tx_id tx_user_id]. rewrite !Z.eqb_refl. reflexivity.
    + intros t Ht. rewrite (created_row_is_new d t Ht). reflexivity.
  - intro Hother. rewrite filter_none.
    + cbn [filter app tx_id tx_user_id]. rewrite Z.eqb_refl.
      replace (User_id current_user =? User_id other_user) with false
        by (symmetry; apply Z.eqb_neq; congruence).
      reflexivity.
    + intros t Ht. rewrite (created_row_is_new d t Ht). reflexivity.
Qed.

Lemma create_then_get_transaction_witness :
  exists row,
    snd (create_transaction sample_payload 0 empty_database sample_user)
      = Ok {| status_code := 201; body := row |}
    /\ snd (get_transaction (tx_id row) sample_database sample_user)
       = Ok {| status_code := 200; body := row |}
    /\ snd (get_transaction (tx_id row) sample_database
              {| User_id := 8; User_email := "bob@example.org" |})
       = Raise (HTTPException 404 "Transaction not found").
Proof.
  eexists. split; [reflexivity|].
  destruct (create_then_get_transaction sample_payload 0 empty_database sample_user
              {| User_id := 8; User_email := "bob@example.org" |} _ eq_refl)
    as [Hown Hother].
  split.
  - exact (f_equal snd Hown).
  - exact (f_equal snd (Hother ltac:(discriminate))).
Defined.

(** X12. Insert then delete: deleting the transaction just created, by its
    new id, answers 204 and gives back the database as it was before the
    insert. *)
Theorem create_then_delete_transaction
    (transaction_data : TransactionCreate) (now : datetime)
    (d : database) (current_user : User) (row : Transaction) :
  snd (create_transaction transaction_data now d current_user)
    = Ok {| status_code := 201; body := row |} ->
  delete_transaction (tx_id row)
    (fst (create_transaction transaction_data now d current_user)) current_user
  = (d, Ok {| status_code := 204; body := tt |}).
Proof.
  unfold create_transaction.
  destruct (valid_TransactionCreate transaction_data); cbn [fst snd]; [|discriminate].
  intro H. inversion H as [Hrow]. clear H.
  unfold delete_transaction, find_transaction.
  cbn [transactions set_transactions tx_id tx_user_id].
  rewrite filter_app, filter_none.
  2: { intros t Ht. rewrite (created_row_is_new d t Ht). reflexivity. }
  cbn [filter app tx_id tx_user_id first hd_error]. rewrite !Z.eqb_refl.
  cbn [andb first hd_error tx_id].
  rewrite set_transactions_twice, filter_app.
  cbn [filter tx_id]. rewrite Z.eqb_refl. cbn [negb]. rewrite app_nil_r.
  rewrite filter_all.
  - rewrite set_transactions_same. reflexivity.
  - intros t Ht. rewrite (created_row_is_new d t Ht). reflexivity.
Qed.

Lemma create_then_delete_transaction_witness :
  exists row,
    snd (create_transaction sample_payload 0 other_users_rows sample_user)
      = Ok {| status_code := 201; body := row |}
    /\ tx_id row = 3
    /\ delete_transaction 3
         (fst (create_transaction sample_payload 0 other_users_rows sample_user))
         sample_user
       = (other_users_rows, Ok {| status_code := 204; body := tt |}).
Proof.
  eexists. split; [reflexivity|]. split; [reflexivity|].
  exact (create_then_delete_transaction sample_payload 0 other_users_rows sample_user
           _ eq_refl).
Defined.

Lemma length_filter_unique {A : Type} (key : A -> Z) (l : list A) (x : A) :
  NoDup (map key l) -> In x l ->
  S (List.length (filter (fun t => negb (key t =? key x)) l)) = List.length l.
Proof.
  induction l as [|y l IH]; cbn; intros Hnd Hin; [contradiction|].
  inversion Hnd as [|k ks Hnotin Hnd']; subst.
  destruct Hin as [-> | Hin].
  - rewrite Z.eqb_refl. cbn. f_equal. f_equal.
    apply filter_all. intros t Ht. apply negb_true_iff, Z.eqb_neq.
    intro E. apply Hnotin. rewrite <- E. apply in_map. exact Ht.
  - destruct (key y =? key x) eqn:E.
    + exfalso. apply Z.eqb_eq in E. apply Hnotin. rewrite E. apply in_map. exact Hin.
    + cbn. f_equal. exact (IH Hnd' Hin).
Qed.

(** X13. A successful [delete_transaction] changes the transactions table
    only: it removes the one row with the given id (ids being unique) and
    keeps every other row, in order; asking for the id again gives 404. *)
Theorem delete_transaction_removes_one_row
    (transaction_id : Z) (d : database) (current_user : User) :
  NoDup (map tx_id (transactions d)) ->
  owns_transaction d current_user transaction_id ->
  let d' := fst (delete_transaction transaction_id d current_user) in
  snd (delete_transaction transaction_id d current_user)
    = Ok {| status_code := 204; body := tt |}
  /\ d' = set_transactions d (transactions d')
  /\ transactions d' = filter (fun t => negb (tx_id t =? transaction_id)) (transactions d)
  /\ S (List.length (transactions d')) = List.length (transactions d)
  /\ (forall t, In t (transactions d) -> tx_id t <> transaction_id ->
        In t (transactions d'))
  /\ snd (get_transaction transaction_id d' current_user) = Raise not_found.
Proof.
  intros Hnd Hown. cbv zeta. unfold delete_transaction.
  destruct (find_transaction transaction_id d current_user) as [t|] eqn:Hfind.
  2: { apply find_transaction_none in Hfind. contradiction. }
  unfold find_transaction in Hfind. apply first_filter_some in Hfind as [Hin Ht].
  apply andb_true_iff in Ht as [Hid _]. apply Z.eqb_eq in Hid.
  cbn [fst snd transactions set_transactions]. rewrite Hid.
  split; [reflexivity|]. split; [reflexivity|]. split; [reflexivity|].
  split.
  { rewrite <- Hid. apply (length_filter_unique tx_id _ t Hnd Hin). }
  split.
  { intros t' Hin' Hne. apply filter_In. split; [exact Hin'|].
    apply negb_true_iff, Z.eqb_neq. exact Hne. }
  unfold get_transaction.
  replace (find_transaction transaction_id
             (set_transactions d
                (filter (fun t0 => negb (tx_id t0 =? transaction_id)) (transactions d)))
             current_user) with (@None Transaction); [reflexivity|].
  symmetry. unfold find_transaction. apply first_filter_none.
  cbn [transactions set_transactions]. intros x Hx. apply filter_In in Hx as [_ Hx].
  apply negb_true_iff in Hx. rewrite Hx. reflexivity.
Qed.

Lemma delete_transaction_removes_one_row_witness :
  NoDup (map tx_id (transactions other_users_rows))
  /\ owns_transaction other_users_rows sample_user 1
  /\ map tx_id (transactions (fst (delete_transaction 1 other_users_rows sample_user)))
     = [2].
Proof.
  assert (Hnd : NoDup (map tx_id (transactions other_users_rows))).
  { cbn. repeat constructor; cbn; intuition discriminate. }
  assert (Hown : owns_transaction other_users_rows sample_user 1).
  { eexists. split; [left; reflexivity | split; reflexivity]. }
  split; [exact Hnd|]. split; [exact Hown|].
  destruct (delete_transaction_removes_one_row 1 other_users_rows sample_user Hnd Hown)
    as (_ & _ & Hrows & _).
  rewrite Hrows. reflexivity.
Defined.

(** X14. What [get_transactions] lists: only rows of the table that belong
    to the current user and pass every filter that was given, ordered by
    transaction date from newest to oldest, and no more than [limit] of them
    when the limit is not negative. *)
Theorem get_transactions_lists_own_rows
    (skip limit : Z)
    (transaction_type : option TransactionType) (category : option TransactionCategory)
    (start_date end_date : option datetime) (min_amount max_amount : option Q)
    (d : database) (current_user : User) :
  exists rows,
    get_transactions skip limit transaction_type category start_date end_date
      min_amount max_amount d current_user
    = (d, Ok {| status_code := 200; body := rows |})
    /\ (forall t, In t rows ->
          In t (transactions d)
          /\ tx_user_id t = User_id current_user
          /\ (forall v, transaction_type = Some v -> tx_transaction_type t = v)
          /\ (forall v, category = Some v -> tx_category t = v)
          /\ (forall v, start_date = Some v -> v <= tx_transaction_date t)
          /\ (forall v, end_date = Some v -> tx_transaction_date t <= v)
          /\ (forall v, min_amount = Some v -> (v <= tx_amount t)%Q)
          /\ (forall v, max_amount = Some v -> (tx_amount t <= v)%Q))
    /\ StronglySorted (fun a b => tx_transaction_date b <= tx_transaction_date a) rows
    /\ (0 <= limit -> Z.of_nat (List.length rows) <= limit).
Proof.
  eexists. split; [reflexivity|]. split; [|split].
  - intros t Ht.
    apply In_limit, In_offset, sort_by_In in Ht.
    apply In_filter_opt in Ht as [Ht Hmax].
    apply In_filter_opt in Ht as [Ht Hmin].
    apply In_filter_opt in Ht as [Ht Hend].
    apply In_filter_opt in Ht as [Ht Hstart].
    apply In_filter_opt in Ht as [Ht Hcat].
    apply In_filter_opt in Ht as [Ht Hty].
    apply filter_In in Ht as [Hin Hu]. apply Z.eqb_eq in Hu.
    split; [exact Hin|]. split; [exact Hu|].
    split; [intros v ->; destruct (tx_transaction_type t), v; try discriminate; reflexivity|].
    split.
    { intros v ->. unfold TransactionCategory_eqb in Hcat. apply String.eqb_eq in Hcat.
      destruct (tx_category t), v; try discriminate; reflexivity. }
    split; [intros v ->; now apply Z.leb_le|].
    split; [intros v ->; now apply Z.leb_le|].
    split; [intros v ->; now apply Qle_bool_iff|].
    intros v ->. now apply Qle_bool_iff.
  - apply StronglySorted_limit. unfold offset. apply StronglySorted_skipn.
    match goal with |- StronglySorted _ (sort_by ?f ?l) =>
      pose proof (sort_by_sorted f
                    ltac:(intros a b; cbn; rewrite !Z.leb_le; lia)
                    ltac:(intros a b c; cbn; rewrite !Z.leb_le; lia) l) as Hs
    end.
    eapply StronglySorted_ind with (P := fun l =>
      StronglySorted (fun a b => tx_transaction_date b <= tx_transaction_date a) l);
      [constructor | | exact Hs].
    intros a l _ IH Hall. constructor; [exact IH|].
    eapply Forall_impl; [|exact Hall]. cbn. intros b Hb. now apply Z.leb_le.
  - apply length_limit.
Qed.

Example get_transactions_sample :
  exists rows,
    snd (get_transactions 0 1 (Some EXPENSE) None None None None None
           other_users_rows sample_user)
    = Ok {| status_code := 200; body := rows |}
    /\ map tx_id rows = [1].
Proof. eexists. split; reflexivity. Qed.

Lemma get_transactions_lists_own_rows_witness :
  exists rows,
    get_transactions 0 1 None None None None None None other_users_rows sample_user
    = (other_users_rows, Ok {| status_code := 200; body := rows |})
    /\ (forall t, In t rows -> tx_user_id t = 7)
    /\ Z.of_nat (List.length rows) <= 1.
Proof.
  destruct (get_transactions_lists_own_rows 0 1 None None None None None None
              other_users_rows sample_user) as (rows & Hr & Hown & _ & Hlen).
  exists rows. split; [exact Hr|]. split.
  - intros t Ht. exact (proj1 (proj2 (Hown t Ht))).
  - apply Hlen. lia.
Defined.

(** ** calculate_debt_payoff_strategy: payment order and timeline *)

Lemma map_insert_by {A B : Type} (g : A -> B) (before : B -> B -> bool) (x : A) (l : list A) :
  map g (insert_by (fun a b => before (g a) (g b)) x l) = insert_by before (g x) (map g l).
Proof.
  induction l as [|y l IH]; cbn; [reflexivity|].
  destruct (before (g x) (g y)); cbn; [reflexivity|]. rewrite IH. reflexivity.
Qed.

Lemma map_sort_by {A B : Type} (g : A -> B) (before : B -> B -> bool) (l : list A) :
  map g (sort_by (fun a b => before (g a) (g b)) l) = sort_by before (map g l).
Proof.
  induction l as [|x l IH]; cbn; [reflexivity|].
  fold (sort_by (fun a b => before (g a) (g b)) l). fold (sort_by before (map g l)).
  rewrite map_insert_by, IH. reflexivity.
Qed.

Lemma StronglySorted_bool {A : Type} (before : A -> A -> bool) (R : A -> A -> Prop)
    (l : list A) :
  (forall a b, before a b = true -> R a b) ->
  StronglySorted (fun a b => before a b = true) l -> StronglySorted R l.
Proof.
  intros HR Hs. induction Hs as [|a l _ IH Hall]; constructor; [exact IH|].
  eapply Forall_impl; [|exact Hall]. intros b Hb. exact (HR a b Hb).
Qed.

Lemma Qle_bool_total (a b : Q) : Qle_bool a b = true \/ Qle_bool b a = true.
Proof.
  rewrite !Qle_bool_iff. destruct (Qlt_le_dec a b) as [H | H]; [left; lra | right; exact H].
Qed.

Lemma Qle_bool_trans (a b c : Q) :
  Qle_bool a b = true -> Qle_bool b c = true -> Qle_bool a c = true.
Proof. rewrite !Qle_bool_iff. apply Qle_trans. Qed.

Lemma prepare_debt_data_order (strategy : string) (debts : list Debt) :
  prepare_debt_data strategy debts
  = map (fun debt => {| id := Debt_id debt; name := Debt_name debt;
                        balance := Debt_current_balance debt;
                        interest_rate := Debt_interest_rate debt;
                        minimum_payment := Debt_minimum_payment debt |})
      (payment_order_of strategy debts).
Proof.
  unfold prepare_debt_data, payment_order_of.
  destruct (String.eqb strategy "avalanche").
  - symmetry.
    apply (map_sort_by
             (fun debt => {| id := Debt_id debt; name := Debt_name debt;
                             balance := Debt_current_balance debt;
                             interest_rate := Debt_interest_rate debt;
                             minimum_payment := Debt_minimum_payment debt |})
             (fun a b => Qle_bool (interest_rate b) (interest_rate a))).
  - symmetry.
    apply (map_sort_by
             (fun debt => {| id := Debt_id debt; name := Debt_name debt;
                             balance := Debt_current_balance debt;
                             interest_rate := Debt_interest_rate debt;
                             minimum_payment := Debt_minimum_payment debt |})
             (fun a b => Qle_bool (balance a) (balance b))).
Qed.

(** X15. The payment order of a payoff plan names every active debt of the
    user exactly once, highest interest rate first for "avalanche" and
    smallest balance first for any other strategy. *)
Theorem payment_order_follows_strategy
    (fuel : nat) (monthly_payment : Q) (strategy : string)
    (d : database) (current_user : User)
    (strategy' : string) (monthly_payment' : Q) (total_months : option Z)
    (interest : Q) (events : list timeline_event) (payment_order : list string) :
  calculate_debt_payoff_strategy fuel monthly_payment strategy d current_user
    = Some (PayoffPlan strategy' monthly_payment' total_months interest events
              payment_order) ->
  let rows := payment_order_of strategy (active_debts d current_user) in
  payment_order = map Debt_name rows
  /\ Permutation rows (active_debts d current_user)
  /\ (strategy = "avalanche"%string ->
      StronglySorted
        (fun a b => (Debt_interest_rate b <= Debt_interest_rate a)%Q) rows)
  /\ (strategy <> "avalanche"%string ->
      StronglySorted
        (fun a b => (Debt_current_balance a <= Debt_current_balance b)%Q) rows).
Proof.
  unfold calculate_debt_payoff_strategy.
  destruct (active_debts d current_user) as [|d0 ds] eqn:Hactive; [discriminate|].
  destruct (while fuel payoff_guard (payoff_month monthly_payment)
              (payoff_start (prepare_debt_data strategy (d0 :: ds)))) as [s|];
    [|discriminate].
  intro H. injection H as Hs Hm Ht Hi He Ho.
  cbv zeta. split.
  - rewrite <- Ho, prepare_debt_data_order, map_map. reflexivity.
  - unfold payment_order_of. split.
    + destruct (String.eqb strategy "avalanche"); apply sort_by_perm.
    + split.
      * intros ->. cbn [String.eqb Ascii.eqb Bool.eqb].
        apply (StronglySorted_bool
                 (fun a b => Qle_bool (Debt_interest_rate b) (Debt_interest_rate a))).
        -- intros a b. apply Qle_bool_iff.
        -- apply sort_by_sorted.
           ++ intros a b. apply Qle_bool_total.
           ++ intros a b c H1 H2. exact (Qle_bool_trans _ _ _ H2 H1).
      * intro Hne. destruct (String.eqb_spec strategy "avalanche") as [E | _];
          [contradiction|].
        apply (StronglySorted_bool
                 (fun a b => Qle_bool (Debt_current_balance a) (Debt_current_balance b))).
        -- intros a b. apply Qle_bool_iff.
        -- apply sort_by_sorted.
           ++ intros a b. apply Qle_bool_total.
           ++ intros a b c. apply Qle_bool_trans.
Qed.

Lemma payment_order_follows_strategy_witness :
  map Debt_name (payment_order_of "avalanche" (active_debts debts_database sample_user))
  = [ "card"; "loan" ]%string
  /\ StronglySorted (fun a b => (Debt_interest_rate b <= Debt_interest_rate a)%Q)
       (payment_order_of "avalanche" (active_debts debts_database sample_user)).
Proof.
  destruct (payment_order_follows_strategy 360 200 "avalanche" debts_database sample_user
              "avalanche" 200 (Some 3) (973 # 100)
              [ {| month := 2; debt_name := "card" |};
                {| month := 3; debt_name := "loan" |} ]
              [ "card"; "loan" ]%string ltac:(vm_compute; reflexivity))
    as (Horder & _ & Hsorted & _).
  split; [symmetry; exact Horder | exact (Hsorted eq_refl)].
Defined.









(** ** Notifications: listing, marking as read, the test notification *)

Lemma In_filter_truthy (arg : option string) (column : NotificationLog -> string)
    (query : list NotificationLog) (n : NotificationLog) :
  In n (filter_truthy arg column query) <->
  In n query /\ (forall v, arg = Some v -> v <> ""%string -> column n = v).
Proof.
  unfold filter_truthy. destruct arg as [v|].
  - destruct v as [|c v]; cbn [truthy_str].
    + split; [intro H; split; [exact H|]; intros v E; inversion E; congruence | tauto].
    + rewrite filter_In, String.eqb_eq. split.
      * intros [H E]. split; [exact H|]. intros v' E' _. inversion E'; subst. exact E.
      * intros [H E]. split; [exact H|]. apply E; [reflexivity | discriminate].
  - split; [intro H; split; [exact H | discriminate] | tauto].
Qed.

Lemma length_filter_truthy (arg : option string) (column : NotificationLog -> string)
    (query : list NotificationLog) :
  (List.length (filter_truthy arg column query) <= List.length query)%nat.
Proof.
  unfold filter_truthy. destruct arg as [v|]; [|lia].
  destruct (truthy_str (Some v)); [apply filter_length_le | lia].
Qed.

Lemma limit_all {A : Type} (limit : Z) (l : list A) :
  Z.of_nat (List.length l) <= limit -> limit_ limit l = l.
Proof.
  intro H. unfold limit_. destruct (limit <? 0); [reflexivity|].
  apply firstn_all2. lia.
Qed.

(** X17. What GET /notifications lists when the limit passes validation:
    only notifications of the current user that pass each filter given as a
    non-empty string (an empty string filters nothing), newest first, and
    no more than [limit] of them, so never more than 100, when the limit is
    not negative.  A user who has no more than [limit] notifications gets
    every one that passes the filters. *)
Theorem get_notifications_lists_own_rows
    (notification_type category : option string) (limit : Z)
    (d : database) (current_user : User) :
  preferences.valid_limit limit = true ->
  exists rows,
    preferences.get_notifications notification_type category limit d current_user
    = (d, Ok {| status_code := 200; body := rows |})
    /\ rows = get_notifications (User_id current_user) notification_type category limit d
    /\ (forall n, In n rows ->
          In n (notification_logs d)
          /\ nl_user_id n = User_id current_user
          /\ (forall v, notification_type = Some v -> v <> ""%string ->
                nl_notification_type n = v)
          /\ (forall v, category = Some v -> v <> ""%string -> nl_category n = v))
    /\ StronglySorted (fun a b => nl_sent_at b <= nl_sent_at a) rows
    /\ (0 <= limit -> Z.of_nat (List.length rows) <= limit <= 100)
    /\ (Z.of_nat (List.length (filter (fun n => nl_user_id n =? User_id current_user)
                                 (notification_logs d))) <= limit ->
        forall n, In n (notification_logs d) ->
          nl_user_id n = User_id current_user ->
          (forall v, notification_type = Some v -> v <> ""%string ->
             nl_notification_type n = v) ->
          (forall v, category = Some v -> v <> ""%string -> nl_category n = v) ->
          In n rows).
Proof.
  intro Hv. unfold preferences.get_notifications. rewrite Hv.
  eexists. split; [reflexivity|]. split; [reflexivity|].
  unfold get_notifications. split; [|split; [|split]].
  - intros n Hn. apply In_limit, sort_by_In in Hn.
    apply In_filter_truthy in Hn as [Hn Hcat].
    apply In_filter_truthy in Hn as [Hn Hty].
    apply filter_In in Hn as [Hin Hu]. apply Z.eqb_eq in Hu.
    repeat (split; [assumption|]). assumption.
  - apply StronglySorted_limit.
    match goal with |- StronglySorted _ (sort_by ?f ?l) =>
      pose proof (sort_by_sorted f
                    ltac:(intros a b; cbn; rewrite !Z.leb_le; lia)
                    ltac:(intros a b c; cbn; rewrite !Z.leb_le; lia) l) as Hs
    end.
    eapply StronglySorted_bool; [|exact Hs]. cbn. intros a b Hab. now apply Z.leb_le.
  - intro H0. split; [now apply length_limit|].
    unfold preferences.valid_limit in Hv. now apply Z.leb_le.
  - intros Hlen n Hin Hu Hty Hcat.
    rewrite limit_all.
    + apply sort_by_In. apply In_filter_truthy. split; [|exact Hcat].
      apply In_filter_truthy. split; [|exact Hty].
      apply filter_In. split; [exact Hin | now apply Z.eqb_eq].
    + rewrite (Permutation_length (sort_by_perm _ _)).
      match goal with |- Z.of_nat (List.length (filter_truthy ?a ?c (filter_truthy ?a' ?c' ?l))) <= _ =>
        pose proof (length_filter_truthy a c (filter_truthy a' c' l));
        pose proof (length_filter_truthy a' c' l)
      end.
      lia.
Qed.

Lemma get_notifications_lists_own_rows_witness :
  exists rows,
    preferences.get_notifications (Some "push"%string) (Some ""%string) 5 two_logs sample_user
    = (two_logs, Ok {| status_code := 200; body := rows |})
    /\ map nl_id rows = [1]
    /\ Z.of_nat (List.length rows) <= 5 <= 100.
Proof.
  destruct (get_notifications_lists_own_rows (Some "push"%string) (Some ""%string) 5
              two_logs sample_user eq_refl) as (rows & Hr & Heq & _ & _ & Hlen & _).
  exists rows. split; [exact Hr|]. split; [rewrite Heq; reflexivity|].
  apply Hlen. lia.
Defined.

(** What [send_notification] does to the table, whatever it prints. *)
Lemma send_notification_table
    (now : datetime) (user_id : Z) (notification_type category title message : string)
    (delivery_method : option string) (extra_data : option json) (w : world) :
  let r := send_notification now user_id notification_type category title message
             delivery_method extra_data w in
  db (fst r) = set_notification_logs (db w) (notification_logs (db w) ++ [snd r])
  /\ nl_id (snd r) = fresh_id (map nl_id (notification_logs (db w)))
  /\ nl_user_id (snd r) = user_id
  /\ nl_read_at (snd r) = None.
Proof.
  cbn zeta. unfold send_notification.
  match goal with |- context [negb ?c] => destruct c end; cbn [negb].
  - match goal with |- context [_create_notification_log _ _ _ _ _ _ _ _ _ ?x] =>
      set (w0 := x)
    end.
    assert (Hw0 : db w0 = db w).
    { subst w0. destruct (String.eqb notification_type "email").
      - apply _send_email_notification_prints.
      - destruct (String.eqb notification_type "push"); reflexivity. }
    unfold _create_notification_log. cbn [fst snd db nl_id nl_user_id nl_read_at].
    rewrite Hw0. repeat split.
  - unfold _create_notification_log. cbn [fst snd db nl_id nl_user_id nl_read_at].
    repeat split.
Qed.

Lemma notification_logs_set (d : database) (rows : list NotificationLog) :
  notification_logs (set_notification_logs d rows) = rows.
Proof. reflexivity. Qed.

Lemma set_notification_logs_twice (d : database) (rows rows' : list NotificationLog) :
  set_notification_logs (set_notification_logs d rows) rows' = set_notification_logs d rows'.
Proof. reflexivity. Qed.

Lemma map_id_unchanged (utcnow : datetime) (i : Z) (rows : list NotificationLog) :
  (forall row, In row rows -> nl_id row <> i) ->
  map (fun row => if nl_id row =? i then read_notification utcnow row else row) rows = rows.
Proof.
  induction rows as [|x rows IH]; cbn; intro H; [reflexivity|].
  destruct (nl_id x =? i) eqn:E.
  - apply Z.eqb_eq in E. exfalso. exact (H x (or_introl eq_refl) E).
  - rewrite IH; [reflexivity|]. intros row Hrow. apply H. now right.
Qed.

Lemma filter_app_fresh (p : NotificationLog -> bool) (rows : list NotificationLog)
    (x : NotificationLog) :
  (forall row, In row rows -> p row = false) ->
  filter p (rows ++ [x]) = if p x then [x] else [].
Proof.
  intro H. rewrite filter_app, (filter_none p rows H). reflexivity.
Qed.

(** X18. Send, then mark as read: the notification [send_notification] has
    just logged is found by [mark_notification_read] under its id for the
    user it was sent to, and comes back with status "read" and the reading
    time while every older row stays as it was; under any other user's id
    the same call finds nothing and leaves the database alone. *)
Theorem send_then_mark_notification_read
    (now utcnow : datetime) (user_id other : Z)
    (notification_type category title message : string)
    (delivery_method : option string) (extra_data : option json) (w : world) :
  let r := send_notification now user_id notification_type category title message
             delivery_method extra_data w in
  mark_notification_read utcnow (nl_id (snd r)) user_id (db (fst r))
  = (set_notification_logs (db w)
       (notification_logs (db w) ++ [read_notification utcnow (snd r)]),
     Some (read_notification utcnow (snd r)))
  /\ nl_status (read_notification utcnow (snd r)) = "read"%string
  /\ nl_read_at (read_notification utcnow (snd r)) = Some utcnow
  /\ (other <> user_id ->
      mark_notification_read utcnow (nl_id (snd r)) other (db (fst r)) = (db (fst r), None)).
Proof.
  intro r.
  destruct (send_notification_table now user_id notification_type category title message
              delivery_method extra_data w) as (Hdb & Hid & Hu & _).
  fold r in Hdb, Hid, Hu.
  assert (Hold : forall row, In row (notification_logs (db w)) -> nl_id row <> nl_id (snd r)).
  { intros row Hrow. rewrite Hid.
    pose proof (fresh_id_above (map nl_id (notification_logs (db w))) (nl_id row)
                  (in_map nl_id _ _ Hrow)).
    lia. }
  split; [|split; [reflexivity|split; [reflexivity|]]].
  - unfold mark_notification_read. rewrite Hdb, notification_logs_set.
    rewrite filter_app_fresh.
    2:{ intros row Hrow. apply andb_false_iff. left. apply Z.eqb_neq. now apply Hold. }
    rewrite Z.eqb_refl, Hu, Z.eqb_refl. cbn [andb first hd_error].
    rewrite set_notification_logs_twice, map_app, map_id_unchanged by exact Hold.
    cbn [map]. rewrite Z.eqb_refl. reflexivity.
  - intro Hne. unfold mark_notification_read. rewrite Hdb, notification_logs_set.
    rewrite filter_app_fresh.
    2:{ intros row Hrow. apply andb_false_iff. left. apply Z.eqb_neq. now apply Hold. }
    rewrite Z.eqb_refl, Hu. cbn [andb].
    destruct (user_id =? other) eqn:E; [apply Z.eqb_eq in E; congruence|].
    reflexivity.
Qed.

Lemma send_then_mark_notification_read_witness :
  let r := send_notification 5 7 "push" "reminder" "Stretch" "Time to move" None None
             notification_world in
  fst (mark_notification_read 9 (nl_id (snd r)) 7 (db (fst r)))
  = set_notification_logs (db notification_world) [read_notification 9 (snd r)]
  /\ mark_notification_read 9 (nl_id (snd r)) 8 (db (fst r)) = (db (fst r), None).
Proof.
  intro r.
  destruct (send_then_mark_notification_read 5 9 7 8 "push" "reminder" "Stretch"
              "Time to move" None None notification_world) as (H1 & _ & _ & H2).
  fold r in H1, H2. split.
  - rewrite H1. reflexivity.
  - apply H2. lia.
Defined.

Lemma NoDup_snoc {A : Type} (l : list A) (x : A) : NoDup l -> ~ In x l -> NoDup (l ++ [x]).
Proof.
  intros Hl Hx. apply (Permutation_NoDup (l := x :: l)).
  - apply Permutation_cons_append.
  - now constructor.
Qed.

(** X19. The primary key of notification_logs stays a key: if no two rows
    share an id, none do after [send_notification] (the new row gets an id
    above every old one) nor after [mark_notification_read] (which keeps the
    ids of all rows, in their order). *)
Theorem notification_ids_stay_unique
    (now utcnow : datetime) (user_id notification_id reader : Z)
    (notification_type category title message : string)
    (delivery_method : option string) (extra_data : option json) (w : world) :
  NoDup (map nl_id (notification_logs (db w))) ->
  let r := send_notification now user_id notification_type category title message
             delivery_method extra_data w in
  NoDup (map nl_id (notification_logs (db (fst r))))
  /\ (forall i, In i (map nl_id (notification_logs (db w))) -> i < nl_id (snd r))
  /\ map nl_id (notification_logs
                  (fst (mark_notification_read utcnow notification_id reader (db w))))
     = map nl_id (notification_logs (db w)).
Proof.
  intros Hnd r.
  destruct (send_notification_table now user_id notification_type category title message
              delivery_method extra_data w) as (Hdb & Hid & _ & _).
  fold r in Hdb, Hid.
  assert (Hab : forall i, In i (map nl_id (notification_logs (db w))) -> i < nl_id (snd r)).
  { intros i Hi. rewrite Hid. now apply fresh_id_above. }
  split; [|split; [exact Hab|]].
  - rewrite Hdb, notification_logs_set, map_app. cbn [map].
    apply NoDup_snoc; [exact Hnd|]. intro Hin. apply Hab in Hin. lia.
  - unfold mark_notification_read.
    destruct (first _) as [n|]; [|reflexivity].
    cbn [fst]. rewrite notification_logs_set, map_map.
    apply map_ext. intro row. destruct (nl_id row =? nl_id n); reflexivity.
Qed.

Lemma notification_ids_stay_unique_witness :
  NoDup (map nl_id (notification_logs
           (db (fst (send_notification 30 8 "email" "alert" "Budget" "Over budget" None None
                       {| db := two_logs; console := [] |}))))).
Proof.
  refine (proj1 (notification_ids_stay_unique 30 31 8 1 7 "email" "alert" "Budget"
                   "Over budget" None None {| db := two_logs; console := [] |} _)).
  cbn. repeat constructor; cbn; intuition lia.
Defined.

(** X20. POST /notifications/{id}/read answers 404 "Notification not found"
    exactly when the current user has no notification with that id, and then
    the database is unchanged; otherwise it answers 200 with that
    notification, now with status "read" and the reading time, and only the
    notification_logs table is written. *)
Theorem mark_notification_read_404_iff_absent
    (utcnow : datetime) (notification_id : Z) (d : database) (current_user : User) :
  let r := preferences.mark_notification_read utcnow notification_id d current_user in
  (snd r = Raise (HTTPException 404 "Notification not found")
   <-> ~ owns_notification d current_user notification_id)
  /\ (~ owns_notification d current_user notification_id -> fst r = d)
  /\ (owns_notification d current_user notification_id ->
      exists n,
        snd r = Ok {| status_code := 200; body := n |}
        /\ nl_id n = notification_id
        /\ nl_user_id n = User_id current_user
        /\ nl_status n = "read"%string
        /\ nl_read_at n = Some utcnow
        /\ fst r = set_notification_logs d (notification_logs (fst r))).
Proof.
  intro r. subst r.
  unfold preferences.mark_notification_read, mark_notification_read.
  destruct (first (filter _ (notification_logs d))) as [n|] eqn:E.
  - apply first_filter_some in E as [Hin Hp].
    apply andb_true_iff in Hp as [Hi Hu]. apply Z.eqb_eq in Hi, Hu.
    assert (Hown : owns_notification d current_user notification_id).
    { exists n. repeat split; assumption. }
    cbn [fst snd]. split; [split; [discriminate | intro H; contradiction]|].
    split; [intro H; contradiction|].
    intros _. eexists. split; [reflexivity|]. cbn. repeat split; assumption.
  - assert (Hno : ~ owns_notification d current_user notification_id).
    { intros (n & Hin & Hi & Hu).
      pose proof (proj1 (first_filter_none _ _) E n Hin) as Hp. cbn in Hp.
      apply andb_false_iff in Hp as [Hp | Hp]; apply Z.eqb_neq in Hp; congruence. }
    cbn [fst snd]. split; [split; [intros _; exact Hno | reflexivity]|].
    split; [reflexivity|]. intro H. contradiction.
Qed.

Lemma mark_notification_read_404_iff_absent_witness :
  snd (preferences.mark_notification_read 9 2 two_logs sample_user)
  = Raise (HTTPException 404 "Notification not found")
  /\ fst (preferences.mark_notification_read 9 2 two_logs sample_user) = two_logs
  /\ exists n, snd (preferences.mark_notification_read 9 1 two_logs sample_user)
               = Ok {| status_code := 200; body := n |}
               /\ nl_status n = "read"%string.
Proof.
  assert (Hno : ~ owns_notification two_logs sample_user 2).
  { intros (n & Hin & Hi & Hu). cbn in Hin.
    destruct Hin as [<- | [<- | []]]; cbn in Hi, Hu; lia. }
  destruct (mark_notification_read_404_iff_absent 9 2 two_logs sample_user) as (H1 & H2 & _).
  destruct (mark_notification_read_404_iff_absent 9 1 two_logs sample_user) as (_ & _ & H3).
  split; [apply H1; exact Hno|]. split; [apply H2; exact Hno|].
  destruct H3 as (n & Hn & _ & _ & Hs & _).
  - eexists. split; [left; reflexivity | split; reflexivity].
  - exists n. split; assumption.
Defined.

(** X21. The test notification is an e-mail of category "test", so of all
    preference switches only the e-mail switch counts: the endpoint answers
    200 with status "skipped" exactly when the user's preferences row has
    e-mail notifications not switched on, and "sent" otherwise (also when
    there is no preferences row).  Either way one row is logged for the
    current user, with the id the response reports. *)
Theorem send_test_notification_status
    (now : datetime) (w : world) (current_user : User) :
  let preferences :=
    first (filter (fun p => up_user_id p =? User_id current_user)
             (user_preferences (db w))) in
  exists w' body log,
    preferences.send_test_notification now w current_user
    = (w', Ok {| status_code := 200; body := body |})
    /\ (preferences.tn_status body = "skipped"%string
        <-> exists p, preferences = Some p
                      /\ truthy_bool (enable_email_notifications p) = false)
    /\ (preferences.tn_status body = "sent"%string
        <-> ~ exists p, preferences = Some p
                        /\ truthy_bool (enable_email_notifications p) = false)
    /\ db w' = set_notification_logs (db w) (notification_logs (db w) ++ [log])
    /\ nl_id log = preferences.tn_notification_id body
    /\ nl_status log = preferences.tn_status body
    /\ nl_user_id log = User_id current_user
    /\ nl_category log = "test"%string.
Proof.
  intro preferences.
  unfold preferences.send_test_notification.
  destruct (send_notification_table now (User_id current_user) "email" "test"
              "Test Notification" "This is a test notification from Wellbeing Copilot."
              None (Some preferences.test_extra_data) w) as (Hdb & _ & Hu & _).
  cbn zeta in Hdb, Hu.
  assert (Hst :
    let log := snd (send_notification now (User_id current_user) "email" "test"
                      "Test Notification"
                      "This is a test notification from Wellbeing Copilot."
                      None (Some preferences.test_extra_data) w) in
    nl_category log = "test"%string
    /\ (nl_status log = "skipped"%string
        <-> exists p, preferences = Some p
                      /\ truthy_bool (enable_email_notifications p) = false)
    /\ (nl_status log = "sent"%string
        <-> ~ exists p, preferences = Some p
                        /\ truthy_bool (enable_email_notifications p) = false)).
  { cbn zeta. unfold send_notification. fold preferences.
    destruct preferences as [p|]; cbn [_is_notification_enabled String.eqb Ascii.eqb
                                       Bool.eqb andb].
    - destruct (truthy_bool (enable_email_notifications p)) eqn:E; cbn.
      + split; [reflexivity|].
        split; split; try discriminate.
        * intros (p' & Hp & Hf). inversion Hp; subst. congruence.
        * intros _ (p' & Hp & Hf). inversion Hp; subst. congruence.
        * reflexivity.
      + split; [reflexivity|].
        split; split; try discriminate; try reflexivity.
        * intros _. exists p. split; [reflexivity | exact E].
        * intro H. exfalso. apply H. exists p. split; [reflexivity | exact E].
    - cbn. split; [reflexivity|].
      split; split; try discriminate; try reflexivity.
      + intros (p' & Hp & _). discriminate.
      + intros _ (p' & Hp & _). discriminate. }
  cbn zeta in Hst. destruct Hst as (Hcat & Hsk & Hse).
  destruct (send_notification _ _ _ _ _ _ _ _ _) as [w' log].
  cbn [fst snd] in *.
  exists w'. eexists. exists log.
  split; [reflexivity|]. cbn [preferences.tn_status preferences.tn_notification_id].
  repeat (split; [assumption || reflexivity|]). assumption.
Qed.

Lemma send_test_notification_status_witness :
  exists w' body,
    preferences.send_test_notification 5 notification_world sample_user
    = (w', Ok {| status_code := 200; body := body |})
    /\ preferences.tn_status body = "skipped"%string.
Proof.
  destruct (send_test_notification_status 5 notification_world sample_user)
    as (w' & body & log & Hr & Hsk & _).
  exists w', body. split; [exact Hr|].
  apply Hsk. eexists. split; [reflexivity|]. reflexivity.
Defined.

(** ** Budgets: create_budget and get_budgets *)

Lemma TransactionCategory_eqb_eq (a b : TransactionCategory) :
  TransactionCategory_eqb a b = true <-> a = b.
Proof.
  unfold TransactionCategory_eqb. rewrite String.eqb_eq. split.
  - destruct a, b; intro H; try discriminate H; reflexivity.
  - intros ->. reflexivity.
Qed.

Lemma is_active_1_eq (flag : option Z) : is_active_1 flag = true <-> flag = Some 1.
Proof.
  destruct flag as [f|]; cbn; [|split; discriminate].
  rewrite Z.eqb_eq. split; [intros ->; reflexivity | intro H; now inversion H].
Qed.

Lemma is_active_budget_for_eq (user_id : Z) (category : TransactionCategory) (b : Budget) :
  is_active_budget_for user_id category b = true
  <-> Budget_user_id b = user_id /\ Budget_category b = category
      /\ Budget_is_active b = Some 1.
Proof.
  unfold is_active_budget_for.
  rewrite !andb_true_iff, Z.eqb_eq, TransactionCategory_eqb_eq, is_active_1_eq. tauto.
Qed.

Lemma existing_budget_iff (db : financial_database) (current_user : User)
    (category : TransactionCategory) :
  first (filter (is_active_budget_for (User_id current_user) category) (budgets db)) <> None
  <-> has_active_budget db current_user category.
Proof.
  split.
  - destruct (first _) as [b|] eqn:E; [intros _ | congruence].
    apply first_filter_some in E as [Hin Hp]. apply is_active_budget_for_eq in Hp.
    exists b. tauto.
  - intros (b & Hin & Hu & Hc & Ha) E.
    pose proof (proj1 (first_filter_none _ _) E b Hin) as Hp.
    assert (Ht : is_active_budget_for (User_id current_user) category b = true)
      by (apply is_active_budget_for_eq; tauto).
    congruence.
Qed.

(** X22. For a payload that passes validation, POST /budgets answers 400
    exactly when the current user already has an active budget for the
    payload's category, and then the database is unchanged; otherwise it
    answers 201 and appends one budget row that belongs to the user, carries
    the payload's fields, is active and has a fresh primary key. *)
Theorem create_budget_400_iff_active_budget
    (format_category : TransactionCategory -> string)
    (budget_data : BudgetCreate) (now : datetime)
    (db : financial_database) (current_user : User) :
  valid_BudgetCreate budget_data = true ->
  let r := create_budget format_category budget_data now db current_user in
  ((exists detail, snd r = Raise (HTTPException 400 detail))
   <-> has_active_budget db current_user (bc_category budget_data))
  /\ (has_active_budget db current_user (bc_category budget_data) -> fst r = db)
  /\ (~ has_active_budget db current_user (bc_category budget_data) ->
      exists budget,
        r = (set_budgets db (budgets db ++ [budget]),
             Ok {| status_code := 201; body := budget |})
        /\ Budget_user_id budget = User_id current_user
        /\ Budget_category budget = bc_category budget_data
        /\ Budget_amount_limit budget = bc_amount_limit budget_data
        /\ Budget_period budget = bc_period budget_data
        /\ Budget_start_date budget = bc_start_date budget_data
        /\ Budget_end_date budget = bc_end_date budget_data
        /\ Budget_alert_threshold budget = Some (bc_alert_threshold budget_data)
        /\ Budget_is_active budget = Some 1
        /\ (forall b, In b (budgets db) -> Budget_id b < Budget_id budget)).
Proof.
  intros Hv r. subst r. unfold create_budget. rewrite Hv.
  pose proof (existing_budget_iff db current_user (bc_category budget_data)) as Hex.
  destruct (first _) as [b|] eqn:E; cbn [fst snd].
  - assert (Hhas : has_active_budget db current_user (bc_category budget_data))
      by (apply Hex; discriminate).
    split; [split; [intros _; exact Hhas | intros _; eexists; reflexivity]|].
    split; [reflexivity|]. intro H. contradiction.
  - assert (Hno : ~ has_active_budget db current_user (bc_category budget_data))
      by (intro H; apply Hex in H; congruence).
    split; [split; [intros (detail & H); discriminate H | intro H; contradiction]|].
    split; [intro H; contradiction|].
    intros _. eexists. split; [reflexivity|]. cbn.
    repeat (split; [reflexivity|]).
    intros b' Hb'. apply fresh_id_above. now apply in_map.
Qed.

Lemma create_budget_400_iff_active_budget_witness :
  (exists detail,
     snd (create_budget category_value sample_budget_payload 0
            sample_financial_database sample_user)
     = Raise (HTTPException 400 detail))
  /\ fst (create_budget category_value sample_budget_payload 0
            sample_financial_database sample_user)
     = sample_financial_database.
Proof.
  assert (Hhas : has_active_budget sample_financial_database sample_user
                   (bc_category sample_budget_payload)).
  { eexists. split; [left; reflexivity|]. repeat split. }
  destruct (create_budget_400_iff_active_budget category_value sample_budget_payload 0
              sample_financial_database sample_user eq_refl) as (H1 & H2 & _).
  split; [apply H1; exact Hhas | apply H2; exact Hhas].
Defined.

Lemma nth_error_snoc {A : Type} (l : list A) (x y : A) (i : nat) :
  nth_error (l ++ [x]) i = Some y ->
  (i < List.length l)%nat /\ nth_error l i = Some y \/ i = List.length l /\ y = x.
Proof.
  intro H. destruct (Nat.lt_ge_cases i (List.length l)) as [Hlt | Hge].
  - left. split; [exact Hlt|]. rewrite nth_error_app1 in H by exact Hlt. exact H.
  - right. rewrite nth_error_app2 in H by exact Hge.
    destruct (i - List.length l)%nat as [|k] eqn:E; cbn in H.
    + split; [lia | congruence].
    + destruct k; discriminate H.
Qed.

(** X23. Creating a budget keeps the rule the 400 stands for: if no user
    has two active budgets for one category before a valid POST /budgets,
    none has after it.  Whatever the first request answered, the user then
    has an active budget for the category, so the same request again is
    answered 400 and GET /budgets lists an active budget for that category. *)
Theorem create_budget_keeps_one_active_per_category
    (format_category : TransactionCategory -> string)
    (budget_data : BudgetCreate) (now later : datetime)
    (db : financial_database) (current_user : User) :
  valid_BudgetCreate budget_data = true ->
  one_active_budget_per_category (budgets db) ->
  let db' := fst (create_budget format_category budget_data now db current_user) in
  one_active_budget_per_category (budgets db')
  /\ has_active_budget db' current_user (bc_category budget_data)
  /\ (exists detail,
        create_budget format_category budget_data later db' current_user
        = (db', Raise (HTTPException 400 detail)))
  /\ (exists rows b,
        get_budgets true db' current_user = (db', Ok {| status_code := 200; body := rows |})
        /\ In b rows
        /\ Budget_category b = bc_category budget_data
        /\ Budget_is_active b = Some 1).
Proof.
  intros Hv Hone db'.
  assert (Hdb' : one_active_budget_per_category (budgets db')
                 /\ has_active_budget db' current_user (bc_category budget_data)).
  { subst db'. unfold create_budget. rewrite Hv.
    pose proof (existing_budget_iff db current_user (bc_category budget_data)) as Hex.
    destruct (first _) as [b|] eqn:E; cbn [fst].
    - split; [exact Hone | apply Hex; discriminate].
    - assert (Hno : ~ has_active_budget db current_user (bc_category budget_data))
        by (intro H; apply Hex in H; congruence).
      split.
      + cbn [budgets set_budgets].
        intros i j bi bj Hi Hj Hai Haj Hu Hc.
        apply nth_error_snoc in Hi, Hj.
        destruct Hi as [[Hli Hi] | [Hi ->]], Hj as [[Hlj Hj] | [Hj ->]].
        * exact (Hone i j bi bj Hi Hj Hai Haj Hu Hc).
        * exfalso. apply Hno. exists bi. cbn in Hu, Hc.
          split; [eapply nth_error_In; exact Hi | tauto].
        * exfalso. apply Hno. exists bj. cbn in Hu, Hc.
          split; [eapply nth_error_In; exact Hj|]. split; [congruence|].
          split; [congruence | exact Haj].
        * congruence.
      + eexists. split; [cbn [budgets set_budgets]; apply in_or_app; right; left; reflexivity|].
        cbn. repeat split. }
  destruct Hdb' as [Hone' Hhas]. split; [exact Hone'|]. split; [exact Hhas|]. split.
  - unfold create_budget. rewrite Hv.
    destruct (first _) as [b|] eqn:E; [eexists; reflexivity|].
    exfalso. apply (existing_budget_iff db' current_user (bc_category budget_data)) in Hhas.
    congruence.
  - destruct Hhas as (b & Hin & Hu & Hc & Ha).
    eexists. exists b. split; [reflexivity|]. split; [|split; assumption].
    apply sort_by_In. apply filter_In. split.
    + apply filter_In. split; [exact Hin | now apply Z.eqb_eq].
    + now apply is_active_1_eq.
Qed.

Lemma create_budget_keeps_one_active_per_category_witness :
  one_active_budget_per_category
    (budgets (fst (create_budget category_value sample_budget_payload 0
                     (set_budgets sample_financial_database []) sample_user)))
  /\ exists detail,
       snd (create_budget category_value sample_budget_payload 1
              (fst (create_budget category_value sample_budget_payload 0
                      (set_budgets sample_financial_database []) sample_user))
              sample_user)
       = Raise (HTTPException 400 detail).
Proof.
  destruct (create_budget_keeps_one_active_per_category category_value
              sample_budget_payload 0 1 (set_budgets sample_financial_database [])
              sample_user eq_refl) as (H1 & _ & (detail & H3) & _).
  - intros i j bi bj Hi. destruct i; discriminate Hi.
  - split; [exact H1|]. exists detail. rewrite H3. reflexivity.
Defined.
(** ** The financial health score *)

Lemma fold_left_Qplus_lower (lo : Q) (l : list Q) :
  Forall (fun x => (lo <= x)%Q) l ->
  forall a, (a + lo * inject_Z (Z.of_nat (List.length l)) <= fold_left Qplus l a)%Q.
Proof.
  induction 1 as [|x l Hx _ IH]; intro a; cbn [fold_left List.length].
  - change (inject_Z (Z.of_nat 0)) with 0%Q. lra.
  - specialize (IH (a + x)%Q). rewrite Nat2Z.inj_succ. unfold Z.succ.
    rewrite inject_Z_plus. change (inject_Z 1) with 1%Q.
    generalize dependent (inject_Z (Z.of_nat (List.length l))). intros n IH.
    generalize dependent (fold_left Qplus l (a + x)%Q). intros s IH. lra.
Qed.

Lemma fold_left_Qplus_upper (hi : Q) (l : list Q) :
  Forall (fun x => (x <= hi)%Q) l ->
  forall a, (fold_left Qplus l a <= a + hi * inject_Z (Z.of_nat (List.length l)))%Q.
Proof.
  induction 1 as [|x l Hx _ IH]; intro a; cbn [fold_left List.length].
  - change (inject_Z (Z.of_nat 0)) with 0%Q. lra.
  - specialize (IH (a + x)%Q). rewrite Nat2Z.inj_succ. unfold Z.succ.
    rewrite inject_Z_plus. change (inject_Z 1) with 1%Q.
    generalize dependent (inject_Z (Z.of_nat (List.length l))). intros n IH.
    generalize dependent (fold_left Qplus l (a + x)%Q). intros s IH. lra.
Qed.

Lemma py_sum_nonneg (l : list Q) : Forall (fun x => (0 <= x)%Q) l -> (0 <= py_sum l)%Q.
Proof.
  intro H. pose proof (fold_left_Qplus_lower 0 l H 0) as Hl. unfold py_sum.
  generalize dependent (fold_left Qplus l 0%Q). intros s Hs. lra.
Qed.

Lemma mean_bounds (lo hi : Q) (l : list Q) :
  l <> [] ->
  Forall (fun x => (lo <= x <= hi)%Q) l ->
  (lo <= py_sum l / inject_Z (Z.of_nat (List.length l)) <= hi)%Q.
Proof.
  intros Hne H.
  assert (Hn : (0 < inject_Z (Z.of_nat (List.length l)))%Q).
  { destruct l; [congruence|]. unfold Qlt. cbn. lia. }
  assert (Hlo : Forall (fun x => (lo <= x)%Q) l)
    by (eapply Forall_impl; [|exact H]; cbn; tauto).
  assert (Hhi : Forall (fun x => (x <= hi)%Q) l)
    by (eapply Forall_impl; [|exact H]; cbn; tauto).
  pose proof (fold_left_Qplus_lower lo l Hlo 0) as H1.
  pose proof (fold_left_Qplus_upper hi l Hhi 0) as H2.
  unfold py_sum. split.
  - apply Qle_shift_div_l; [exact Hn|]. lra.
  - apply Qle_shift_div_r; [exact Hn|]. lra.
Qed.

Lemma for_each_cases {A B : Type} (f : A -> result B) (l : list A) :
  (exists ys, for_each f l = Ok ys
              /\ List.length ys = List.length l
              /\ (forall x, In x l -> exists y, f x = Ok y /\ In y ys)
              /\ (forall y, In y ys -> exists x, In x l /\ f x = Ok y))
  \/ (exists x e, In x l /\ f x = Raise e /\ for_each f l = Raise e).
Proof.
  induction l as [|x l IH]; cbn [for_each].
  - left. exists []. split; [reflexivity|]. split; [reflexivity|].
    split; [intros x [] | intros y []].
  - destruct (f x) as [y|e] eqn:E; cbn [bind].
    + destruct IH as [(ys & -> & Hlen & Hall & Hback) | (x' & e & Hin & Hf & ->)];
        cbn [bind].
      * left. exists (y :: ys). split; [reflexivity|]. split; [cbn; lia|]. split.
        -- intros x' [<- | Hin]; [exists y; split; [exact E | now left]|].
           destruct (Hall x' Hin) as (y' & Hy' & Hin'). exists y'. split; [exact Hy' | now right].
        -- intros y' [<- | Hin]; [exists x; split; [now left | exact E]|].
           destruct (Hback y' Hin) as (x' & Hin' & Hx'). exists x'. split; [now right | exact Hx'].
      * right. exists x', e. split; [now right|]. split; [exact Hf | reflexivity].
    + right. exists x, e. split; [now left|]. split; [exact E | reflexivity].
Qed.

(** The two averaged scores share their shape: no rows give 0, otherwise
    the mean of the rows' scores times a weight. *)
Lemma mean_score_range {A : Type} (f : A -> result Q) (weight : Q) (l : list A) :
  (0 <= weight)%Q ->
  (forall x, In x l -> exists y, f x = Ok y /\ (0 <= y <= 100)%Q) ->
  exists s,
    match l with
    | [] => Ok 0%Q
    | _ :: _ =>
        scores <- for_each f l ;;
        Ok ((py_sum scores / inject_Z (Z.of_nat (List.length scores))) * weight)%Q
    end = Ok s
    /\ (0 <= s <= 100 * weight)%Q.
Proof.
  intros Hw Hall. destruct l as [|x0 l0]; [exists 0%Q; split; [reflexivity | lra]|].
  cbv match. remember (x0 :: l0) as l eqn:El.
  assert (Hne : l <> []) by (subst; discriminate).
  clear x0 l0 El.
  destruct (for_each_cases f l) as [(ys & -> & Hlen & _ & Hback) | (x & e & Hin & Hf & _)].
  - cbn [bind]. eexists. split; [reflexivity|].
    assert (Hys : Forall (fun y => (0 <= y <= 100)%Q) ys).
    { apply Forall_forall. intros y Hy. destruct (Hback y Hy) as (x & Hin & Hx).
      destruct (Hall x Hin) as (y' & Hy' & Hr). congruence. }
    assert (Hne' : ys <> []).
    { intro; subst. cbn in Hlen. destruct l; [congruence | discriminate]. }
    pose proof (mean_bounds 0 100 ys Hne' Hys) as Hm.
    generalize dependent (py_sum ys / inject_Z (Z.of_nat (List.length ys)))%Q.
    intros m Hm. nra.
  - destruct (Hall x Hin) as (y & Hy & _). congruence.
Qed.

Lemma mean_score_cases {A : Type} (f : A -> result Q) (weight : Q) (l : list A) :
  (exists s,
     match l with
     | [] => Ok 0%Q
     | _ :: _ =>
         scores <- for_each f l ;;
         Ok ((py_sum scores / inject_Z (Z.of_nat (List.length scores))) * weight)%Q
     end = Ok s
     /\ forall x, In x l -> exists y, f x = Ok y)
  \/ (exists x e,
        In x l /\ f x = Raise e
        /\ match l with
           | [] => Ok 0%Q
           | _ :: _ =>
               scores <- for_each f l ;;
               Ok ((py_sum scores / inject_Z (Z.of_nat (List.length scores))) * weight)%Q
           end = Raise e).
Proof.
  destruct l as [|x0 l0]; [left; exists 0%Q; split; [reflexivity | intros x []]|].
  cbv match. generalize (x0 :: l0). clear x0 l0. intro l.
  destruct (for_each_cases f l) as [(ys & -> & _ & Hall & _) | (x & e & Hin & Hf & ->)].
  - left. eexists. split; [reflexivity|].
    intros x Hx. destruct (Hall x Hx) as (y & Hy & _). exists y. exact Hy.
  - right. exists x, e. split; [exact Hin|]. split; [exact Hf | reflexivity].
Qed.

Lemma budget_adherence_cases (recent : list Transaction) (b : Budget) :
  ((Budget_amount_limit b == 0)%Q /\ budget_adherence recent b = Raise ZeroDivisionError)
  \/ (~ (Budget_amount_limit b == 0)%Q /\ exists y, budget_adherence recent b = Ok y).
Proof.
  unfold budget_adherence. cbv zeta.
  destruct (Qeq_dec (Budget_amount_limit b) 0) as [H | H].
  - left. split; [exact H|]. rewrite (py_div_zero _ _ H). reflexivity.
  - right. split; [exact H|]. rewrite (py_div_nonzero _ _ H). eexists. reflexivity.
Qed.

Lemma goal_progress_cases (g : FinancialGoal) :
  (Goal_current_amount g = None /\ goal_progress g = Raise TypeError)
  \/ (Goal_current_amount g <> None /\ (Goal_target_amount g == 0)%Q
      /\ goal_progress g = Raise ZeroDivisionError)
  \/ (Goal_current_amount g <> None /\ ~ (Goal_target_amount g == 0)%Q
      /\ exists y, goal_progress g = Ok y).
Proof.
  unfold goal_progress.
  destruct (Goal_current_amount g) as [c|]; [|left; split; reflexivity].
  right. cbn [py_div_nullable].
  destruct (Qeq_dec (Goal_target_amount g) 0) as [H | H].
  - left. split; [discriminate|]. split; [exact H|].
    rewrite (py_div_zero _ _ H). reflexivity.
  - right. split; [discriminate|]. split; [exact H|].
    rewrite (py_div_nonzero _ _ H). eexists. reflexivity.
Qed.

Lemma Qdiv_nonneg (a b : Q) : (0 <= a)%Q -> (0 < b)%Q -> (0 <= a / b)%Q.
Proof. intros Ha Hb. apply Qle_shift_div_l; [exact Hb | lra]. Qed.

Lemma budget_adherence_range (recent : list Transaction) (b : Budget) :
  Forall (fun t => (0 <= tx_amount t)%Q) recent ->
  (0 < Budget_amount_limit b)%Q ->
  exists y, budget_adherence recent b = Ok y /\ (0 <= y <= 100)%Q.
Proof.
  intros Hrec Hlim. unfold budget_adherence. cbv zeta.
  rewrite py_div_nonzero by lra. cbn [bind]. eexists. split; [reflexivity|].
  match goal with |- context [(?s / _)%Q] =>
    assert (Hs : (0 <= s)%Q)
  end.
  { apply py_sum_nonneg. apply Forall_forall. intros x Hx.
    apply in_map_iff in Hx as (t & <- & Ht). apply filter_In in Ht as [Ht _].
    exact (proj1 (Forall_forall _ _) Hrec t Ht). }
  pose proof (Qdiv_nonneg _ _ Hs Hlim) as Hq.
  match goal with |- context [py_max 0 ?e] =>
    destruct (py_max_cases 0 e) as [[-> H] | [-> H]]
  end; lra.
Qed.

Lemma goal_progress_range (g : FinancialGoal) (c : Q) :
  (0 < Goal_target_amount g)%Q -> Goal_current_amount g = Some c -> (0 <= c)%Q ->
  exists y, goal_progress g = Ok y /\ (0 <= y <= 100)%Q.
Proof.
  intros Ht Ec Hc. unfold goal_progress. rewrite Ec. cbn [py_div_nullable].
  rewrite py_div_nonzero by lra. cbn [bind].
  eexists. split; [reflexivity|]. cbv zeta.
  pose proof (Qdiv_nonneg _ _ Hc Ht) as Hq.
  match goal with |- context [py_min 100 ?e] =>
    destruct (py_min_cases 100 e) as [[-> H] | [-> H]]
  end; lra.
Qed.

Lemma py_round_2_range (hi : Z) (x : Q) :
  (0 <= x <= inject_Z hi)%Q -> (0 <= py_round x 2 <= inject_Z hi)%Q.
Proof.
  intros [H0 H1].
  destruct (py_round_2_bounds 0 (hi * 100) x) as [Ha Hb].
  - unfold Qle in *. cbn in *. lia.
  - unfold Qle in *. cbn in *. lia.
  - split.
    + unfold Qle in *. cbn in *. lia.
    + unfold Qle in *. cbn in *. lia.
Qed.

Lemma generate_recommendations_nonempty
    (savings_score budget_score goal_score debt_score emergency_score : Q) :
  generate_recommendations savings_score budget_score goal_score debt_score emergency_score
  <> [].
Proof.
  unfold generate_recommendations. cbv zeta.
  match goal with |- match ?l with _ => _ end <> [] => destruct l as [|r rs] eqn:E end.
  - discriminate.
  - discriminate.
Qed.

(** X24. When the user's rows are as the request schemas let them be
    written, GET /health-score answers 200 and every component score lies
    between 0 and its [max_score] (30, 25, 20, 15 and 10), the overall score
    between 0 and 100, and there is at least one recommendation. *)
Theorem calculate_financial_health_score_range
    (now : datetime) (db : financial_database) (current_user : User) :
  schema_valid db current_user ->
  exists body,
    calculate_financial_health_score now db current_user
    = (db, Ok {| status_code := 200; body := body |})
    /\ Forall (fun c => (0 <= se_score c <= inject_Z (se_max_score c))%Q)
         [ hs_savings_rate body; hs_budget_adherence body; hs_goal_progress body;
           hs_debt_management body; hs_emergency_fund body ]
    /\ map se_max_score
         [ hs_savings_rate body; hs_budget_adherence body; hs_goal_progress body;
           hs_debt_management body; hs_emergency_fund body ]
       = [30; 25; 20; 15; 10]
    /\ (0 <= hs_overall_score body <= 100)%Q
    /\ hs_recommendations body <> [].
Proof.
  intros (Htx & Hb & Hg & Hd).
  unfold calculate_financial_health_score. cbv zeta.
  set (recent := filter _ (transactions (base db))).
  set (bs := filter _ (budgets db)).
  set (gs := filter _ (financial_goals db)).
  assert (Hrec : Forall (fun t => (0 <= tx_amount t)%Q) recent).
  { apply Forall_forall. intros t Ht. apply filter_In in Ht as [Hin Hp].
    apply andb_true_iff in Hp as [Hu _]. apply Z.eqb_eq in Hu.
    apply Qlt_le_weak. now apply Htx. }
  destruct (mean_score_range (budget_adherence recent) 0.25 bs) as (bscore & -> & Rb).
  { lra. }
  { intros b Hin. apply filter_In in Hin as [Hin Hp].
    apply andb_true_iff in Hp as [Hu _]. apply Z.eqb_eq in Hu.
    apply budget_adherence_range; [exact Hrec | now apply Hb]. }
  assert (Hgs : forall g, In g gs ->
                  (0 < Goal_target_amount g)%Q
                  /\ exists c, Goal_current_amount g = Some c /\ (0 <= c)%Q).
  { intros g Hin. apply filter_In in Hin as [Hin Hp].
    apply andb_true_iff in Hp as [Hu _]. apply Z.eqb_eq in Hu. now apply Hg. }
  destruct (mean_score_range goal_progress 0.20 gs) as (gscore & -> & Rg).
  { lra. }
  { intros g Hin. destruct (Hgs g Hin) as (Ht & c & Ec & Hc).
    now apply (goal_progress_range g c). }
  cbn [bind].
  match goal with |- context [match ?o with Some _ => _ | None => Ok 0%Q end] =>
    assert (He : exists escore, o = o /\
                   match o with
                   | Some g =>
                       q <- py_div_nullable (Goal_current_amount g)
                              (Goal_target_amount g) ;;
                       Ok (py_min 10 (q * 10))
                   | None => Ok 0%Q
                   end = Ok escore /\ (0 <= escore <= 10)%Q)
  end.
  { destruct (first _) as [g|] eqn:E.
    - apply first_filter_some in E as [Hin _].
      destruct (Hgs g Hin) as (Ht & c & Ec & Hc). rewrite Ec. cbn [py_div_nullable].
      rewrite py_div_nonzero by lra. cbn [bind]. eexists. split; [reflexivity|].
      split; [reflexivity|].
      pose proof (Qdiv_nonneg _ _ Hc Ht) as Hq.
      match goal with |- context [py_min 10 ?e] =>
        destruct (py_min_cases 10 e) as [[-> H] | [-> H]]
      end; lra.
    - exists 0%Q. split; [reflexivity|]. split; [reflexivity | lra]. }
  destruct He as (escore & _ & -> & Re). cbn [bind].
  match goal with |- context [py_min 30 (py_max 0 ?e)] =>
    assert (Rs : (0 <= py_min 30 (py_max 0 e) <= 30)%Q)
      by (destruct (py_max_cases 0 e) as [[-> H] | [-> H]];
          match goal with |- context [py_min 30 ?y] =>
            destruct (py_min_cases 30 y) as [[-> H'] | [-> H']] end; lra);
    set (sscore := py_min 30 (py_max 0 e)) in *
  end.
  match goal with |- context [if Qltb 0 ?mi then py_max 0 ?e else 0%Q] =>
    assert (Rd : (0 <= (if Qltb 0 mi then py_max 0 e else 0%Q) <= 15)%Q);
    [| set (dscore := if Qltb 0 mi then py_max 0 e else 0%Q) in *]
  end.
  { match goal with |- context [Qltb 0 ?mi] => destruct (Qltb 0 mi) eqn:Emi end;
      [|lra].
    apply Qltb_true in Emi.
    match goal with |- context [(?td / (?mi * 12) * 100)%Q] =>
      assert (Htd : (0 <= td)%Q);
      [| assert (Hq : (0 <= td / (mi * 12))%Q) by (apply Qdiv_nonneg; lra) ]
    end.
    { apply py_sum_nonneg. apply Forall_forall. intros x Hx.
      apply in_map_iff in Hx as (d & <- & Hin). unfold active_debts in Hin.
      apply filter_In in Hin as [Hin Hp].
      apply andb_true_iff in Hp as [Hu _]. apply Z.eqb_eq in Hu. now apply Hd. }
    match goal with |- context [py_max 0 ?e] =>
      destruct (py_max_cases 0 e) as [[-> H] | [-> H]]
    end; lra. }
  eexists. split; [reflexivity|].
  cbn [hs_savings_rate hs_budget_adherence hs_goal_progress hs_debt_management
       hs_emergency_fund hs_overall_score hs_recommendations se_score se_max_score map].
  split.
  { repeat (apply Forall_cons; [cbn [se_score se_max_score]; apply py_round_2_range|]);
      [.. | apply Forall_nil].
    - change (inject_Z 30) with 30%Q. lra.
    - change (inject_Z 25) with 25%Q. lra.
    - change (inject_Z 20) with 20%Q. lra.
    - change (inject_Z 15) with 15%Q. lra.
    - change (inject_Z 10) with 10%Q. lra. }
  split; [reflexivity|].
  split; [|apply generate_recommendations_nonempty].
  change 100%Q with (inject_Z 100). apply py_round_2_range.
  change (inject_Z 100) with 100%Q. lra.
Qed.
Lemma calculate_financial_health_score_range_witness :
  exists body,
    calculate_financial_health_score (days_from_civil 2024 4 1 * day_us)
      sample_financial_database sample_user
    = (sample_financial_database, Ok {| status_code := 200; body := body |})
    /\ (0 <= hs_overall_score body <= 100)%Q.
Proof.
  destruct (calculate_financial_health_score_range (days_from_civil 2024 4 1 * day_us)
              sample_financial_database sample_user) as (body & Hr & _ & _ & Ho & _).
  - split; [|split; [|split]].
    + intros t Hin _. cbn in Hin. destruct Hin as [<- | []]. reflexivity.
    + intros b Hin _. cbn in Hin. destruct Hin as [<- | []]. reflexivity.
    + intros g Hin _. cbn in Hin. destruct Hin as [<- | []].
      split; [reflexivity|]. eexists. split; [reflexivity | discriminate].
    + intros d Hin _. cbn in Hin. destruct Hin.
  - exists body. split; [exact Hr | exact Ho].
Defined.

(** X25. GET /health-score never writes, and it fails in two ways only.
    It answers 200 exactly when the user has no active budget whose limit
    is zero, no open goal whose current amount is NULL and no open goal
    whose target is zero.  Otherwise it raises ZeroDivisionError or
    TypeError: ZeroDivisionError whenever there is such a budget, TypeError
    only when there is none and some open goal has a NULL amount,
    ZeroDivisionError only when a limit or the target of a goal with an
    amount is zero; with no NULL amount, ZeroDivisionError exactly when a
    limit or a target is zero. *)
Theorem calculate_financial_health_score_raises_iff
    (now : datetime) (db : financial_database) (current_user : User) :
  let r := calculate_financial_health_score now db current_user in
  let zero_budget :=
    exists b, In b (budgets db)
              /\ Budget_user_id b = User_id current_user
              /\ Budget_is_active b = Some 1
              /\ (Budget_amount_limit b == 0)%Q in
  let null_goal :=
    exists g, In g (financial_goals db)
              /\ Goal_user_id g = User_id current_user
              /\ Goal_is_completed g = Some 0
              /\ Goal_current_amount g = None in
  let zero_goal :=
    exists g, In g (financial_goals db)
              /\ Goal_user_id g = User_id current_user
              /\ Goal_is_completed g = Some 0
              /\ Goal_current_amount g <> None
              /\ (Goal_target_amount g == 0)%Q in
  fst r = db
  /\ ((exists body, snd r = Ok {| status_code := 200; body := body |})
      <-> ~ (zero_budget \/ null_goal \/ zero_goal))
  /\ (forall e, snd r = Raise e -> e = ZeroDivisionError \/ e = TypeError)
  /\ (zero_budget -> snd r = Raise ZeroDivisionError)
  /\ (snd r = Raise TypeError -> ~ zero_budget /\ null_goal)
  /\ (snd r = Raise ZeroDivisionError -> zero_budget \/ zero_goal)
  /\ (~ null_goal -> (snd r = Raise ZeroDivisionError <-> zero_budget \/ zero_goal)).
Proof.
  intros r zero_budget null_goal zero_goal. subst r.
  split; [reflexivity|].
  unfold calculate_financial_health_score. cbv zeta. cbn [snd].
  set (recent := filter _ (transactions (base db))).
  set (bs := filter _ (budgets db)).
  set (gs := filter _ (financial_goals db)).
  assert (Hbs : forall b, In b bs <->
                  In b (budgets db) /\ Budget_user_id b = User_id current_user
                  /\ Budget_is_active b = Some 1).
  { intro b. subst bs. rewrite filter_In, andb_true_iff, Z.eqb_eq, is_active_1_eq. tauto. }
  assert (Hgs : forall g, In g gs <->
                  In g (financial_goals db) /\ Goal_user_id g = User_id current_user
                  /\ Goal_is_completed g = Some 0).
  { intro g. subst gs. rewrite filter_In, andb_true_iff, Z.eqb_eq.
    assert (Hc : is_completed_0 (Goal_is_completed g) = true <-> Goal_is_completed g = Some 0).
    { destruct (Goal_is_completed g) as [f|]; cbn; [|split; discriminate].
      rewrite Z.eqb_eq. split; [intros ->; reflexivity | intro H; now inversion H]. }
    tauto. }
  assert (Hzb : zero_budget <-> exists b, In b bs /\ (Budget_amount_limit b == 0)%Q).
  { subst zero_budget. split.
    - intros (b & H1 & H2 & H3 & H4). exists b. split; [apply Hbs; tauto | exact H4].
    - intros (b & H1 & H4). apply Hbs in H1. exists b. tauto. }
  assert (Hng : null_goal <-> exists g, In g gs /\ Goal_current_amount g = None).
  { subst null_goal. split.
    - intros (g & H1 & H2 & H3 & H4). exists g. split; [apply Hgs; tauto | exact H4].
    - intros (g & H1 & H4). apply Hgs in H1. exists g. tauto. }
  assert (Hzg : zero_goal <-> exists g, In g gs /\ Goal_current_amount g <> None
                                        /\ (Goal_target_amount g == 0)%Q).
  { subst zero_goal. split.
    - intros (g & H1 & H2 & H3 & H4). exists g. split; [apply Hgs; tauto | exact H4].
    - intros (g & H1 & H4). apply Hgs in H1. exists g. tauto. }
  rewrite Hzb, Hng, Hzg. clear Hzb Hng Hzg Hbs Hgs zero_budget null_goal zero_goal.
  destruct (mean_score_cases (budget_adherence recent) 0.25 bs)
    as [(bscore & -> & Hball) | (b & e & Hin & Hf & ->)]; cbn [bind].
  2:{ destruct (budget_adherence_cases recent b) as [[Hz Hr] | [_ (y & Hy)]]; [|congruence].
      assert (e = ZeroDivisionError) by congruence. subst e.
      assert (Hzb : exists b, In b bs /\ (Budget_amount_limit b == 0)%Q)
        by (exists b; tauto).
      split; [split; [intros (body & H); discriminate H | tauto]|].
      split; [intros e H; left; congruence|].
      split; [reflexivity|].
      split; [discriminate|].
      split; [tauto|]. intros _. tauto. }
  assert (Hnb : ~ exists b, In b bs /\ (Budget_amount_limit b == 0)%Q).
  { intros (b & Hin & Hz). destruct (Hball b Hin) as (y & Hy).
    destruct (budget_adherence_cases recent b) as [[_ Hr] | [Hnz _]]; [congruence | tauto]. }
  destruct (mean_score_cases goal_progress 0.20 gs)
    as [(gscore & -> & Hgall) | (g & e & Hin & Hf & ->)]; cbn [bind].
  2:{ destruct (goal_progress_cases g)
        as [[Hn Hr] | [(Hs & Hz & Hr) | (_ & _ & y & Hy)]]; [| |congruence].
      - assert (e = TypeError) by congruence. subst e.
        assert (Hng : exists g, In g gs /\ Goal_current_amount g = None)
          by (exists g; tauto).
        split; [split; [intros (body & H); discriminate H | tauto]|].
        split; [intros e H; right; congruence|].
        split; [tauto|].
        split; [tauto|].
        split; [discriminate|]. tauto.
      - assert (e = ZeroDivisionError) by congruence. subst e.
        assert (Hzg : exists g, In g gs /\ Goal_current_amount g <> None
                                /\ (Goal_target_amount g == 0)%Q)
          by (exists g; tauto).
        split; [split; [intros (body & H); discriminate H | tauto]|].
        split; [intros e H; left; congruence|].
        split; [tauto|].
        split; [discriminate|].
        split; [tauto|]. intros _. tauto. }
  assert (Hgood : forall g, In g gs ->
            Goal_current_amount g <> None /\ ~ (Goal_target_amount g == 0)%Q).
  { intros g Hin. destruct (Hgall g Hin) as (y & Hy).
    destruct (goal_progress_cases g)
      as [[_ Hr] | [(_ & _ & Hr) | (Hs & Hnz & _)]]; [congruence | congruence | tauto]. }
  match goal with |- context [match ?o with Some _ => _ | None => Ok 0%Q end] =>
    assert (He : exists escore,
                   match o with
                   | Some g =>
                       q <- py_div_nullable (Goal_current_amount g)
                              (Goal_target_amount g) ;;
                       Ok (py_min 10 (q * 10))
                   | None => Ok 0%Q
                   end = Ok escore)
  end.
  { destruct (first _) as [g|] eqn:E; [|eexists; reflexivity].
    apply first_filter_some in E as [Hin _].
    destruct (Hgood g Hin) as [Hs Hnz].
    destruct (Goal_current_amount g) as [c|]; [|contradiction].
    cbn [py_div_nullable]. rewrite py_div_nonzero by exact Hnz. eexists. reflexivity. }
  destruct He as (escore & ->). cbn [bind].
  assert (Hnn : ~ exists g, In g gs /\ Goal_current_amount g = None).
  { intros (g & Hin & Hn). destruct (Hgood g Hin). contradiction. }
  assert (Hnz : ~ exists g, In g gs /\ Goal_current_amount g <> None
                            /\ (Goal_target_amount g == 0)%Q).
  { intros (g & Hin & _ & Hz). destruct (Hgood g Hin). contradiction. }
  split; [split; [tauto | intros _; eexists; reflexivity]|].
  split; [discriminate|].
  split; [tauto|].
  split; [discriminate|].
  split; [discriminate|].
  intros _. split; [discriminate | tauto].
Qed.

Lemma calculate_financial_health_score_raises_iff_witness :
  snd (calculate_financial_health_score 0
         {| base := empty_database;
            budgets :=
              [ {| Budget_id := 1; Budget_user_id := 7; Budget_category := FOOD;
                   Budget_amount_limit := 0; Budget_period := "monthly";
                   Budget_start_date := 0; Budget_end_date := None;
                   Budget_is_active := Some 1; Budget_alert_threshold := None;
                   Budget_created_at := 0; Budget_updated_at := None |} ];
            financial_goals :=
              [ {| Goal_id := 1; Goal_user_id := 7; Goal_title := "Car";
                   Goal_target_amount := 500; Goal_current_amount := None;
                   Goal_is_completed := Some 0 |} ] |}
         sample_user)
  = Raise ZeroDivisionError.
Proof.
  pose proof (calculate_financial_health_score_raises_iff 0
           {| base := empty_database;
              budgets :=
                [ {| Budget_id := 1; Budget_user_id := 7; Budget_category := FOOD;
                     Budget_amount_limit := 0; Budget_period := "monthly";
                     Budget_start_date := 0; Budget_end_date := None;
                     Budget_is_active := Some 1; Budget_alert_threshold := None;
                     Budget_created_at := 0; Budget_updated_at := None |} ];
              financial_goals :=
                [ {| Goal_id := 1; Goal_user_id := 7; Goal_title := "Car";
                     Goal_target_amount := 500; Goal_current_amount := None;
                     Goal_is_completed := Some 0 |} ] |}
           sample_user) as H.
  cbv zeta in H. destruct H as (_ & _ & _ & H & _). apply H.
  eexists. split; [left; reflexivity|]. repeat split.
Defined.

(** The two texts about one score exclude each other, and neither is given
    exactly when the score reaches the bound or is negative. *)
Lemma recommendation_flags (x bound : Q) :
  (0 < bound)%Q ->
  (Qltb x bound && Qltb 0 x) && Qeq_bool x 0 = false
  /\ ((Qltb x bound && Qltb 0 x = false /\ Qeq_bool x 0 = false)
      <-> (bound <= x \/ x < 0)%Q).
Proof.
  intro Hb. split.
  - destruct (Qeq_bool x 0) eqn:E; [|apply andb_false_r].
    apply Qeq_bool_iff in E. rewrite andb_true_r. apply andb_false_iff. right.
    apply Qltb_false. lra.
  - rewrite andb_false_iff, !Qltb_false. split.
    + intros [H Hne].
      assert (Hx : ~ (x == 0)%Q) by (intro E; apply Qeq_bool_iff in E; congruence).
      destruct H as [H | H]; [left; exact H|].
      right. destruct (Qlt_le_dec x 0) as [Hlt | Hge]; [exact Hlt|].
      exfalso. apply Hx. lra.
    + intro H. split; [destruct H; [left | right]; lra|].
      apply Qeq_bool_false. intro E. lra.
Qed.

(** X26. The recommendations of the health score: there is always at least
    one and never more than five (the two budget texts exclude each other,
    and so do the two goal texts); "Great job! ..." is never mixed with
    advice, and it is what is returned exactly when the savings score is at
    least 15, the debt score at least 10, the emergency score at least 5,
    and the budget and goal scores are at least 15 and 10 or negative. *)
Theorem generate_recommendations_great_job
    (savings_score budget_score goal_score debt_score emergency_score : Q) :
  let r := generate_recommendations savings_score budget_score goal_score debt_score
             emergency_score in
  let great := "Great job! Keep up your excellent financial habits"%string in
  r <> []
  /\ (List.length r <= 5)%nat
  /\ (In great r <-> r = [great])
  /\ (r = [great]
      <-> (15 <= savings_score)%Q
          /\ (15 <= budget_score \/ budget_score < 0)%Q
          /\ (10 <= goal_score \/ goal_score < 0)%Q
          /\ (10 <= debt_score)%Q
          /\ (5 <= emergency_score)%Q).
Proof.
  intros r great.
  split; [apply generate_recommendations_nonempty|].
  destruct (recommendation_flags budget_score 15 ltac:(lra)) as (Hb & <-).
  destruct (recommendation_flags goal_score 10 ltac:(lra)) as (Hg & <-).
  rewrite <- !Qltb_false.
  assert (Hr : r = generate_recommendations savings_score budget_score goal_score
                     debt_score emergency_score) by reflexivity.
  clearbody r. unfold generate_recommendations in Hr. subst great.
  revert Hr Hb Hg.
  generalize (Qltb savings_score 15),
             (Qltb budget_score 15 && Qltb 0 budget_score), (Qeq_bool budget_score 0),
             (Qltb goal_score 10 && Qltb 0 goal_score), (Qeq_bool goal_score 0),
             (Qltb debt_score 10), (Qltb emergency_score 5).
  intros c1 c2 c3 c4 c5 c6 c7 Hr Hb Hg.
  destruct c2, c3; try discriminate Hb; destruct c4, c5; try discriminate Hg;
    destruct c1, c6, c7; cbv beta iota zeta delta [app] in Hr; subst r;
    cbn [List.length In];
    (split; [lia|]);
    (split;
     [ split; [intro H; repeat (destruct H as [H | H]; [try discriminate H|]);
               first [contradiction | reflexivity]
              | intro H; first [discriminate H | left; reflexivity] ]
     | split; [intro H; first [discriminate H | repeat split]
              | intros (H1 & (H2 & H3) & (H4 & H5) & H6 & H7);
                first [discriminate | reflexivity] ] ]).
Qed.

(** ** Health alerts *)

Lemma send_notification_fields
    (now : datetime) (user_id : Z) (notification_type category title message : string)
    (delivery_method : option string) (extra_data : option json) (w : world) :
  let log := snd (send_notification now user_id notification_type category title message
                    delivery_method extra_data w) in
  nl_notification_type log = notification_type
  /\ nl_category log = category
  /\ nl_title log = title
  /\ nl_message log = message
  /\ nl_extra_data log = extra_data
  /\ nl_sent_at log = now.
Proof.
  cbn zeta. unfold send_notification.
  match goal with |- context [negb ?c] => destruct c end; cbn [negb];
    unfold _create_notification_log; cbn; repeat split.
Qed.

Lemma health_alerts_nonempty (bio : Biometric) :
  health_alerts bio <> []
  <-> (exists v, bio_blood_pressure_systolic bio = Some v /\ 140 < v)
      \/ (exists v, bio_heart_rate bio = Some v /\ v <> 0 /\ (100 < v \/ v < 60)).
Proof.
  unfold health_alerts, and_then, truthy_int.
  destruct (bio_blood_pressure_systolic bio) as [s|], (bio_heart_rate bio) as [h|]; cbn zeta.
  - destruct (negb (s =? 0) && (140 <? s)) eqn:Es, (negb (h =? 0) && ((100 <? h) || (h <? 60))) eqn:Eh;
      cbn [app]; (split; [intro H | intros [(v & E & Hv) | (v & E & Hv)]; try discriminate]);
      try (exfalso; apply H; reflexivity); try (inversion E; subst v; clear E);
      try (apply andb_true_iff in Es as [Es0 Es1]; apply Z.ltb_lt in Es1);
      try (apply andb_true_iff in Eh as [Eh0 Eh1]; apply negb_true_iff, Z.eqb_neq in Eh0;
           apply orb_true_iff in Eh1; rewrite !Z.ltb_lt in Eh1);
      try (left; exists s; split; [reflexivity | lia]);
      try (right; exists h; split; [reflexivity | lia]).
    + apply andb_false_iff in Es as [Es | Es];
        [apply negb_false_iff, Z.eqb_eq in Es | apply Z.ltb_ge in Es]; lia.
    + apply andb_false_iff in Eh as [Eh | Eh].
      * apply negb_false_iff, Z.eqb_eq in Eh. lia.
      * apply orb_false_iff in Eh as [E1 E2]. apply Z.ltb_ge in E1, E2. lia.
  - destruct (negb (s =? 0) && (140 <? s)) eqn:Es; cbn [app].
    + split; [intros _ | discriminate].
      apply andb_true_iff in Es as [_ Es]. apply Z.ltb_lt in Es. left. exists s. tauto.
    + split; [intro H; exfalso; apply H; reflexivity|].
      intros [(v & E & Hv) | (v & E & _)]; [|discriminate]. inversion E; subst v.
      apply andb_false_iff in Es as [Es | Es];
        [apply negb_false_iff, Z.eqb_eq in Es | apply Z.ltb_ge in Es]; lia.
  - destruct (negb (h =? 0) && ((100 <? h) || (h <? 60))) eqn:Eh; cbn [app].
    + split; [intros _ | discriminate].
      apply andb_true_iff in Eh as [Eh0 Eh1]. apply negb_true_iff, Z.eqb_neq in Eh0.
      apply orb_true_iff in Eh1. rewrite !Z.ltb_lt in Eh1. right. exists h. tauto.
    + split; [intro H; exfalso; apply H; reflexivity|].
      intros [(v & E & _) | (v & E & Hv)]; [discriminate|]. inversion E; subst v.
      apply andb_false_iff in Eh as [Eh | Eh].
      * apply negb_false_iff, Z.eqb_eq in Eh. lia.
      * apply orb_false_iff in Eh as [E1 E2]. apply Z.ltb_ge in E1, E2. lia.
  - split; [intro H; exfalso; apply H; reflexivity|].
    intros [(v & E & _) | (v & E & _)]; discriminate.
Qed.

(** Filtering keeps permutations. *)
Lemma Permutation_filter_compat {A : Type} (f : A -> bool) (l l' : list A) :
  Permutation l l' -> Permutation (filter f l) (filter f l').
Proof.
  induction 1 as [| x l l' _ IH | x y l | l l' l'' _ IH1 _ IH2]; cbn [filter].
  - constructor.
  - destruct (f x); [constructor|]; exact IH.
  - destruct (f x), (f y); try apply Permutation_refl; constructor.
  - eapply Permutation_trans; eassumption.
Qed.

(** X27. [_check_health_alerts] logs one notification per biometric row of
    the user's last seven days that gives an alert, and nothing for any
    other row, in the order in which the database returns the rows (the
    query has no ORDER BY: any order of the selected rows is allowed).  Each
    new row is an e-mail of category "alert" titled "Health Alert" for this
    user and carries the id of its biometric; no other table changes.  A row
    gives an alert exactly when its systolic pressure is above 140 or its
    heart rate is above 100 or below 60 and not 0 (a missing value or a
    heart rate of 0 gives none). *)
Theorem check_health_alerts_logs_alarming_rows
    (all_rows : list Biometric -> list Biometric)
    (utcnow now : datetime) (biometrics : list Biometric) (user_id : Z)
    (preferences : UserPreferences) (w : world) :
  (forall l, Permutation (all_rows l) l) ->
  let w' := _check_health_alerts all_rows utcnow now biometrics user_id preferences w in
  exists rows returned,
    db w' = set_notification_logs (db w) (notification_logs (db w) ++ rows)
    /\ Permutation returned (filter (alarming utcnow user_id) biometrics)
    /\ Forall2
         (fun row bio =>
            nl_extra_data row = Some (biometric_extra_data bio)
            /\ nl_user_id row = user_id
            /\ nl_notification_type row = "email"%string
            /\ nl_category row = "alert"%string
            /\ nl_title row = "Health Alert"%string)
         rows returned
    /\ (forall bio,
          alarming utcnow user_id bio = true
          <-> bio_user_id bio = user_id
              /\ utcnow - 7 * day_us <= bio_measurement_date bio
              /\ ((exists v, bio_blood_pressure_systolic bio = Some v /\ 140 < v)
                  \/ (exists v, bio_heart_rate bio = Some v /\ v <> 0
                                /\ (100 < v \/ v < 60)))).
Proof.
  intros Hperm w'. subst w'. unfold _check_health_alerts. cbv zeta.
  assert (Hal : forall bio,
            alarming utcnow user_id bio = true
            <-> bio_user_id bio = user_id
                /\ utcnow - 7 * day_us <= bio_measurement_date bio
                /\ health_alerts bio <> []).
  { intro bio. unfold alarming. rewrite !andb_true_iff, Z.eqb_eq, Z.leb_le.
    destruct (health_alerts bio); split; intros [[H1 H2] H3]
      || intros (H1 & H2 & H3); try discriminate; try congruence;
      repeat split; try assumption; discriminate. }
  assert (Hfilter : filter (alarming utcnow user_id) biometrics
                    = filter (fun bio => match health_alerts bio with
                                         | [] => false
                                         | _ :: _ => true
                                         end)
                        (filter (fun b => (bio_user_id b =? user_id)
                                          && (utcnow - 7 * day_us <=? bio_measurement_date b))
                           biometrics)).
  { unfold alarming. apply filter_andb. }
  rewrite Hfilter. clear Hfilter.
  pose proof (Hperm (filter (fun b => (bio_user_id b =? user_id)
                                      && (utcnow - 7 * day_us <=? bio_measurement_date b))
                       biometrics)) as Hsel.
  revert Hsel.
  generalize (filter (fun b => (bio_user_id b =? user_id)
                               && (utcnow - 7 * day_us <=? bio_measurement_date b))
                biometrics).
  intros selected Hsel.
  generalize dependent (all_rows selected).
  intros l Hsel.
  assert (Hfold : exists rows,
    db (fold_left
          (fun w bio =>
             match health_alerts bio with
             | [] => w
             | _ :: _ =>
                 fst (send_notification now user_id "email" "alert" "Health Alert"
                        (String.concat newline (health_alerts bio) ++ newline ++ newline
                         ++ "Consider consulting with a healthcare professional.")%string
                        None (Some (biometric_extra_data bio)) w)
             end) l w)
    = set_notification_logs (db w) (notification_logs (db w) ++ rows)
    /\ Forall2
         (fun row bio =>
            nl_extra_data row = Some (biometric_extra_data bio)
            /\ nl_user_id row = user_id
            /\ nl_notification_type row = "email"%string
            /\ nl_category row = "alert"%string
            /\ nl_title row = "Health Alert"%string)
         rows (filter (fun bio => match health_alerts bio with
                                  | [] => false
                                  | _ :: _ => true
                                  end) l)).
  { clear Hsel. revert w. induction l as [|bio l IH]; intro w; cbn [fold_left filter].
    - exists []. rewrite app_nil_r. split; [|constructor].
      destruct w as [d c]. destruct d. reflexivity.
    - destruct (health_alerts bio) as [|a alerts] eqn:Ea.
      + apply IH.
      + match goal with |- context [fold_left _ l (fst ?r)] =>
          pose proof (eq_refl r) as Hr; set (sent := r) in Hr at 1 |- *
        end.
        destruct (send_notification_table now user_id "email" "alert" "Health Alert"
                    (String.concat newline (a :: alerts) ++ newline ++ newline
                     ++ "Consider consulting with a healthcare professional.")%string
                    None (Some (biometric_extra_data bio)) w) as (Hdb & _ & Hu & _).
        destruct (send_notification_fields now user_id "email" "alert" "Health Alert"
                    (String.concat newline (a :: alerts) ++ newline ++ newline
                     ++ "Consider consulting with a healthcare professional.")%string
                    None (Some (biometric_extra_data bio)) w)
          as (Hty & Hcat & Htitle & _ & Hed & _).
        cbn zeta in Hdb, Hu, Hty, Hcat, Htitle, Hed.
        fold sent in Hdb, Hu, Hty, Hcat, Htitle, Hed.
        destruct (IH (fst sent)) as (rows & Hrows & Hall).
        exists (snd sent :: rows). split.
        * rewrite Hrows, Hdb. cbn [notification_logs set_notification_logs].
          rewrite <- app_assoc. reflexivity.
        * constructor; [|exact Hall]. repeat split; assumption. }
  destruct Hfold as (rows & Hrows & Hall).
  exists rows. eexists. split; [exact Hrows|].
  split; [apply Permutation_filter_compat; exact Hsel|].
  split; [exact Hall|].
  intro bio. rewrite Hal, health_alerts_nonempty. reflexivity.
Qed.

Lemma check_health_alerts_logs_alarming_rows_witness :
  exists rows,
    db (_check_health_alerts (@rev Biometric) 500 600 sample_biometrics 7
          {| up_id := 1; up_user_id := 7;
             enable_email_notifications := Some true;
             enable_push_notifications := Some true;
             daily_briefing_enabled := Some true;
             alert_critical_enabled := Some true;
             alert_high_enabled := None |}
          notification_world)
    = set_notification_logs (db notification_world) rows
    /\ List.length rows = 1%nat.
Proof.
  destruct (check_health_alerts_logs_alarming_rows (@rev Biometric) 500 600
              sample_biometrics 7
              {| up_id := 1; up_user_id := 7;
                 enable_email_notifications := Some true;
                 enable_push_notifications := Some true;
                 daily_briefing_enabled := Some true;
                 alert_critical_enabled := Some true;
                 alert_high_enabled := None |}
              notification_world) as (rows & returned & Hdb & Hp & Hall & _).
  - intro l. apply Permutation_sym, Permutation_rev.
  - exists rows. split; [exact Hdb|].
    apply Forall2_length in Hall. rewrite Hall.
    apply Permutation_length in Hp. rewrite Hp. reflexivity.
Defined.

(** ** The daily briefing *)

(** X28. [generate_daily_briefing] never produces a briefing: its first
    query reads [Transaction.date], which the Transaction model does not
    declare (the column is [transaction_date]), so for every time, tasks
    table, database and user the call raises AttributeError before any row
    is read; POST /briefing/generate therefore never answers 200, and leaves
    the database as it was. *)
Theorem generate_daily_briefing_raises
    (utcnow : datetime) (tasks : list Task) (d : database) (current_user : User) :
  generate_daily_briefing utcnow tasks d (User_id current_user)
  = Raise (AttributeError "Transaction" "date")
  /\ generate_daily_briefing_endpoint utcnow tasks d current_user
     = (d, Raise (AttributeError "Transaction" "date"))
  /\ declares Transaction_attributes "date" = false
  /\ declares Transaction_attributes "transaction_date" = true
  /\ (forall r, snd (generate_daily_briefing_endpoint utcnow tasks d current_user) <> Ok r).
Proof.
  assert (H : generate_daily_briefing utcnow tasks d (User_id current_user)
              = Raise (AttributeError "Transaction" "date")) by reflexivity.
  split; [exact H|].
  unfold generate_daily_briefing_endpoint. rewrite H. cbn [bind snd].
  split; [reflexivity|]. split; [reflexivity|]. split; [reflexivity|].
  intros r. discriminate.
Qed.

Example generate_daily_briefing_with_rows :
  generate_daily_briefing (days_from_civil 2024 3 16 * day_us) [] sample_database 7
  = Raise (AttributeError "Transaction" "date").
Proof. reflexivity. Qed.
